(** * Trading portfolio manager: ledger and aggregation engine

    A shallow embedding of
      - [portfolio_manager/connectors/sheets_connector.py]
      - [portfolio_manager/core/wallet_manager.py]
      - [portfolio_manager/core/portfolio_manager.py]
      - [portfolio_manager/connectors/bot_connector.py]
      - [portfolio_manager/core/dashboard.py]

    The program keeps every wallet ledger in a worksheet of a Google
    spreadsheet.  It writes the trades as rows of strings and numbers, and
    it writes, as strings, the formulas that are meant to do the arithmetic
    (running balance, cost basis, current value, APY).  The embedding has
    three layers:
      - the worksheet grid: what every cell holds, which is what a read of
        the cell returns;
      - Python values, exceptions and a state-and-exception monad over the
        spreadsheet, the dictionary of wallet managers and the dictionary
        of registered bots;
      - the methods of the five classes, written in that monad.

    Conventions.  [SheetsConnector.update_range] calls
    [worksheet.update(range_name, values)] without a value input option, so
    the values are stored as they are sent (gspread's default, RAW): a
    string stays a string, also when it starts with [=]; a float is a
    number; the empty string leaves the cell empty.  A cell that holds a
    number is read back by [float] as that number (plain number format).

    A Python float is an exact rational ([Q]), an infinity or nan: the
    rounding of the finite floats is left out, their range is not.  [float]
    of an integer that no float can hold raises [OverflowError]; an
    operation whose exact result lies beyond the range gives an infinity;
    [float] reads an infinity or nan in strings such as [inf] and [nan];
    and a row that holds a float that is not finite cannot be sent, since
    JSON cannot carry it.  A [string] holds the UTF-8 bytes of a Python
    string. *)

From Stdlib Require Import String Ascii List Bool Arith ZArith QArith Qabs Qminmax Lia Lqa.
From Stdlib Require Import DecimalString.
Import ListNotations.
Local Open Scope string_scope.
Local Open Scope list_scope.

(** ** Python values and exceptions *)

Inductive exn : Set :=
| ValueError
| TypeError
| AttributeError
| IndexError
| ZeroDivisionError
| OverflowError
| APIError            (* gspread.exceptions.APIError and transport errors *)
| RequestException.   (* requests.RequestException *)

(** A Python float: a finite number, an infinity or nan. *)
Inductive pyfloat : Type :=
| Finite (q : Q)
| PInf
| NInf
| NaN.

(** A JSON value as it may sit in a trade dictionary: null, a string, an
    integer or a float (Python reads a number such as [1e999] as an
    infinity).  An array or an object behaves in this program as null does
    ([float] raises [TypeError] on it and it has no method [upper]), a
    boolean as the integer 1 or 0. *)
Inductive pyval : Type :=
| PyNone
| PyStr (s : string)
| PyInt (n : Z)
| PyFloat (x : pyfloat).

Inductive outcome (A : Type) : Type :=
| Ret (a : A)
| Raise (e : exn).
Arguments Ret {A} a.
Arguments Raise {A} e.

(** [str.upper()] on a string of ASCII characters: the letters a to z go
    to A to Z, every other character stays. *)
Definition upper_ascii (c : ascii) : ascii :=
  let n := nat_of_ascii c in
  if (97 <=? n)%nat && (n <=? 122)%nat then ascii_of_nat (n - 32) else c.

Fixpoint ascii_upper (s : string) : string :=
  match s with
  | EmptyString => EmptyString
  | String c t => String (upper_ascii c) (ascii_upper t)
  end.

(** A string without a character beyond ASCII: every byte is below 128. *)
Definition is_ascii (s : string) : bool :=
  forallb (fun c => (nat_of_ascii c <? 128)%nat) (list_ascii_of_string s).

(** The strings that [float] refuses whatever their other characters are:
    the empty string, and a string with a visible ASCII character that no
    float literal has.  A literal is made of digits, a sign, a point, an
    underscore, an exponent mark and the letters of inf, infinity and nan,
    in either case, between white space. *)
Definition float_char (c : ascii) : bool :=
  let n := nat_of_ascii c in
  ((48 <=? n)%nat && (n <=? 57)%nat)
  || existsb (Ascii.eqb c) (list_ascii_of_string "+-._eEinfatyINFATY").

Definition visible (c : ascii) : bool :=
  let n := nat_of_ascii c in (33 <=? n)%nat && (n <=? 126)%nat.

Definition no_float (s : string) : bool :=
  (s =? "") || existsb (fun c => visible c && negb (float_char c)) (list_ascii_of_string s).

(** The least magnitude that does not round to a float: 2^1024 - 2^970,
    half a unit in the last place above the largest float. *)
Definition float_bound : Q := inject_Z (2 ^ 1024 - 2 ^ 970).

Definition overflows (x : Q) : bool := Qle_bool float_bound (Qabs x).

(** Python's [x > 0] on exact numbers. *)
Definition Qgt0 (x : Q) : bool := negb (Qle_bool x 0).

(** The float of an exact result: beyond the range it is an infinity; no
    exception is raised. *)
Definition rounded (x : Q) : pyfloat :=
  if overflows x then (if Qgt0 x then PInf else NInf) else Finite x.

Definition infinity (above : bool) : pyfloat := if above then PInf else NInf.

(** Python's [-x], [x + y] and [x - y] on floats. *)
Definition fneg (x : pyfloat) : pyfloat :=
  match x with
  | Finite a => Finite (- a)
  | PInf => NInf
  | NInf => PInf
  | NaN => NaN
  end.

Definition fadd (x y : pyfloat) : pyfloat :=
  match x, y with
  | NaN, _ | _, NaN => NaN
  | Finite a, Finite b => rounded (a + b)
  | PInf, NInf | NInf, PInf => NaN
  | PInf, _ | _, PInf => PInf
  | NInf, _ | _, NInf => NInf
  end.

Definition fsub (x y : pyfloat) : pyfloat := fadd x (fneg y).

(** An infinity times a finite float: nan when the float is 0. *)
Definition infinity_times (above : bool) (b : Q) : pyfloat :=
  if Qeq_bool b 0 then NaN else infinity (Bool.eqb above (Qgt0 b)).

(** Python's [x * y] on floats. *)
Definition fmul (x y : pyfloat) : pyfloat :=
  match x, y with
  | NaN, _ | _, NaN => NaN
  | Finite a, Finite b => rounded (a * b)
  | PInf, Finite b | Finite b, PInf => infinity_times true b
  | NInf, Finite b | Finite b, NInf => infinity_times false b
  | PInf, PInf | NInf, NInf => PInf
  | PInf, NInf | NInf, PInf => NInf
  end.

(** Python's [x > 0] and [x == 0] on floats. *)
Definition is_positive (x : pyfloat) : bool :=
  match x with
  | Finite a => Qgt0 a
  | PInf => true
  | NInf | NaN => false
  end.

Definition is_zero (x : pyfloat) : bool :=
  match x with
  | Finite a => Qeq_bool a 0
  | _ => false
  end.

(** The quotient of two floats whose divisor is not 0. *)
Definition quotient (x y : pyfloat) : pyfloat :=
  match x, y with
  | NaN, _ | _, NaN => NaN
  | Finite a, Finite b => rounded (a / b)
  | Finite _, _ => Finite 0
  | PInf, Finite b => infinity (Qgt0 b)
  | NInf, Finite b => infinity (negb (Qgt0 b))
  | _, _ => NaN
  end.

(** [s.replace(c, '')] for a single character [c]. *)
Fixpoint remove_char (c : ascii) (s : string) : string :=
  match s with
  | EmptyString => EmptyString
  | String d t => if Ascii.eqb c d then remove_char c t else String d (remove_char c t)
  end.

(** [pat in s] for strings. *)
Definition contains (pat s : string) : bool :=
  match String.index 0 pat s with Some _ => true | None => false end.

(** Python's [x / y] on floats. *)
Definition truediv (x y : pyfloat) : outcome pyfloat :=
  if is_zero y then Raise ZeroDivisionError else Ret (quotient x y).

(** ** The worksheet grid *)

(** What a cell holds: nothing, a string or a number. *)
Inductive cell : Type :=
| Blank
| Text (s : string)
| Number (q : Q).

(** The cell a string makes: writing the empty string leaves the cell
    empty. *)
Definition text (s : string) : cell :=
  match s with EmptyString => Blank | _ => Text s end.

(** A value of a row handed to [worksheet.update] is a string or a float.
    It is given as the cell it makes; a float that is not finite makes
    none: JSON has no notation for it, and a row that holds one cannot be
    sent. *)
Definition number (x : pyfloat) : option cell :=
  match x with
  | Finite q => Some (Number q)
  | _ => None
  end.

(** The cells of a row of values, if every value makes one. *)
Fixpoint serialise (values : list (option cell)) : option (list cell) :=
  match values with
  | [] => Some []
  | None :: _ => None
  | Some c :: rest =>
      match serialise rest with
      | Some cells => Some (c :: cells)
      | None => None
      end
  end.

(** A worksheet is its list of rows; row [r] of the sheet (rows count from 1)
    is at index [r - 1], and column A is index 0.  The number of the rows
    and the length of the longest row are the numbers of rows and columns
    that [get_all_values] reports. *)
Definition worksheet : Type := list (list cell).

Definition colA := 0%nat.
Definition colB := 1%nat.
Definition colD := 3%nat.
Definition colF := 5%nat.
Definition colG := 6%nat.
Definition colH := 7%nat.

Definition cell_at (ws : worksheet) (c r : nat) : cell :=
  match r with
  | O => Blank
  | S i => nth c (nth i ws []) Blank
  end.

(** What a read of a cell returns: the empty string, the string of the
    cell, or the string of its number. *)
Inductive value : Type :=
| VBlank
| VText (s : string)
| VNum (q : Q).

Definition shown (c : cell) : value :=
  match c with
  | Blank => VBlank
  | Text s => VText s
  | Number q => VNum q
  end.

(** A string from [get_all_values] is falsy exactly when it is empty. *)
Definition truthy (v : value) : bool :=
  match v with
  | VBlank => false
  | VText s => negb (s =? "")
  | VNum _ => true
  end.

(** Python's [any(row)]. *)
Definition any (row : list value) : bool := existsb truthy row.

(** ** Trade dictionaries *)

(** A trade dictionary; [None] is an absent key.  The date, the asset and
    the notes are strings when they are there, and the total value is a
    finite float; the action, the quantity and the price are any JSON
    value. *)
Record trade_data : Type := {
  td_date : option string;
  td_action : option pyval;
  td_asset : option string;
  td_quantity : option pyval;
  td_price : option pyval;
  td_total_value : option Q;
  td_notes : option string
}.

(** An item of the JSON list that a bot's endpoint answers with. *)
Inductive json_item : Type :=
| JObject (trade : trade_data)   (* an object *)
| JSequence                      (* a string or an array: [in] works on it,
                                    [item['quantity']] raises TypeError *)
| JAtom.                         (* a number, a boolean or null: [in]
                                    raises TypeError *)

Coercion JObject : trade_data >-> json_item.

(** What a bot's endpoint answers to [requests.get]. *)
Inductive http_response : Type :=
| HttpFail                               (* transport error or bad status *)
| JsonList (trades : list json_item)     (* a JSON list *)
| JsonOther.                             (* any other JSON document *)

(** ** The environment

    What lies outside the program: Python's parsing of a string as a float,
    the upper case of the strings that are not ASCII, the clock, the bots'
    endpoints and the random draws of [simulate_bot_trade].  The string
    [now] stands for every reading of the clock, in whatever format the
    program prints it. *)
Record world : Type := {
  float_of_str : string -> option pyfloat;
  unicode_upper : string -> string;
  now : string;
  http_get : string -> http_response;
  random_action : string -> bool;          (* true: BUY, false: SELL *)
  random_asset : string -> string;
  random_quantity : string -> Q;
  random_price : string -> Q
}.

(** [str.upper()]: Python maps a string of ASCII characters letter by
    letter, and any other string by the case mapping of Unicode. *)
Definition upper (w : world) (s : string) : string :=
  if is_ascii s then ascii_upper s else unicode_upper w s.

(** [random.uniform(a, b)]: the draw of the environment, which lies between
    [a] and [b]. *)
Definition uniform (a b draw : Q) : Q := Qmax a (Qmin b draw).

(** ** Reading the grid *)

Definition cell_value (ws : worksheet) (c r : nat) : value := shown (cell_at ws c r).

Definition width (ws : worksheet) : nat := list_max (map (@length cell) ws).

(** What row [r] shows, padded to the width of the sheet. *)
Definition row_values (ws : worksheet) (r : nat) : list value :=
  map (fun c => cell_value ws c r) (seq 0 (width ws)).

(** [Worksheet.get_all_values()] on the grid. *)
Definition all_values (ws : worksheet) : list (list value) :=
  map (row_values ws) (seq 1 (length ws)).

(** ** Program state and the monad of the methods *)

(** What [register_bot] stores for a bot. *)
Record bot_config : Type := {
  wallet_name : string;
  api_endpoint : option string;
  api_key : option string;
  last_update : option string;
  status : string
}.

Record state : Type := {
  sheets : list (string * worksheet);           (* the spreadsheet: worksheets by title *)
  net : list bool;                              (* fate of the next Sheets API calls:
                                                   [false] raises; past the list, calls succeed *)
  wallet_managers : list string;                (* PortfolioManager.wallet_managers, in insertion order *)
  registered_bots : list (string * bot_config)  (* BotConnector.registered_bots, in insertion order *)
}.

Definition set_sheets (s : state) (x : list (string * worksheet)) : state :=
  {| sheets := x; net := net s; wallet_managers := wallet_managers s;
     registered_bots := registered_bots s |}.

Definition set_net (s : state) (x : list bool) : state :=
  {| sheets := sheets s; net := x; wallet_managers := wallet_managers s;
     registered_bots := registered_bots s |}.

Definition set_wallet_managers (s : state) (x : list string) : state :=
  {| sheets := sheets s; net := net s; wallet_managers := x;
     registered_bots := registered_bots s |}.

Definition set_registered_bots (s : state) (x : list (string * bot_config)) : state :=
  {| sheets := sheets s; net := net s; wallet_managers := wallet_managers s;
     registered_bots := x |}.

(** Dictionary lookup and assignment; a dictionary keeps insertion order. *)
Fixpoint lookup {A : Type} (k : string) (d : list (string * A)) : option A :=
  match d with
  | [] => None
  | (k', v) :: rest => if k =? k' then Some v else lookup k rest
  end.

Fixpoint assign {A : Type} (k : string) (v : A) (d : list (string * A)) : list (string * A) :=
  match d with
  | [] => [(k, v)]
  | (k', v') :: rest => if k =? k' then (k, v) :: rest else (k', v') :: assign k v rest
  end.

Definition M (A : Type) : Type := state -> outcome A * state.

Definition ret {A : Type} (a : A) : M A := fun s => (Ret a, s).

Definition raise {A : Type} (e : exn) : M A := fun s => (Raise e, s).

Definition bind {A B : Type} (m : M A) (k : A -> M B) : M B :=
  fun s =>
    match m s with
    | (Ret a, s') => k a s'
    | (Raise e, s') => (Raise e, s')
    end.

(** [try: body / except Exception: handler]; the handler runs in the state
    the body left behind. *)
Definition try_except {A : Type} (body : M A) (handler : exn -> M A) : M A :=
  fun s =>
    match body s with
    | (Ret a, s') => (Ret a, s')
    | (Raise e, s') => handler e s'
    end.

Definition lift {A : Type} (o : outcome A) : M A := fun s => (o, s).

Definition obind {A B : Type} (o : outcome A) (k : A -> outcome B) : outcome B :=
  match o with
  | Ret a => k a
  | Raise e => Raise e
  end.

Declare Scope py_scope.
Delimit Scope py_scope with py.
Notation "x <- c1 ;; c2" := (bind c1 (fun x => c2))
  (at level 61, c1 at next level, right associativity) : py_scope.
Notation "c1 ;; c2" := (bind c1 (fun _ => c2))
  (at level 61, right associativity) : py_scope.
Notation "x <~ c1 ;; c2" := (obind c1 (fun x => c2))
  (at level 61, c1 at next level, right associativity) : py_scope.
Local Open Scope py_scope.

(** [dict.get(key, default)] *)
Definition get {A : Type} (o : option A) (default : A) : A :=
  match o with Some a => a | None => default end.

(** ** The gspread worksheet, as far as the program uses it *)

Module Worksheet.
(** One call to the Sheets API. *)
Definition api_call : M unit :=
  fun s =>
    match net s with
    | [] => (Ret tt, s)
    | true :: n => (Ret tt, set_net s n)
    | false :: n => (Raise APIError, set_net s n)
    end.

Definition the_sheet (title : string) : M worksheet :=
  fun s =>
    match lookup title (sheets s) with
    | Some ws => (Ret ws, s)
    | None => (Raise APIError, s)
    end.

Definition put_sheet (title : string) (ws : worksheet) : M unit :=
  fun s => (Ret tt, set_sheets s (assign title ws (sheets s))).

Definition get_all_values (title : string) : M (list (list value)) :=
  api_call ;;
  ws <- the_sheet title ;;
  ret (all_values ws).

(** [acell(address).value] *)
Definition acell (title : string) (c r : nat) : M value :=
  api_call ;;
  ws <- the_sheet title ;;
  ret (cell_value ws c r).

(** Row [i] (from 0) of the grid replaced by [cells], cell for cell. *)
Fixpoint set_row (ws : worksheet) (i : nat) (cells : list cell) : worksheet :=
  match i, ws with
  | O, [] => [cells]
  | O, old :: rest => (cells ++ skipn (length cells) old) :: rest
  | S n, [] => [] :: set_row [] n cells
  | S n, old :: rest => old :: set_row rest n cells
  end.

(** The call of the API that stores the cells of a row from column A of
    row [r] on, as they are. *)
Definition store (title : string) (r : nat) (cells : list cell) : M unit :=
  api_call ;;
  ws <- the_sheet title ;;
  put_sheet title (set_row ws (r - 1) cells).

(** [update('A{r}:H{r}', [values])].  The request is built before it is
    sent: with a value that JSON cannot carry, [requests] raises its
    [InvalidJSONError], a [RequestException], and no call is made.  (A
    version of [requests] that sends the value has the request refused by
    the API; [update_range] answers [False] either way.) *)
Definition update (title : string) (r : nat) (values : list (option cell)) : M unit :=
  match serialise values with
  | Some cells => store title r cells
  | None => raise RequestException
  end.

Definition clear (title : string) : M unit :=
  api_call ;;
  _ <- the_sheet title ;;
  put_sheet title [].

(** [format] changes colours and fonts only. *)
Definition format (title : string) : M unit :=
  api_call ;;
  _ <- the_sheet title ;;
  ret tt.
End Worksheet.

(** ** sheets_connector.py *)

Module SheetsConnector.
Definition get_or_create_worksheet (title : string) : M string :=
  Worksheet.api_call ;;
  fun s =>
    match lookup title (sheets s) with
    | Some _ => (Ret title, s)
    | None =>
        (* except gspread.WorksheetNotFound: add_worksheet *)
        (Worksheet.api_call ;;
         Worksheet.put_sheet title [] ;;
         ret title) s
    end.

Definition update_range (worksheet : string) (r : nat) (values : list (option cell)) : M bool :=
  try_except
    (Worksheet.update worksheet r values ;;
     ret true)
    (fun _ => ret false).
End SheetsConnector.

(** ** wallet_manager.py *)

(** The dictionary [get_wallet_performance] returns. *)
Record performance_data : Type := {
  p_name : string;
  p_initial_investment : pyfloat;
  p_current_value : pyfloat;
  p_total_return : pyfloat;
  p_total_return_pct : pyfloat;
  p_apy : pyfloat
}.

(** A dictionary of the list [get_trade_history] returns; the three text
    columns and the notes are kept as the sheet shows them, the empty
    string being [VBlank]. *)
Record trade : Type := {
  t_date : value;
  t_action : value;
  t_asset : value;
  t_quantity : pyfloat;
  t_price : pyfloat;
  t_total_value : pyfloat;
  t_running_balance : pyfloat;
  t_notes : value
}.

Module WalletManager.
Section WithWorld.
Variable w : world.

(** Python's [float(x)].  A float is itself; an integer is converted unless
    it is beyond the range of the floats; a string is parsed, and what the
    parser makes of a string that can be a literal (a finite number, an
    infinity, nan, or nothing) is left to the environment. *)
Definition float (x : pyval) : outcome pyfloat :=
  match x with
  | PyFloat x => Ret x
  | PyInt n =>
      if overflows (inject_Z n) then Raise OverflowError else Ret (Finite (inject_Z n))
  | PyStr s =>
      if no_float s then Raise ValueError
      else
        match float_of_str w s with
        | Some x => Ret x
        | None => Raise ValueError
        end
  | PyNone => Raise TypeError
  end.

(** [x.upper()]; only strings have the method. *)
Definition str_upper (x : pyval) : outcome string :=
  match x with
  | PyStr s => Ret (upper w s)
  | _ => Raise AttributeError
  end.

(** The double quote of the formulas. *)
Definition quote : string := String (ascii_of_nat 34) "".

(** The four formulas of the summary row, as the strings they are. *)
Definition initial_investment_formula : string :=
  "=SUMPRODUCT((B6:B1000=" ++ quote ++ "BUY" ++ quote ++ ")*(F6:F1000))".

Definition current_value_formula : string :=
  "=IF(ROW(G1000:G6)>0,INDEX(G6:G1000,COUNTA(G6:G1000)),0)".

Definition total_return_formula : string := "=D2-B2".

Definition apy_formula : string :=
  "=IF(AND(B2>0,D2>0,COUNTA(A6:A1000)>0),POWER((D2/B2),(365/MAX(1,DAYS(TODAY(),MIN(A6:A1000)))))-1,0)*100".

Definition summary_headers (wallet_name : string) : list (list cell) :=
  [ [Text (String.append wallet_name " - WALLET SUMMARY");
     Blank; Blank; Blank; Blank; Blank; Blank; Blank];
    [Text "Initial Investment:"; Text initial_investment_formula;
     Text "Current Value:"; Text current_value_formula;
     Text "Total Return:"; Text total_return_formula;
     Text "APY:"; Text apy_formula];
    [Blank; Blank; Blank; Blank; Blank; Blank; Blank; Blank];
    [Text "TRADE LOG"; Blank; Blank; Blank; Blank; Blank; Blank; Blank];
    [Text "Date"; Text "Action"; Text "Asset"; Text "Quantity"; Text "Price";
     Text "Total Value"; Text "Running Balance"; Text "Notes"] ].

Definition _format_wallet_sheet (wallet_name : string) : M unit :=
  try_except
    (Worksheet.format wallet_name ;;
     Worksheet.format wallet_name ;;
     Worksheet.format wallet_name)
    (fun _ => ret tt).

(** [for i, row in enumerate(summary_headers): update_range(A{i+1}:H{i+1}, [row])] *)
Fixpoint write_headers (wallet_name : string) (i : nat) (rows : list (list cell)) : M unit :=
  match rows with
  | [] => ret tt
  | row :: rest =>
      _ <- SheetsConnector.update_range wallet_name (i + 1) (map Some row) ;;
      write_headers wallet_name (S i) rest
  end.

Definition _create_sheet_structure (wallet_name : string) : M unit :=
  Worksheet.clear wallet_name ;;
  write_headers wallet_name 0 (summary_headers wallet_name) ;;
  _format_wallet_sheet wallet_name.

Definition _setup_wallet_sheet (wallet_name : string) : M unit :=
  _ <- SheetsConnector.get_or_create_worksheet wallet_name ;;
  configured <-
    try_except
      (cell_value <- Worksheet.acell wallet_name colA 1 ;;
       ret (match cell_value with
            | VText s => contains "WALLET SUMMARY" s
            | _ => false
            end))
      (fun _ => ret false) ;;
  if configured : bool then ret tt else _create_sheet_structure wallet_name.

(** [WalletManager(sheets_connector, wallet_name)] *)
Definition __init__ (wallet_name : string) : M unit :=
  _setup_wallet_sheet wallet_name.

(** [f"{n}"] for a row number. *)
Definition str (n : nat) : string := NilEmpty.string_of_uint (Nat.to_uint n).

Definition _calculate_running_balance_formula (row_num : nat) : string :=
  if (row_num =? 6)%nat
  then "=IF(B6=" ++ quote ++ "BUY" ++ quote ++ ",F6,IF(B6="
       ++ quote ++ "SELL" ++ quote ++ ",-F6,0))"
  else "=G" ++ str (row_num - 1) ++ "+IF(B" ++ str row_num ++ "="
       ++ quote ++ "BUY" ++ quote ++ ",F" ++ str row_num ++ ",IF(B" ++ str row_num ++ "="
       ++ quote ++ "SELL" ++ quote ++ ",-F" ++ str row_num ++ ",0))".

Definition add_trade (wallet_name : string) (trade_data : trade_data) : M bool :=
  try_except
    (values <- Worksheet.get_all_values wallet_name ;;
     let next_row := Nat.max 6 (length (filter any values) + 1) in
     quantity <- lift (float (get (td_quantity trade_data) (PyInt 0))) ;;
     price <- lift (float (get (td_price trade_data) (PyInt 0))) ;;
     let total_value :=
       get (option_map Finite (td_total_value trade_data)) (fmul quantity price) in
     action <- lift (str_upper (get (td_action trade_data) (PyStr ""))) ;;
     let trade_row :=
       [ Some (text (get (td_date trade_data) (now w)));
         Some (text action);
         Some (text (get (td_asset trade_data) ""));
         number quantity;
         number price;
         number total_value;
         Some (Text (_calculate_running_balance_formula next_row));
         Some (text (get (td_notes trade_data) "")) ] in
     success <- SheetsConnector.update_range wallet_name next_row trade_row ;;
     if success : bool then ret true else ret false)
    (fun _ => ret false).

(** The string of a summary cell with [$], [,] and [%] removed. *)
Definition cleaned (s : string) : string :=
  remove_char "%" (remove_char "," (remove_char "$" s)).

Definition _get_cell_value (wallet_name : string) (c r : nat) (default : pyfloat)
  : M pyfloat :=
  try_except
    (value <- Worksheet.acell wallet_name c r ;;
     match value with
     | VBlank => ret default
     | VText s =>
         if s =? "" then ret default
         else lift (float (PyStr (cleaned s)))
     | VNum q => ret (Finite q)
     end)
    (fun _ => ret default).

Definition get_wallet_performance (wallet_name : string) : M performance_data :=
  try_except
    (initial_investment <- _get_cell_value wallet_name colB 2 (Finite 0) ;;
     current_value <- _get_cell_value wallet_name colD 2 (Finite 0) ;;
     total_return <- _get_cell_value wallet_name colF 2 (Finite 0) ;;
     apy <- _get_cell_value wallet_name colH 2 (Finite 0) ;;
     total_return_pct <-
       (if is_positive initial_investment
        then (ratio <- lift (truediv current_value initial_investment) ;;
              ret (fmul (fsub ratio (Finite 1)) (Finite 100)))
        else ret (Finite 0)) ;;
     ret {| p_name := wallet_name;
            p_initial_investment := initial_investment;
            p_current_value := current_value;
            p_total_return := total_return;
            p_total_return_pct := total_return_pct;
            p_apy := apy |})
    (fun _ =>
       ret {| p_name := wallet_name;
              p_initial_investment := Finite 0;
              p_current_value := Finite 0;
              p_total_return := Finite 0;
              p_total_return_pct := Finite 0;
              p_apy := Finite 0 |}).

(** [row[i]] *)
Definition item (row : list value) (i : nat) : outcome value :=
  match nth_error row i with
  | Some v => Ret v
  | None => Raise IndexError
  end.

(** [float(x) if x else 0] on a string of the sheet. *)
Definition float_or_0 (x : value) : outcome pyfloat :=
  match x with
  | VBlank => Ret (Finite 0)
  | VText s => if s =? "" then Ret (Finite 0) else float (PyStr s)
  | VNum q => Ret (Finite q)
  end.

(** The dictionary built from one row of the trade log. *)
Definition trade_of_row (row : list value) : outcome trade :=
  date <~ item row 0 ;;
  action <~ item row 1 ;;
  asset <~ item row 2 ;;
  quantity <~ (x <~ item row 3 ;; float_or_0 x) ;;
  price <~ (x <~ item row 4 ;; float_or_0 x) ;;
  total_value <~ (x <~ item row 5 ;; float_or_0 x) ;;
  running_balance <~ (x <~ item row 6 ;; float_or_0 x) ;;
  let notes := if (7 <? length row)%nat then nth 7 row VBlank else VBlank in
  Ret {| t_date := date; t_action := action; t_asset := asset;
         t_quantity := quantity; t_price := price;
         t_total_value := total_value;
         t_running_balance := running_balance; t_notes := notes |}.

(** The loop over [trade_rows]: empty rows are skipped, and so are rows
    whose dictionary raises [ValueError] or [IndexError]; any other
    exception leaves the loop. *)
Fixpoint collect_trades (trade_rows : list (list value)) : outcome (list trade) :=
  match trade_rows with
  | [] => Ret []
  | row :: rest =>
      if negb (any (firstn 6 row)) then collect_trades rest
      else
        match trade_of_row row with
        | Ret t => (trades <~ collect_trades rest ;; Ret (t :: trades))
        | Raise ValueError => collect_trades rest
        | Raise IndexError => collect_trades rest
        | Raise e => Raise e
        end
  end.

(** [trades[-limit:]] *)
Definition last_from {A : Type} (limit : Z) (trades : list A) : list A :=
  if (0 <? limit)%Z
  then skipn (length trades - Z.to_nat limit) trades
  else skipn (Z.to_nat (- limit)) trades.

Definition get_trade_history (wallet_name : string) (limit : option Z) : M (list trade) :=
  try_except
    (all_values <- Worksheet.get_all_values wallet_name ;;
     if (length all_values <? 6)%nat then ret []
     else
       let trade_rows := skipn 5 all_values in
       trades <- lift (collect_trades trade_rows) ;;
       match limit with
       | Some l =>
           if negb (l =? 0)%Z && (l <? Z.of_nat (length trades))%Z
           then ret (last_from l trades)
           else ret trades
       | None => ret trades
       end)
    (fun _ => ret []).
End WithWorld.
End WalletManager.

(** ** portfolio_manager.py *)


Module PortfolioManager.
Section WithWorld.
Variable w : world.

(** [wallet_name in self.wallet_managers] *)
Definition has_wallet (wallet_name : string) (s : state) : bool :=
  existsb (String.eqb wallet_name) (wallet_managers s).

Definition add_wallet (wallet_name : string) : M unit :=
  fun s =>
    if has_wallet wallet_name s then (Ret tt, s)
    else
      (WalletManager.__init__ wallet_name ;;
       fun s' => (Ret tt, set_wallet_managers s' (wallet_managers s' ++ [wallet_name]))) s.

(** The manager of a wallet is known by the wallet's name. *)
Definition get_wallet_manager (wallet_name : string) : M (option string) :=
  fun s => (Ret (if has_wallet wallet_name s then Some wallet_name else None), s).

Definition add_trade (wallet_name : string) (trade_data : trade_data) : M bool :=
  wallet_manager <- get_wallet_manager wallet_name ;;
  match wallet_manager with
  | None => ret false
  | Some manager =>
      success <- WalletManager.add_trade w manager trade_data ;;
      ret success
  end.


End WithWorld.
End PortfolioManager.

(** ** bot_connector.py *)

Module BotConnector.
Section WithWorld.
Variable w : world.

Definition register_bot (bot_name wallet : string)
    (endpoint key : option string) : M unit :=
  (fun s =>
     (Ret tt,
      set_registered_bots s
        (assign bot_name
           {| wallet_name := wallet; api_endpoint := endpoint; api_key := key;
              last_update := None; status := "registered" |}
           (registered_bots s)))) ;;
  PortfolioManager.add_wallet wallet.

Definition simulate_bot_trade (bot_name : string) : M (option trade_data) :=
  fun s =>
    match lookup bot_name (registered_bots s) with
    | None => (Ret None, s)
    | Some _ =>
        let quantity := uniform (1 # 100) 10 (random_quantity w bot_name) in
        let price := uniform 50 5000 (random_price w bot_name) in
        (* the product is at most 50000 *)
        (Ret (Some {| td_date := Some (now w);
                      td_action := Some (PyStr (if random_action w bot_name
                                                then "BUY" else "SELL"));
                      td_asset := Some (random_asset w bot_name);
                      td_quantity := Some (PyFloat (Finite quantity));
                      td_price := Some (PyFloat (Finite price));
                      td_total_value := Some (quantity * price);
                      td_notes := Some (String.append "Simulated trade from " bot_name) |}),
         s)
    end.

(** The argument is an item of the list that was fetched.  On a number, a
    boolean or null the test [field not in trade_data] raises [TypeError],
    outside the [try]; a string or an array either lacks a field or raises
    [TypeError] at [trade_data['quantity']], inside the [try]. *)
Definition _validate_trade_data (trade_data : json_item) : outcome bool :=
  match trade_data with
  | JAtom => Raise TypeError
  | JSequence => Ret false
  | JObject trade_data =>
      match td_action trade_data, td_asset trade_data,
            td_quantity trade_data, td_price trade_data with
      | Some action, Some _, Some quantity, Some price =>
          match (_ <~ WalletManager.float w quantity ;;
                 _ <~ WalletManager.float w price ;;
                 a <~ WalletManager.str_upper w action ;;
                 Ret ((a =? "BUY") || (a =? "SELL"))) with
          | Ret ok => Ret ok
          | Raise ValueError => Ret false
          | Raise TypeError => Ret false
          | Raise e => Raise e
          end
      | _, _, _, _ => Ret false
      end
  end.

(** The loop of [fetch_bot_trades] that keeps the trades that validate;
    only an object validates. *)
Fixpoint validated_trades (trades_data : list json_item) : outcome (list trade_data) :=
  match trades_data with
  | [] => Ret []
  | trade :: rest =>
      ok <~ _validate_trade_data trade ;;
      kept <~ validated_trades rest ;;
      Ret (match trade with
           | JObject trade => if ok : bool then trade :: kept else kept
           | _ => kept
           end)
  end.

(** [not api_endpoint] *)
Definition no_endpoint (endpoint : option string) : bool :=
  match endpoint with
  | None => true
  | Some url => url =? ""
  end.

Definition fetch_bot_trades (bot_name : string) : M (list trade_data) :=
  fun s =>
    match lookup bot_name (registered_bots s) with
    | None => (Ret [], s)
    | Some bot_config =>
        if no_endpoint (api_endpoint bot_config)
        then
          (simulated_trade <- simulate_bot_trade bot_name ;;
           ret (match simulated_trade with Some t => [t] | None => [] end)) s
        else
          try_except
            (match http_get w (get (api_endpoint bot_config) "") with
             | HttpFail => raise RequestException
             | JsonList trades_data => lift (validated_trades trades_data)
             | JsonOther => ret []
             end)
            (fun _ => ret []) s
    end.

(** [self.registered_bots[bot_name][...] = ...] on an existing entry. *)
Definition update_bot (bot_name : string) (f : bot_config -> bot_config) : M unit :=
  fun s =>
    (Ret tt,
     set_registered_bots s
       (map (fun kv => if bot_name =? fst kv then (fst kv, f (snd kv)) else kv)
            (registered_bots s))).

Definition set_status (st : string) (c : bot_config) : bot_config :=
  {| wallet_name := wallet_name c; api_endpoint := api_endpoint c;
     api_key := api_key c; last_update := last_update c; status := st |}.

Definition set_last_update (t : string) (c : bot_config) : bot_config :=
  {| wallet_name := wallet_name c; api_endpoint := api_endpoint c;
     api_key := api_key c; last_update := Some t; status := status c |}.

(** The loop of [process_bot_trades] that counts the stored trades. *)
Fixpoint add_trades (wallet : string) (trades : list trade_data) (success_count : nat) : M nat :=
  match trades with
  | [] => ret success_count
  | trade_data :: rest =>
      success <- PortfolioManager.add_trade w wallet trade_data ;;
      add_trades wallet rest (if success : bool then S success_count else success_count)
  end.

Definition process_bot_trades (bot_name : string) : M bool :=
  fun s =>
    match lookup bot_name (registered_bots s) with
    | None => (Ret false, s)
    | Some bot_config =>
        try_except
          (let wallet := wallet_name bot_config in
           trades <- fetch_bot_trades bot_name ;;
           success_count <- add_trades wallet trades 0 ;;
           update_bot bot_name (set_last_update (now w)) ;;
           update_bot bot_name (set_status "active") ;;
           ret (0 <? success_count)%nat)
          (fun _ =>
             update_bot bot_name (set_status "error") ;;
             ret false) s
    end.

(** The loop of [update_all_bots] over the bot names. *)
Fixpoint update_loop (bot_names : list string) (results : list (string * bool))
  : M (list (string * bool)) :=
  match bot_names with
  | [] => ret results
  | bot_name :: rest =>
      results' <-
        try_except
          (success <- process_bot_trades bot_name ;;
           ret (assign bot_name success results))
          (fun _ => ret (assign bot_name false results)) ;;
      update_loop rest results'
  end.

Definition update_all_bots : M (list (string * bool)) :=
  fun s => update_loop (map fst (registered_bots s)) [] s.

Definition get_bot_status : M (list (string * bot_config)) :=
  fun s => (Ret (registered_bots s), s).
End WithWorld.
End BotConnector.

(** ** dashboard.py

    The attribute [self.worksheet] of the dashboard is [None] until
    [create_dashboard_sheet] has stored a worksheet in it; it is an argument
    of the methods that read it.  The four formulas of the dashboard are
    strings like the others. *)

Module PortfolioDashboard.
Section WithWorld.
Variable w : world.

(** The cells of a row from column [c] on (from 0) replaced by [cells]; a
    row that ends before column [c] is filled up with empty cells. *)
Definition put_cells (old : list cell) (c : nat) (cells : list cell) : list cell :=
  firstn c (old ++ repeat Blank c) ++ cells ++ skipn (c + length cells) old.

Fixpoint set_cells (ws : worksheet) (i c : nat) (cells : list cell) : worksheet :=
  match i, ws with
  | O, [] => [put_cells [] c cells]
  | O, old :: rest => put_cells old c cells :: rest
  | S n, [] => [] :: set_cells [] n c cells
  | S n, old :: rest => old :: set_cells rest n c cells
  end.

(** [connector.update_range(self.worksheet, range, [cells])] for a range of
    one row that starts at row [r] in column [c]: [SheetsConnector.update_range]
    with the column of the range and with a worksheet that may be [None].
    On [None] the call of [update] raises [AttributeError] inside the [try],
    and the answer is [False]. *)
Definition update_range_at (worksheet : option string) (r c : nat)
    (values : list (option cell)) : M bool :=
  try_except
    (match worksheet with
     | None => raise AttributeError
     | Some title =>
         match serialise values with
         | Some cells =>
             Worksheet.api_call ;;
             ws <- Worksheet.the_sheet title ;;
             Worksheet.put_sheet title (set_cells ws (r - 1) c cells)
         | None => raise RequestException
         end
     end ;;
     ret true)
    (fun _ => ret false).

Definition headers : list (list cell) :=
  [ [Text "TRADING PORTFOLIO DASHBOARD"; Blank; Blank; Blank; Blank; Blank; Blank; Blank];
    [Text "Last Updated:"; text (now w); Blank; Blank; Blank; Blank; Blank; Blank];
    [Blank; Blank; Blank; Blank; Blank; Blank; Blank; Blank];
    [Text "PORTFOLIO SUMMARY"; Blank; Blank; Blank;
     Text "WALLET PERFORMANCE"; Blank; Blank; Blank];
    [Text "Total Portfolio Value:"; Text "=SUM(F8:F50)"; Blank; Blank;
     Text "Wallet Name"; Text "Current Value"; Text "Total Return %"; Text "APY %"];
    [Text "Total Invested:"; Text "=SUM(E8:E50)";
     Blank; Blank; Blank; Blank; Blank; Blank];
    [Text "Total P&L:"; Text "=B5-B6"; Blank; Blank; Blank; Blank; Blank; Blank];
    [Text "Overall Return %:"; Text "=IF(B6>0,(B7/B6)*100,0)";
     Blank; Blank; Blank; Blank; Blank; Blank] ].

Definition _format_dashboard (worksheet : string) : M unit :=
  try_except
    (Worksheet.format worksheet ;;
     Worksheet.format worksheet ;;
     Worksheet.format worksheet ;;
     Worksheet.format worksheet)
    (fun _ => ret tt).

(** [for i, row in enumerate(headers): update_range(A{i+1}:H{i+1}, [row])] *)
Fixpoint write_headers (worksheet : string) (i : nat) (rows : list (list cell)) : M unit :=
  match rows with
  | [] => ret tt
  | row :: rest =>
      _ <- update_range_at (Some worksheet) (i + 1) 0 (map Some row) ;;
      write_headers worksheet (S i) rest
  end.

(** The method returns the worksheet it has stored in [self.worksheet]. *)
Definition create_dashboard_sheet : M string :=
  worksheet <- SheetsConnector.get_or_create_worksheet "Portfolio Dashboard" ;;
  Worksheet.clear worksheet ;;
  write_headers worksheet 0 headers ;;
  _format_dashboard worksheet ;;
  ret worksheet.

(** The loop of [update_wallet_summary] over [enumerate(wallet_data)]; the
    range of a wallet is [E{row_num}:H{row_num}]. *)
Fixpoint write_wallets (worksheet : option string) (row_num : nat)
    (wallet_data : list performance_data) : M unit :=
  match wallet_data with
  | [] => ret tt
  | wallet :: rest =>
      let values :=
        [ Some (text (p_name wallet)); number (p_current_value wallet);
          number (p_total_return_pct wallet); number (p_apy wallet) ] in
      _ <- update_range_at worksheet row_num 4 values ;;
      write_wallets worksheet (S row_num) rest
  end.

Definition update_wallet_summary (worksheet : option string)
    (wallet_data : list performance_data) : M bool :=
  try_except
    (let start_row := 8%nat in
     write_wallets worksheet start_row wallet_data ;;
     _ <- update_range_at worksheet 2 1 [Some (text (now w))] ;;
     ret true)
    (fun _ => ret false).
End WithWorld.
End PortfolioDashboard.

(** ** portfolio_manager.py, the methods that use the dashboard

    [dashboard] is the attribute [self.dashboard.worksheet]. *)

Module PortfolioUpdates.
Section WithWorld.
Variable w : world.

(** The loop of [update_dashboard] over [self.wallet_managers.items()]. *)
Fixpoint collect_performance (managers : list string) (wallet_data : list performance_data)
  : M (list performance_data) :=
  match managers with
  | [] => ret wallet_data
  | manager :: rest =>
      performance <- WalletManager.get_wallet_performance w manager ;;
      collect_performance rest (wallet_data ++ [performance])
  end.

Definition update_dashboard (dashboard : option string) : M bool :=
  try_except
    (fun s =>
       (wallet_data <- collect_performance (wallet_managers s) [] ;;
        success <- PortfolioDashboard.update_wallet_summary w dashboard wallet_data ;;
        if success : bool then ret true else ret false) s)
    (fun _ => ret false).

Definition run_update_cycle (dashboard : option string) : M bool :=
  try_except
    (success <- update_dashboard dashboard ;;
     if success : bool then ret true else ret false)
    (fun _ => ret false).

(** The loop of [setup_portfolio] over [self.config['wallets'].keys()]. *)
Fixpoint add_wallets (wallet_names : list string) : M unit :=
  match wallet_names with
  | [] => ret tt
  | wallet_name :: rest =>
      PortfolioManager.add_wallet wallet_name ;;
      add_wallets rest
  end.

(** [config_wallets] are the keys of [self.config['wallets']], in the order
    of the configuration file. *)
Definition setup_portfolio (config_wallets : list string) : M unit :=
  worksheet <- PortfolioDashboard.create_dashboard_sheet w ;;
  add_wallets config_wallets ;;
  _ <- update_dashboard (Some worksheet) ;;
  ret tt.
End WithWorld.
End PortfolioUpdates.

(** ** Wallet ledgers

    A wallet ledger is a worksheet that [_create_sheet_structure] laid out
    (every write having gone through) and that [add_trade] has been called
    on since, any number of times.  The index is the trade of the last call
    that returned [True]. *)
Inductive ledger (w : world) (name : string) : option trade_data -> worksheet -> Prop :=
| ledger_created (s s' : state) (ws : worksheet) :
    net s = [] ->
    WalletManager._create_sheet_structure name s = (Ret tt, s') ->
    lookup name (sheets s') = Some ws ->
    ledger w name None ws
| ledger_appended (last : option trade_data) (ws ws' : worksheet) (s s' : state)
    (trade_data : trade_data) :
    ledger w name last ws ->
    lookup name (sheets s) = Some ws ->
    WalletManager.add_trade w name trade_data s = (Ret true, s') ->
    lookup name (sheets s') = Some ws' ->
    ledger w name (Some trade_data) ws'
| ledger_refused (last : option trade_data) (ws ws' : worksheet) (s s' : state)
    (trade_data : trade_data) :
    ledger w name last ws ->
    lookup name (sheets s) = Some ws ->
    WalletManager.add_trade w name trade_data s = (Ret false, s') ->
    lookup name (sheets s') = Some ws' ->
    ledger w name last ws'.

Definition zero_performance (name : string) : performance_data :=
  {| p_name := name; p_initial_investment := Finite 0; p_current_value := Finite 0;
     p_total_return := Finite 0; p_total_return_pct := Finite 0; p_apy := Finite 0 |}.

(** ** Sample data *)

Module Sample.
(** An environment in which no string parses as a number, a string that is
    not ASCII is its own upper case, every endpoint is down and the
    simulated trade is a purchase of one BTC at 100. *)
Definition w0 : world :=
  {| float_of_str := fun _ => None;
     unicode_upper := fun s => s;
     now := "2024-06-15";
     http_get := fun _ => HttpFail;
     random_action := fun _ => true;
     random_asset := fun _ => "BTC";
     random_quantity := fun _ => 1%Q;
     random_price := fun _ => 100%Q |}.

Definition start : state :=
  {| sheets := []; net := []; wallet_managers := []; registered_bots := [] |}.

Definition order (action : string) (quantity price : Q) : trade_data :=
  {| td_date := Some "2024-06-15";
     td_action := Some (PyStr action);
     td_asset := Some "BTC";
     td_quantity := Some (PyFloat (Finite quantity));
     td_price := Some (PyFloat (Finite price));
     td_total_value := None;
     td_notes := None |}.

(** The state a method leaves behind. *)
Definition after {A : Type} (m : M A) (s : state) : state := snd (m s).

(** A portfolio with the single wallet W. *)
Definition one_wallet : state := after (PortfolioManager.add_wallet "W") start.

(** ... after a purchase worth 1000 ... *)
Definition bought : state :=
  after (PortfolioManager.add_trade w0 "W" (order "BUY" 1 1000)) one_wallet.

(** ... and after the sale worth 1200 that follows it. *)
Definition bought_sold : state :=
  after (PortfolioManager.add_trade w0 "W" (order "SELL" 1 1200)) bought.
End Sample.

(** ** Vocabulary of the statements *)

(** The row [add_trade] writes at [next_row] for a trade dictionary whose
    action has been converted, whose quantity and price have been converted
    to finite floats, and whose total value is finite. *)
Definition row_written (w : world) (td : trade_data) (quantity price : Q)
    (action : string) (next_row : nat) : list cell :=
  [ text (get (td_date td) (now w)); text action; text (get (td_asset td) "");
    Number quantity; Number price;
    Number (get (td_total_value td) (quantity * price)%Q);
    Text (WalletManager._calculate_running_balance_formula next_row);
    text (get (td_notes td) "") ].

(** The total value of a trade dictionary is finite: it is given, or the
    product of quantity and price is within the range of the floats. *)
Definition finite_total (td : trade_data) (quantity price : Q) : Prop :=
  td_total_value td = None -> overflows (quantity * price) = false.

(** The two shapes a wallet ledger can have. *)
Definition shaped (w : world) (name : string) (last : option trade_data) (ws : worksheet) : Prop :=
  match last with
  | None => ws = WalletManager.summary_headers name
  | Some td =>
      exists quantity price action,
        WalletManager.float w (get (td_quantity td) (PyInt 0)) = Ret (Finite quantity) /\
        WalletManager.float w (get (td_price td) (PyInt 0)) = Ret (Finite price) /\
        WalletManager.str_upper w (get (td_action td) (PyStr "")) = Ret action /\
        finite_total td quantity price /\
        ws = WalletManager.summary_headers name ++ [row_written w td quantity price action 6]
  end.

(** The number [_get_cell_value] returns for a value that [acell] delivered. *)
Definition number_shown (w : world) (default : pyfloat) (v : value) : pyfloat :=
  match v with
  | VBlank => default
  | VText s =>
      if s =? "" then default
      else match WalletManager.float w (PyStr (WalletManager.cleaned s)) with
           | Ret x => x
           | Raise _ => default
           end
  | VNum q => Finite q
  end.

(** The summary cells of a ledger, as [_get_cell_value] reads them. *)
Definition cost_basis (w : world) (ws : worksheet) : pyfloat :=
  number_shown w (Finite 0) (cell_value ws colB 2).

Definition current_value (w : world) (ws : worksheet) : pyfloat :=
  number_shown w (Finite 0) (cell_value ws colD 2).

(** Two states that differ at most in the pending fates of API calls. *)
Definition same_data (s s' : state) : Prop :=
  sheets s' = sheets s /\ wallet_managers s' = wallet_managers s /\
  registered_bots s' = registered_bots s.

(** The fate of the API call that is made after [i] others: [false] when
    it raises. *)
Definition answers (s : state) (i : nat) : bool := nth i (net s) true.

(** The state after one API call. *)
Definition after_call (s : state) : state :=
  match net s with
  | [] => s
  | _ :: n => set_net s n
  end.

(** What [_get_cell_value] returns for the cell in column [c] of row [r]
    when its retrieval is the API call after [i] others: the default when
    the call raises or the worksheet is gone, else the number the cell
    shows, which is the default again for an empty cell and for a string
    that is no number. *)
Definition retrieved (w : world) (name : string) (s : state) (i c r : nat)
    (default : pyfloat) : pyfloat :=
  if answers s i
  then match lookup name (sheets s) with
       | Some ws => number_shown w default (cell_value ws c r)
       | None => default
       end
  else default.

(** A float that is the finite number [q]. *)
Definition is_number (x : pyfloat) (q : Q) : Prop := exists a, x = Finite a /\ a == q.

(** The return percentage of [get_wallet_performance]. *)
Definition pct_of (initial_investment current : pyfloat) : pyfloat :=
  if is_positive initial_investment
  then fmul (fsub (quotient current initial_investment) (Finite 1)) (Finite 100)
  else Finite 0.

(** The trades [get_trade_history] returns when its read goes through. *)
Definition collected (w : world) (rows : list (list value)) : list trade :=
  match WalletManager.collect_trades w rows with Ret l => l | Raise _ => [] end.

Definition limited (limit : option Z) (trades : list trade) : list trade :=
  match limit with
  | Some l =>
      if negb (l =? 0)%Z && (l <? Z.of_nat (length trades))%Z
      then WalletManager.last_from l trades
      else trades
  | None => trades
  end.

Definition history_of (w : world) (ws : worksheet) (limit : option Z) : list trade :=
  if (length ws <? 6)%nat then []
  else limited limit (collected w (skipn 5 (all_values ws))).



(** The status of a bot in a state. *)
Definition bot_status (bot_name : string) (s : state) : option string :=
  option_map status (lookup bot_name (registered_bots s)).


(** What one ingest cycle does to the entry of its bot. *)
Definition activate (w : world) (bot_name : string) (kv : string * bot_config)
  : string * bot_config :=
  if bot_name =? fst kv
  then (fst kv, BotConnector.set_status "active" (BotConnector.set_last_update (now w) (snd kv)))
  else kv.

Definition activated (w : world) (bot_names : list string) (d : list (string * bot_config))
  : list (string * bot_config) :=
  fold_left (fun d n => map (activate w n) d) bot_names d.

(** A bot whose endpoint does not answer. *)
Definition down (w : world) (cfg : bot_config) : Prop :=
  BotConnector.no_endpoint (api_endpoint cfg) = false /\
  http_get w (get (api_endpoint cfg) "") = HttpFail.

(** The Sheets API answers, and every bot's wallet has its manager and its
    worksheet. *)
Definition ready (s : state) : Prop :=
  net s = [] /\
  forall bot cfg, lookup bot (registered_bots s) = Some cfg ->
    PortfolioManager.has_wallet (wallet_name cfg) s = true /\
    lookup (wallet_name cfg) (sheets s) <> None.

(** The boolean and the state of one call of [process_bot_trades], and of
    the loop of [update_all_bots]. *)
Definition cycle_result (w : world) (bot_name : string) (s : state) : bool :=
  match fst (BotConnector.process_bot_trades w bot_name s) with
  | Ret b => b
  | Raise _ => false
  end.

Definition cycle_state (w : world) (bot_name : string) (s : state) : state :=
  snd (BotConnector.process_bot_trades w bot_name s).

Fixpoint loop_results (w : world) (bot_names : list string) (results : list (string * bool))
    (s : state) : list (string * bool) :=
  match bot_names with
  | [] => results
  | n :: rest =>
      loop_results w rest (assign n (cycle_result w n s) results) (cycle_state w n s)
  end.

Fixpoint loop_state (w : world) (bot_names : list string) (s : state) : state :=
  match bot_names with
  | [] => s
  | n :: rest => loop_state w rest (cycle_state w n s)
  end.

(** The total value [add_trade] writes: the one given, or the product of
    quantity and price. *)
Definition total_value_of (td : trade_data) (quantity price : pyfloat) : pyfloat :=
  get (option_map Finite (td_total_value td)) (fmul quantity price).

(** The three numbers of a row can be sent: each of them is finite. *)
Definition sendable (td : trade_data) (quantity price : pyfloat) : bool :=
  match serialise [number quantity; number price; number (total_value_of td quantity price)] with
  | Some _ => true
  | None => false
  end.

(** What can go wrong inside [add_trade]: the read of the sheet fails, the
    worksheet is gone, the quantity, the price or the action cannot be
    converted, the quantity, the price or the total value is not finite (an
    infinity or nan has been read, or the product of quantity and price,
    which stands for a missing total value, is beyond the range of the
    floats), or the write of the row fails. *)
Definition internal_failure (w : world) (name : string) (td : trade_data) (s : state) : Prop :=
  (exists n, net s = false :: n) \/
  lookup name (sheets s) = None \/
  (exists e, WalletManager.float w (get (td_quantity td) (PyInt 0)) = Raise e) \/
  (exists e, WalletManager.float w (get (td_price td) (PyInt 0)) = Raise e) \/
  (exists e, WalletManager.str_upper w (get (td_action td) (PyStr "")) = Raise e) \/
  (exists quantity price,
     WalletManager.float w (get (td_quantity td) (PyInt 0)) = Ret quantity /\
     WalletManager.float w (get (td_price td) (PyInt 0)) = Ret price /\
     sendable td quantity price = false) \/
  (exists n, net s = true :: false :: n).

Module Scenario.
Import Sample.

(** Three bots, each with a wallet of its own; the second one has an
    endpoint, which is down like every endpoint of [w0], the other two
    simulate their trades. *)
Definition three_bots : state :=
  after (BotConnector.register_bot "bot3" "W3" None None)
    (after (BotConnector.register_bot "bot2" "W2" (Some "http://bot2/trades") None)
       (after (BotConnector.register_bot "bot1" "W1" None None) start)).

Definition after_update : state := after (BotConnector.update_all_bots w0) three_bots.

(** The wallet W after a purchase, with the second of the next API calls
    bound to fail. *)
Definition flaky : state := set_net bought [true; false].

(** The worksheet of a wallet W whose summary row shows numbers: the
    formulas have been entered in the spreadsheet itself, which evaluates
    what is typed into it. *)
Definition evaluated_sheet : worksheet :=
  Worksheet.set_row (WalletManager.summary_headers "W") 1
    [Text "Initial Investment:"; Number 1000; Text "Current Value:"; Number 1200;
     Text "Total Return:"; Number 200; Text "APY:"; Number 20].

(** A portfolio with that wallet ... *)
Definition evaluated : state :=
  {| sheets := [("W", evaluated_sheet)]; net := [];
     wallet_managers := ["W"]; registered_bots := [] |}.

(** ... and with the second of the next API calls bound to fail. *)
Definition evaluated_flaky : state := set_net evaluated [true; false].








End Scenario.

(** ** Vocabulary of the further properties *)

(** A method that is confined to the worksheet [name]: it leaves the wallet
    managers, the registered bots and every other worksheet as they are,
    and it does not delete the worksheet [name]. *)
Definition confined (name : string) {A : Type} (m : M A) : Prop :=
  forall s r s', m s = (r, s') ->
    wallet_managers s' = wallet_managers s /\
    registered_bots s' = registered_bots s /\
    (forall k, k <> name -> lookup k (sheets s') = lookup k (sheets s)) /\
    (lookup name (sheets s) <> None -> lookup name (sheets s') <> None).

(** The items of a fetched batch that the validator accepts, and those on
    which it raises. *)
Definition is_valid (w : world) (item : json_item) : bool :=
  match BotConnector._validate_trade_data w item with
  | Ret ok => ok
  | Raise _ => false
  end.

Definition breaks (w : world) (item : json_item) : bool :=
  match BotConnector._validate_trade_data w item with
  | Ret _ => false
  | Raise _ => true
  end.

(** The objects among the items of a batch that the validator accepts. *)
Fixpoint valid_objects (w : world) (items : list json_item) : list trade_data :=
  match items with
  | [] => []
  | JObject td :: rest =>
      if is_valid w td then td :: valid_objects w rest else valid_objects w rest
  | _ :: rest => valid_objects w rest
  end.

(** *** Trade logs *)

Section TradeLog.
Variable w : world.

(** What [add_trade] makes of a trade dictionary before it writes. *)
Definition quantity_of (td : trade_data) : Q :=
  match WalletManager.float w (get (td_quantity td) (PyInt 0)) with
  | Ret (Finite q) => q
  | _ => 0
  end.

Definition price_of (td : trade_data) : Q :=
  match WalletManager.float w (get (td_price td) (PyInt 0)) with
  | Ret (Finite q) => q
  | _ => 0
  end.

Definition action_of (td : trade_data) : string :=
  match WalletManager.str_upper w (get (td_action td) (PyStr "")) with
  | Ret a => a
  | Raise _ => ""
  end.

Definition total_of (td : trade_data) : Q :=
  get (td_total_value td) (quantity_of td * price_of td)%Q.

(** The trade dictionaries [add_trade] can store: the three conversions
    succeed, quantity and price are finite, and so is the total value. *)
Definition storable (td : trade_data) : Prop :=
  (exists q, WalletManager.float w (get (td_quantity td) (PyInt 0)) = Ret (Finite q)) /\
  (exists p, WalletManager.float w (get (td_price td) (PyInt 0)) = Ret (Finite p)) /\
  (exists a, WalletManager.str_upper w (get (td_action td) (PyStr "")) = Ret a) /\
  finite_total td (quantity_of td) (price_of td).

(** The rows [add_trade] writes for the trades [tds], one below the other
    from row [r] on. *)
Fixpoint log_rows (r : nat) (tds : list trade_data) : list (list cell) :=
  match tds with
  | [] => []
  | td :: rest =>
      row_written w td (quantity_of td) (price_of td) (action_of td) r :: log_rows (S r) rest
  end.
End TradeLog.

(** Five header rows none of which is empty: each has a text in column A,
    and none is wider than the eight columns A to H.  The header block that
    [_create_sheet_structure] writes is not of this kind, its row 3 is
    empty. *)
Definition headed (hdr : list (list cell)) : Prop :=
  length hdr = 5%nat /\
  Forall (fun row => (length row <= 8)%nat /\
                     exists s, nth 0 row Blank = Text s /\ s <> "") hdr.

(** *** The dashboard *)

(** The cells [update_wallet_summary] writes for a wallet, if its three
    numbers are finite; it writes none if they are not. *)
Definition wallet_cells (wallet : performance_data) : option (list cell) :=
  serialise [ Some (text (p_name wallet)); number (p_current_value wallet);
              number (p_total_return_pct wallet); number (p_apy wallet) ].

(** The dashboard after the loop of [update_wallet_summary], when the API
    has answered every call. *)
Fixpoint wallets_written (ws : worksheet) (row_num : nat) (wallet_data : list performance_data)
  : worksheet :=
  match wallet_data with
  | [] => ws
  | wallet :: rest =>
      wallets_written
        match wallet_cells wallet with
        | Some cells => PortfolioDashboard.set_cells ws (row_num - 1) 4 cells
        | None => ws
        end
        (S row_num) rest
  end.

(** The wallet managers after [add_wallet] has been called for each of
    [wallet_names] in turn: a name goes to the end unless it is there. *)
Definition managers_after (wallet_names managers : list string) : list string :=
  fold_left (fun l n => if existsb (String.eqb n) l then l else l ++ [n])
    wallet_names managers.

(** *** A wallet sheet with a note in row 3 *)

Module Noted.
Import Sample.

(** The header block of wallet W with a note in cell A3. *)
Definition headers : list (list cell) :=
  Worksheet.set_row (WalletManager.summary_headers "W") 2 [Text "notes"].

Definition purchase : trade_data := order "BUY" 1 1000.

Definition sale : trade_data := order "SELL" 1 1200.

(** The portfolio whose wallet W holds the trades [tds]. *)
Definition holding (tds : list trade_data) : state :=
  {| sheets := [("W", headers ++ log_rows w0 6 tds)];
     net := [];
     wallet_managers := ["W"];
     registered_bots := [] |}.

(** The same two trades on a worksheet whose column G shows numbers: the
    running balances have been entered in the spreadsheet itself. *)
Definition shown_log : worksheet :=
  headers ++
  [ [Text "2024-06-15"; Text "BUY"; Text "BTC"; Number 1; Number 1000; Number 1000;
     Number 1000; Blank];
    [Text "2024-06-15"; Text "SELL"; Text "BTC"; Number 1; Number 1200; Number 1200;
     Number (-200); Blank] ].

Definition showing : state :=
  {| sheets := [("W", shown_log)]; net := []; wallet_managers := ["W"];
     registered_bots := [] |}.

(** A spreadsheet in which the dashboard has been created. *)
Definition with_dashboard : state := after (PortfolioDashboard.create_dashboard_sheet w0) start.
End Noted.

(** * Properties *)

(** ** Dictionaries *)

Lemma lookup_assign_same {A : Type} (k : string) (v : A) (d : list (string * A)) :
  lookup k (assign k v d) = Some v.
Proof.
  induction d as [|[k' v'] d IH]; simpl.
  - now rewrite String.eqb_refl.
  - destruct (k =? k') eqn:E; simpl; rewrite ?String.eqb_refl, ?E; auto.
Qed.

Lemma assign_assign {A : Type} (k : string) (v v' : A) (d : list (string * A)) :
  assign k v (assign k v' d) = assign k v d.
Proof.
  induction d as [|[k2 v2] d IH]; simpl.
  - now rewrite String.eqb_refl.
  - destruct (k =? k2) eqn:E; simpl; rewrite ?String.eqb_refl, ?E; auto.
    now rewrite IH.
Qed.

Lemma lookup_assign_keeps {A : Type} (k n : string) (v : A) (d : list (string * A)) :
  lookup k d <> None -> lookup k (assign n v d) <> None.
Proof.
  induction d as [|[k' v'] d IH]; simpl; [congruence|].
  destruct (n =? k') eqn:E; simpl.
  - apply String.eqb_eq in E. subst k'. destruct (k =? n); congruence.
  - destruct (k =? k'); auto.
Qed.

Lemma lookup_assign_other {A : Type} (k n : string) (v : A) (d : list (string * A)) :
  n <> k -> lookup n (assign k v d) = lookup n d.
Proof.
  intros D. induction d as [|[k' v'] d IH]; cbn [assign lookup].
  - destruct (n =? k) eqn:E; auto. apply String.eqb_eq in E. contradiction.
  - destruct (k =? k') eqn:E; cbn [lookup].
    + apply String.eqb_eq in E. subst k'.
      destruct (n =? k) eqn:E'; auto. apply String.eqb_eq in E'. contradiction.
    + now rewrite IH.
Qed.

Lemma keys_assign_new {A : Type} (k : string) (v : A) (d : list (string * A)) :
  ~ In k (map fst d) -> map fst (assign k v d) = map fst d ++ [k].
Proof.
  induction d as [|[k' v'] d IH]; cbn [assign map fst app In]; auto.
  intros N. destruct (k =? k') eqn:E.
  - apply String.eqb_eq in E. subst. tauto.
  - cbn [map fst]. rewrite IH; tauto.
Qed.

Lemma lookup_in {A : Type} (k : string) (v : A) (d : list (string * A)) :
  lookup k d = Some v -> In k (map fst d).
Proof.
  induction d as [|[k' v'] d IH]; cbn [lookup map fst In]; [discriminate|].
  destruct (k =? k') eqn:E; auto. apply String.eqb_eq in E. auto.
Qed.

Lemma in_lookup {A : Type} (k : string) (d : list (string * A)) :
  In k (map fst d) -> lookup k d <> None.
Proof.
  induction d as [|[k' v'] d IH]; cbn [lookup map fst In]; [tauto|].
  destruct (k =? k') eqn:E; [discriminate|].
  intros [->|H]; auto. now rewrite String.eqb_refl in E.
Qed.

Lemma same_data_refl (s : state) : same_data s s.
Proof. repeat split. Qed.

Lemma same_data_trans (s1 s2 s3 : state) :
  same_data s1 s2 -> same_data s2 s3 -> same_data s1 s3.
Proof. unfold same_data. intuition congruence. Qed.

Lemma same_data_set_net (s : state) (n : list bool) : same_data s (set_net s n).
Proof. repeat split. Qed.

Create HintDb ledger.
#[local] Hint Resolve same_data_refl same_data_set_net : ledger.
(** ** Cells *)

Lemma title_truthy (name : string) :
  truthy (VText (String.append name " - WALLET SUMMARY")) = true.
Proof. destruct name; reflexivity. Qed.

Lemma blank_row (c : nat) :
  nth c [Blank; Blank; Blank; Blank; Blank; Blank; Blank; Blank] Blank = Blank.
Proof. do 8 (destruct c as [|c]; [reflexivity|]). destruct c; reflexivity. Qed.

Lemma Qgt0_false (x : Q) : x <= 0 -> Qgt0 x = false.
Proof. intros H. unfold Qgt0. apply Qle_bool_iff in H. now rewrite H. Qed.


(** A float that is positive is not 0. *)
Lemma positive_not_zero (y : pyfloat) : is_positive y = true -> is_zero y = false.
Proof.
  destruct y as [b| | |]; cbn [is_positive is_zero]; try reflexivity.
  intros H. destruct (Qeq_bool b 0) eqn:E; [|reflexivity].
  apply Qeq_bool_iff in E. rewrite Qgt0_false in H; [discriminate|].
  rewrite E. apply Qle_refl.
Qed.

(** Behind the guard [y > 0] a division does not raise. *)
Lemma truediv_guarded (x y : pyfloat) :
  is_positive y = true -> truediv x y = Ret (quotient x y).
Proof. intros H. unfold truediv. now rewrite (positive_not_zero y H). Qed.



(** *** The range of the floats *)

Lemma within_range (y : Q) : overflows y = false <-> - float_bound < y /\ y < float_bound.
Proof.
  unfold overflows. rewrite <- Qabs_Qlt_condition. split.
  - intros H. apply Qnot_le_lt. intros L. apply Qle_bool_iff in L. congruence.
  - intros H. destruct (Qle_bool float_bound (Qabs y)) eqn:E; [|reflexivity].
    apply Qle_bool_iff in E. exfalso. exact (Qlt_not_le _ _ H E).
Qed.

Lemma float_bound_large : 2 <= float_bound.
Proof. vm_compute. discriminate. Qed.




(** Finite quantity and price can be sent exactly when the total value is
    finite. *)
Lemma sendable_finite (td : trade_data) (q p : Q) :
  sendable td (Finite q) (Finite p) = true <-> finite_total td q p.
Proof.
  unfold sendable, total_value_of, finite_total, fmul, rounded.
  destruct (td_total_value td) as [tv|]; cbn [option_map get number serialise].
  - split; [discriminate|reflexivity].
  - destruct (overflows (q * p)); [destruct (Qgt0 (q * p))|]; cbn [number serialise];
      split; auto; try discriminate; intros H; specialize (H eq_refl); discriminate.
Qed.

(** The row of [add_trade] can be sent exactly when its three numbers are
    finite. *)
Lemma trade_row_cases (td : trade_data) (quantity price : pyfloat) :
  (exists q p, quantity = Finite q /\ price = Finite p /\ finite_total td q p /\
     forall a b c g h,
       serialise [Some a; Some b; Some c; number quantity; number price;
                  number (get (option_map Finite (td_total_value td)) (fmul quantity price));
                  Some g; Some h] =
       Some [a; b; c; Number q; Number p; Number (get (td_total_value td) (q * p)); g; h]) \/
  (sendable td quantity price = false /\
   forall a b c g h,
     serialise [Some a; Some b; Some c; number quantity; number price;
                number (get (option_map Finite (td_total_value td)) (fmul quantity price));
                Some g; Some h] = None).
Proof.
  destruct quantity as [q| | |], price as [p| | |];
    try (right; split; [reflexivity|intros; reflexivity]).
  destruct (sendable td (Finite q) (Finite p)) eqn:S.
  - left. exists q, p. repeat split. { now apply sendable_finite. }
    intros. revert S. unfold sendable, total_value_of, fmul, rounded.
    destruct (td_total_value td) as [tv|]; cbn [option_map get number serialise];
      [reflexivity|].
    destruct (overflows (q * p)); [destruct (Qgt0 (q * p)); discriminate|reflexivity].
  - right. split; [reflexivity|]. intros. revert S. unfold sendable, total_value_of, fmul, rounded.
    destruct (td_total_value td) as [tv|]; cbn [option_map get number serialise];
      [discriminate|].
    destruct (overflows (q * p)); [destruct (Qgt0 (q * p)); reflexivity|discriminate].
Qed.

(** *** Strings that are no numbers

    Every formula starts with [=], which no float literal has: [float]
    raises [ValueError] on it. *)

Lemma formula_starts (row_num : nat) :
  exists t, WalletManager._calculate_running_balance_formula row_num = String "=" t.
Proof.
  unfold WalletManager._calculate_running_balance_formula.
  destruct (row_num =? 6)%nat; eexists; cbn [append]; reflexivity.
Qed.

(** A row of the trade log whose running balance is a formula gives no
    dictionary: [float] raises [ValueError] on column G. *)
Lemma trade_of_row_formula (w : world) (v0 v1 v2 v7 : value) (q p tv : Q) (t : string) :
  WalletManager.trade_of_row w [v0; v1; v2; VNum q; VNum p; VNum tv; VText (String "=" t); v7]
  = Raise ValueError.
Proof. reflexivity. Qed.

Lemma limited_nil (limit : option Z) : limited limit [] = [].
Proof.
  destruct limit as [l|]; [|reflexivity]. unfold limited, WalletManager.last_from.
  destruct (negb (l =? 0)%Z && (l <? Z.of_nat (length (@nil trade)))%Z); [|reflexivity].
  destruct (0 <? l)%Z; apply skipn_nil.
Qed.

(** Running a method symbolically: unfold the monad and the API layer, then
    project the state records. *)
Ltac run :=
  cbv [bind ret raise try_except lift Worksheet.get_all_values
    Worksheet.acell Worksheet.update Worksheet.store Worksheet.clear Worksheet.format
    Worksheet.api_call Worksheet.the_sheet Worksheet.put_sheet
    SheetsConnector.update_range];
  cbn [sheets net wallet_managers registered_bots
       set_net set_sheets set_wallet_managers set_registered_bots].

Lemma answers_after_call (s : state) (i : nat) : answers (after_call s) i = answers s (S i).
Proof.
  unfold answers, after_call. destruct (net s) as [|b n] eqn:N; [rewrite N|]; cbn [net set_net nth].
  - now destruct i.
  - reflexivity.
Qed.

Lemma same_data_after_call (s : state) : same_data s (after_call s).
Proof. unfold after_call. destruct (net s); auto with ledger. Qed.

#[local] Hint Resolve same_data_after_call : ledger.

Section Sheets.

Lemma any_row_true ws r c :
  (c < width ws)%nat -> truthy (cell_value ws c r) = true ->
  any (row_values ws r) = true.
Proof.
  intros Hc Ht. unfold any, row_values. apply existsb_exists.
  exists (cell_value ws c r). split; auto.
  apply in_map_iff. exists c. split; auto. apply in_seq. lia.
Qed.

Lemma any_row_false ws r :
  (forall c, cell_at ws c r = Blank) -> any (row_values ws r) = false.
Proof.
  intros H. unfold any, row_values.
  induction (seq 0 (width ws)) as [|c l IH]; simpl; auto.
  unfold cell_value at 1. rewrite (H c). exact IH.
Qed.

Lemma all_values_length ws : length (all_values ws) = length ws.
Proof. unfold all_values. now rewrite length_map, length_seq. Qed.

Variable name : string.

(** Which rows of a ledger count as non-empty for [add_trade]. *)
Ltac row_fact :=
  match goal with
  | |- any (row_values ?ws 3) = false =>
      apply any_row_false; intros c; apply blank_row
  | |- any (row_values ?ws 1) = true =>
      apply (any_row_true ws 1 0); [cbv [width]; simpl; lia|apply title_truthy]
  | |- any (row_values ?ws 6) = true =>
      apply (any_row_true ws 6 3); [cbv [width]; simpl; lia|reflexivity]
  | |- any (row_values ?ws ?r) = true =>
      apply (any_row_true ws r 0); [cbv [width]; simpl; lia|reflexivity]
  end.

(** The five header rows have four non-empty rows among them: row 3 is
    empty. *)
Lemma count_headers :
  length (filter any (all_values (WalletManager.summary_headers name))) = 4%nat.
Proof.
  set (ws := WalletManager.summary_headers name).
  unfold all_values.
  change (length ws) with 5%nat. cbn [seq map filter].
  replace (any (row_values ws 1)) with true by (symmetry; row_fact).
  replace (any (row_values ws 2)) with true by (symmetry; row_fact).
  replace (any (row_values ws 3)) with false by (symmetry; row_fact).
  replace (any (row_values ws 4)) with true by (symmetry; row_fact).
  replace (any (row_values ws 5)) with true by (symmetry; row_fact).
  reflexivity.
Qed.

(** A trade row below them makes five. *)
Lemma count_one c0 c1 c2 q c4 c5 c6 c7 :
  length (filter any
            (all_values (WalletManager.summary_headers name
                         ++ [[c0; c1; c2; Number q; c4; c5; c6; c7]]))) = 5%nat.
Proof.
  set (ws := WalletManager.summary_headers name ++ _).
  unfold all_values.
  change (length ws) with 6%nat. cbn [seq map filter].
  replace (any (row_values ws 1)) with true by (symmetry; row_fact).
  replace (any (row_values ws 2)) with true by (symmetry; row_fact).
  replace (any (row_values ws 3)) with false by (symmetry; row_fact).
  replace (any (row_values ws 4)) with true by (symmetry; row_fact).
  replace (any (row_values ws 5)) with true by (symmetry; row_fact).
  replace (any (row_values ws 6)) with true by (symmetry; row_fact).
  reflexivity.
Qed.

Lemma set_row_one row0 row :
  length row = 8%nat -> length row0 = 8%nat ->
  Worksheet.set_row (WalletManager.summary_headers name ++ [row0]) 5 row =
  WalletManager.summary_headers name ++ [row].
Proof.
  intros H H0. do 9 (destruct row as [|? row]; try discriminate).
  do 9 (destruct row0 as [|? row0]; try discriminate).
  reflexivity.
Qed.

(** What [get_all_values] shows of a worksheet that holds one trade. *)
Lemma one_row6 c0 c1 c2 c3 c4 c5 c6 c7 :
  skipn 5 (all_values (WalletManager.summary_headers name
                       ++ [[c0; c1; c2; c3; c4; c5; c6; c7]])) =
  [[shown c0; shown c1; shown c2; shown c3; shown c4; shown c5; shown c6; shown c7]].
Proof. reflexivity. Qed.
End Sheets.

(** ** The methods of a wallet manager *)

Section Wallet.
Variable w : world.
Variable name : string.

(** The row of a trade, as [add_trade] hands it to [update]. *)
Ltac total_value td quantity price :=
  destruct (trade_row_cases td quantity price)
    as [(?q & ?p & -> & -> & ?FT & ?TV)|(?FT & ?TV)];
  rewrite ?TV.

(** [add_trade] on an existing sheet: either nothing is written and the
    answer is [False], or the row goes to [next_row] and the answer is
    [True]. *)
Lemma add_trade_cases s ws td :
  lookup name (sheets s) = Some ws ->
  let next_row := Nat.max 6 (length (filter any (all_values ws)) + 1) in
  exists b s',
    WalletManager.add_trade w name td s = (Ret b, s') /\
    wallet_managers s' = wallet_managers s /\
    registered_bots s' = registered_bots s /\
    (net s = [] -> net s' = []) /\
    if b : bool
    then exists quantity price action,
        WalletManager.float w (get (td_quantity td) (PyInt 0)) = Ret (Finite quantity) /\
        WalletManager.float w (get (td_price td) (PyInt 0)) = Ret (Finite price) /\
        WalletManager.str_upper w (get (td_action td) (PyStr "")) = Ret action /\
        finite_total td quantity price /\
        sheets s' = assign name (Worksheet.set_row ws (next_row - 1)
                                   (row_written w td quantity price action next_row))
                      (sheets s)
    else sheets s' = sheets s.
Proof.
  intros L next_row. unfold WalletManager.add_trade. run.
  destruct (WalletManager.float w (get (td_quantity td) (PyInt 0))) as [quantity|e1];
  destruct (WalletManager.float w (get (td_price td) (PyInt 0))) as [price|e2];
  destruct (WalletManager.str_upper w (get (td_action td) (PyStr ""))) as [action|e3];
  try total_value td quantity price;
  destruct (net s) as [|[|] [|[|] n1]] eqn:N; run; rewrite ?N, ?L; run;
    rewrite ?TV; run; rewrite ?N, ?L;
    try (eexists false, _; split; [reflexivity|]; split; [reflexivity|];
         split; [reflexivity|]; split; [intros E; cbn [net set_net set_sheets]; congruence|];
         reflexivity).
  all: try (eexists true, _; split; [reflexivity|]; split; [reflexivity|];
            split; [reflexivity|]; split; [intros E; cbn [net set_net set_sheets]; congruence|];
            eexists _, _, action; repeat split; (reflexivity || assumption)).
Qed.

(** [add_trade] never raises, whatever the state. *)
Lemma add_trade_total s td :
  exists b s',
    WalletManager.add_trade w name td s = (Ret b, s') /\
    wallet_managers s' = wallet_managers s /\
    registered_bots s' = registered_bots s /\
    (net s = [] -> net s' = []) /\
    (forall k, lookup k (sheets s) <> None -> lookup k (sheets s') <> None).
Proof.
  destruct (lookup name (sheets s)) as [ws|] eqn:L.
  - destruct (add_trade_cases s ws td L) as (b & s' & E & W & B & N & Hb).
    exists b, s'. repeat split; auto.
    intros k Hk. destruct b.
    + destruct Hb as (? & ? & ? & _ & _ & _ & _ & ->). now apply lookup_assign_keeps.
    + now rewrite Hb.
  - unfold WalletManager.add_trade. run.
    destruct (net s) as [|[|] n0] eqn:N; run; rewrite ?L;
      eexists false, _; (split; [reflexivity|]); (split; [reflexivity|]);
      (split; [reflexivity|]); (split; [intros E; cbn [net set_net set_sheets]; congruence|]);
      auto.
Qed.

(** When every call goes through, the conversions succeed, quantity and
    price are finite and so is the total value, the row is written and the
    answer is [True]. *)
Lemma add_trade_online s ws td quantity price action :
  lookup name (sheets s) = Some ws ->
  net s = [] ->
  WalletManager.float w (get (td_quantity td) (PyInt 0)) = Ret (Finite quantity) ->
  WalletManager.float w (get (td_price td) (PyInt 0)) = Ret (Finite price) ->
  WalletManager.str_upper w (get (td_action td) (PyStr "")) = Ret action ->
  finite_total td quantity price ->
  let next_row := Nat.max 6 (length (filter any (all_values ws)) + 1) in
  WalletManager.add_trade w name td s =
  (Ret true,
   set_sheets s (assign name (Worksheet.set_row ws (next_row - 1)
                                (row_written w td quantity price action next_row))
                   (sheets s))).
Proof.
  intros L N Fq Fp Fa F next_row. unfold WalletManager.add_trade. run.
  rewrite Fq, Fp, Fa, N. run. rewrite L. run.
  destruct (trade_row_cases td (Finite quantity) (Finite price))
    as [(q & p & [= <-] & [= <-] & _ & TV)|(S & _)].
  - rewrite TV. run. rewrite N, L. reflexivity.
  - apply sendable_finite in F. congruence.
Qed.

(** A quantity, a price or a total value that is not finite makes
    [add_trade] answer [False]; the sheet is read and nothing is written. *)
Lemma add_trade_unsendable s td quantity price :
  WalletManager.float w (get (td_quantity td) (PyInt 0)) = Ret quantity ->
  WalletManager.float w (get (td_price td) (PyInt 0)) = Ret price ->
  sendable td quantity price = false ->
  WalletManager.add_trade w name td s = (Ret false, after_call s).
Proof.
  intros Fq Fp F. unfold WalletManager.add_trade, after_call. run.
  rewrite Fq, Fp.
  destruct (trade_row_cases td quantity price) as [(q & p & -> & -> & FT & _)|(_ & TV)].
  { apply sendable_finite in FT. congruence. }
  destruct (WalletManager.str_upper w (get (td_action td) (PyStr ""))) as [action|e3];
  destruct (net s) as [|[|] n] eqn:N; run; rewrite ?N;
    destruct (lookup name (sheets s)) as [ws|] eqn:L; run;
    rewrite ?TV; reflexivity.
Qed.

Lemma create_ok s s' ws :
  net s = [] ->
  WalletManager._create_sheet_structure name s = (Ret tt, s') ->
  lookup name (sheets s') = Some ws ->
  ws = WalletManager.summary_headers name.
Proof.
  intros N C L.
  unfold WalletManager._create_sheet_structure, WalletManager._format_wallet_sheet in C.
  unfold WalletManager.summary_headers in C at 1.
  cbn [WalletManager.write_headers map serialise] in C.
  revert C. run. rewrite N.
  destruct (lookup name (sheets s)) eqn:L0; [|discriminate].
  repeat (progress (run; cbn [serialise]; rewrite ?N, ?lookup_assign_same, ?assign_assign)).
  intros E. inversion E; subst s'; clear E. revert L.
  run. rewrite lookup_assign_same. intros E. inversion E. reflexivity.
Qed.

Lemma next_row_shaped last ws :
  shaped w name last ws ->
  Nat.max 6 (length (filter any (all_values ws)) + 1) = 6%nat.
Proof.
  destruct last as [td|]; cbn [shaped].
  - intros (quantity & price & action & _ & _ & _ & _ & ->).
    unfold row_written. rewrite count_one. reflexivity.
  - intros ->. rewrite count_headers. reflexivity.
Qed.

Lemma set_row_shaped last ws row :
  shaped w name last ws -> length row = 8%nat ->
  Worksheet.set_row ws 5 row = WalletManager.summary_headers name ++ [row].
Proof.
  destruct last as [td|]; cbn [shaped].
  - intros (quantity & price & action & _ & _ & _ & _ & ->) H.
    now apply set_row_one.
  - intros -> _. reflexivity.
Qed.

(** A ledger is the header block, followed by the row of the last trade
    that was stored, if any: every stored trade goes to row 6. *)
Lemma ledger_shaped last ws : ledger w name last ws -> shaped w name last ws.
Proof.
  induction 1 as [s s' ws N C L
                 | last ws ws' s s' td _ IH L A L'
                 | last ws ws' s s' td _ IH L A L'].
  - cbn [shaped]. eapply create_ok; eauto.
  - destruct (add_trade_cases s ws td L) as (b & s2 & E & _ & _ & _ & Hb).
    rewrite A in E. inversion E; subst b s2; clear E.
    destruct Hb as (quantity & price & action & Fq & Fp & Fa & FT & Hs).
    rewrite (next_row_shaped _ _ IH) in Hs. cbn [Nat.sub] in Hs.
    rewrite (set_row_shaped _ _ _ IH) in Hs by reflexivity.
    rewrite Hs, lookup_assign_same in L'. inversion L'; subst ws'.
    cbn [shaped]. eauto 10.
  - destruct (add_trade_cases s ws td L) as (b & s2 & E & _ & _ & _ & Hb).
    rewrite A in E. inversion E; subst b s2; clear E.
    rewrite Hb, L in L'. inversion L'; subst ws'. exact IH.
Qed.

(** Row 2 of a ledger is the summary row that [_create_sheet_structure]
    wrote. *)
Lemma shaped_summary_row last ws :
  shaped w name last ws ->
  nth_error ws 1 = nth_error (WalletManager.summary_headers name) 1.
Proof.
  destruct last as [td|]; cbn [shaped].
  - intros (quantity & price & action & _ & _ & _ & _ & ->). reflexivity.
  - intros ->. reflexivity.
Qed.

(** *** Reading the summary cells *)

(** One call of [_get_cell_value]: it never raises, and what it returns is
    decided by the fate of its API call and by the cell. *)
Lemma get_cell_value_eq s c r d :
  WalletManager._get_cell_value w name c r d s =
  (Ret (retrieved w name s 0 c r d), after_call s).
Proof.
  unfold WalletManager._get_cell_value, retrieved, answers, after_call. run.
  destruct (net s) as [|[|] n] eqn:N; run; cbn [nth];
    (destruct (lookup name (sheets s)) as [ws|] eqn:L; run; [|reflexivity]);
    unfold number_shown;
    (destruct (cell_value ws c r) as [|t|q] eqn:V; run; try reflexivity;
     destruct (t =? "") eqn:T; run; try reflexivity;
     destruct (WalletManager.float w (PyStr (WalletManager.cleaned t))) eqn:F;
     reflexivity).
Qed.

Lemma retrieved_after_call s i c r d :
  retrieved w name (after_call s) i c r d = retrieved w name s (S i) c r d.
Proof.
  unfold retrieved. rewrite answers_after_call.
  now destruct (same_data_after_call s) as (-> & _).
Qed.

(** Any internal failure makes [add_trade] answer [False]. *)
Lemma add_trade_fails s td :
  internal_failure w name td s ->
  exists s', WalletManager.add_trade w name td s = (Ret false, s').
Proof.
  intros H.
  destruct (WalletManager.float w (get (td_quantity td) (PyInt 0))) as [quantity|e1] eqn:Fq;
  [destruct (WalletManager.float w (get (td_price td) (PyInt 0))) as [price|e2] eqn:Fp;
   [destruct (sendable td quantity price) eqn:S;
    [destruct (trade_row_cases td quantity price) as [(q & p & -> & -> & FT & TV)|(S' & _)];
     [|congruence]
    |rewrite (add_trade_unsendable s td quantity price Fq Fp S); eauto]|]|];
  unfold WalletManager.add_trade; run; rewrite ?Fq, ?Fp;
  destruct (WalletManager.str_upper w (get (td_action td) (PyStr ""))) as [action|e3] eqn:Fa;
  destruct (lookup name (sheets s)) as [ws|] eqn:L;
  destruct (net s) as [|[|] [|[|] n1]] eqn:N; run; rewrite ?N, ?L; run;
    rewrite ?TV; run; rewrite ?N, ?L;
    try (eexists; reflexivity);
    exfalso;
    destruct H as [(n & H)|[H|[(e & H)|[(e & H)|[(e & H)|[(q' & p' & Hq & Hp & H)|(n & H)]]]]]];
    first [ discriminate H | congruence
          | rewrite Fq in Hq; rewrite Fp in Hp; inversion Hq; inversion Hp; subst;
            congruence ].
Qed.

(** [get_wallet_performance] never raises: each metric is retrieved on
    its own, by the first, the second, the third and the fourth of its API
    calls, and the percentage is computed from the first two. *)
Lemma performance_eq s :
  WalletManager.get_wallet_performance w name s =
  (Ret {| p_name := name;
          p_initial_investment := retrieved w name s 0 colB 2 (Finite 0);
          p_current_value := retrieved w name s 1 colD 2 (Finite 0);
          p_total_return := retrieved w name s 2 colF 2 (Finite 0);
          p_total_return_pct :=
            pct_of (retrieved w name s 0 colB 2 (Finite 0))
                   (retrieved w name s 1 colD 2 (Finite 0));
          p_apy := retrieved w name s 3 colH 2 (Finite 0) |},
   after_call (after_call (after_call (after_call s)))).
Proof.
  unfold WalletManager.get_wallet_performance. cbv [try_except bind ret].
  rewrite !get_cell_value_eq, !retrieved_after_call.
  unfold pct_of.
  destruct (is_positive (retrieved w name s 0 colB 2 (Finite 0))) eqn:G; [|reflexivity].
  cbv [lift]. now rewrite (truediv_guarded _ _ G).
Qed.

Lemma same_data_four_calls s :
  same_data s (after_call (after_call (after_call (after_call s)))).
Proof. repeat (eapply same_data_trans; [|apply same_data_after_call]). apply same_data_refl. Qed.


(** The four cells that [get_wallet_performance] reads hold, in a summary
    row written by the program, the strings of the formulas, and the
    number such a cell shows is the default. *)
Lemma summary_row_shows title ws c d :
  nth_error ws 1 = nth_error (WalletManager.summary_headers title) 1 ->
  c = colB \/ c = colD \/ c = colF \/ c = colH ->
  number_shown w d (cell_value ws c 2) = d.
Proof.
  intros R C. unfold cell_value, cell_at.
  destruct ws as [|row1 [|row2 rest]]; try discriminate R.
  cbn [nth_error WalletManager.summary_headers] in R. inversion R; subst row2.
  destruct C as [-> | [-> | [-> | ->]]]; reflexivity.
Qed.

Lemma retrieved_summary_row title s ws i c d :
  lookup name (sheets s) = Some ws ->
  nth_error ws 1 = nth_error (WalletManager.summary_headers title) 1 ->
  c = colB \/ c = colD \/ c = colF \/ c = colH ->
  retrieved w name s i c 2 d = d.
Proof.
  intros L R C. unfold retrieved. rewrite L, (summary_row_shows title ws c d R C).
  now destruct (answers s i).
Qed.

(** On a worksheet whose row 2 is such a summary row, every metric is 0,
    whatever the fate of the API calls. *)
Lemma performance_summary_row title s ws :
  lookup name (sheets s) = Some ws ->
  nth_error ws 1 = nth_error (WalletManager.summary_headers title) 1 ->
  WalletManager.get_wallet_performance w name s =
  (Ret (zero_performance name), after_call (after_call (after_call (after_call s)))).
Proof.
  intros L R. rewrite performance_eq.
  rewrite !(retrieved_summary_row title s ws) by (try assumption; unfold colB, colD, colF, colH; tauto).
  reflexivity.
Qed.

(** *** Reading the trade log *)

Lemma float_or_0_exn x e : WalletManager.float_or_0 w x = Raise e -> e = ValueError.
Proof.
  destruct x as [|t|q]; simpl; try discriminate.
  destruct (t =? ""); try discriminate.
  destruct (no_float t); [congruence|]. destruct (float_of_str w t); congruence.
Qed.

Lemma item_exn row i e : WalletManager.item row i = Raise e -> e = IndexError.
Proof. unfold WalletManager.item. destruct (nth_error row i); congruence. Qed.

Lemma trade_of_row_exn row e :
  WalletManager.trade_of_row w row = Raise e -> e = ValueError \/ e = IndexError.
Proof.
  unfold WalletManager.trade_of_row, obind.
  repeat (cbv beta iota;
          match goal with
          | |- context [WalletManager.item row ?i] =>
              let E := fresh "E" in
              destruct (WalletManager.item row i) eqn:E;
              [| apply item_exn in E; intros [= <-]; auto]
          | |- context [WalletManager.float_or_0 w ?x] =>
              let E := fresh "E" in
              destruct (WalletManager.float_or_0 w x) eqn:E;
              [| apply float_or_0_exn in E; intros [= <-]; auto]
          end).
  discriminate.
Qed.

Lemma collect_trades_total rows : exists l, WalletManager.collect_trades w rows = Ret l.
Proof.
  induction rows as [|row rows (l & IH)]; cbn [WalletManager.collect_trades]; eauto.
  destruct (negb (any (firstn 6 row))); eauto.
  destruct (WalletManager.trade_of_row w row) eqn:T.
  - rewrite IH. cbn [obind]. eauto.
  - destruct (trade_of_row_exn _ _ T); subst; eauto.
Qed.

(** [get_trade_history]: it never raises, and what it returns is decided
    by the fate of its one API call and by the worksheet. *)
Lemma history_eq s limit :
  WalletManager.get_trade_history w name limit s =
  (Ret (if answers s 0
        then match lookup name (sheets s) with
             | Some ws => history_of w ws limit
             | None => []
             end
        else []), after_call s).
Proof.
  unfold WalletManager.get_trade_history, history_of, answers, after_call. run.
  destruct (net s) as [|[|] n] eqn:N; run; cbn [nth]; try reflexivity;
    (destruct (lookup name (sheets s)) as [ws|] eqn:L; run; [|reflexivity]);
    rewrite all_values_length;
    (destruct (length ws <? 6)%nat; [reflexivity|]);
    unfold collected;
    destruct (collect_trades_total (skipn 5 (all_values ws))) as (l & ->);
    unfold limited; (destruct limit as [l0|]; [|reflexivity]);
    destruct (negb (l0 =? 0)%Z && (l0 <? Z.of_nat (length l))%Z); reflexivity.
Qed.

Lemma history_online s ws limit :
  net s = [] -> lookup name (sheets s) = Some ws ->
  WalletManager.get_trade_history w name limit s = (Ret (history_of w ws limit), s).
Proof.
  intros N L. rewrite history_eq. unfold answers, after_call. rewrite N, L. reflexivity.
Qed.

(** [get_trade_history] never raises and changes nothing. *)
Lemma history_total s limit :
  exists l s',
    WalletManager.get_trade_history w name limit s = (Ret l, s') /\ same_data s s'.
Proof. rewrite history_eq. eexists _, _. split; [reflexivity|auto with ledger]. Qed.


(** *** What a ledger shows *)

(** The trade log of a ledger gives no history: the one row it can hold
    has the string of a formula in column G, and [get_trade_history] skips
    the row. *)
Lemma shaped_history last ws limit :
  shaped w name last ws -> history_of w ws limit = [].
Proof.
  destruct last as [td|]; cbn [shaped].
  - intros (quantity & price & action & _ & _ & _ & _ & ->).
    unfold history_of, row_written.
    change (length _ <? 6)%nat with false. cbv iota.
    rewrite one_row6. unfold collected.
    cbn [WalletManager.collect_trades firstn any existsb truthy shown].
    rewrite !orb_true_r. cbn [negb].
    destruct (formula_starts 6) as (t & ->). cbn [shown].
    rewrite trade_of_row_formula. apply limited_nil.
  - intros ->. reflexivity.
Qed.

Lemma ledger_history last ws s limit :
  ledger w name last ws -> lookup name (sheets s) = Some ws ->
  WalletManager.get_trade_history w name limit s = (Ret [], after_call s).
Proof.
  intros Hl L. apply ledger_shaped in Hl. rewrite history_eq, L.
  rewrite (shaped_history _ _ _ Hl). now destruct (answers s 0).
Qed.

Lemma ledger_performance last ws s :
  ledger w name last ws -> lookup name (sheets s) = Some ws ->
  WalletManager.get_wallet_performance w name s =
  (Ret (zero_performance name), after_call (after_call (after_call (after_call s)))).
Proof.
  intros Hl L. apply ledger_shaped, shaped_summary_row in Hl.
  now apply (performance_summary_row name s ws).
Qed.
End Wallet.
(** ** The bot connector *)

Section Bots.
Variable w : world.

(** The numbers of a simulated trade are within the range of the floats,
    and so is their product, which is at most 50000. *)
Lemma uniform_bounds (a b x : Q) : a <= b -> a <= uniform a b x /\ uniform a b x <= b.
Proof.
  intros H. unfold uniform. split.
  - apply Q.le_max_l.
  - apply Q.max_lub; [exact H|apply Q.le_min_l].
Qed.

Lemma simulated_total (x y : Q) :
  overflows (uniform (1 # 100) 10 x * uniform 50 5000 y) = false.
Proof.
  destruct (uniform_bounds (1 # 100) 10 x) as (L1 & U1); [discriminate|].
  destruct (uniform_bounds 50 5000 y) as (L2 & U2); [discriminate|].
  set (a := uniform (1 # 100) 10 x) in *. set (b := uniform 50 5000 y) in *.
  clearbody a b. apply within_range. pose proof float_bound_large as B.
  assert (B' : 50000 < float_bound) by (vm_compute; reflexivity).
  set (f := float_bound) in *. clearbody f.
  assert (0 <= a * b) by (apply Qmult_le_0_compat; lra).
  assert (a * b <= 10 * 5000).
  { apply Qle_trans with (10 * b).
    - apply Qmult_le_compat_r; lra.
    - rewrite !(Qmult_comm 10). apply Qmult_le_compat_r; lra. }
  split; lra.
Qed.



(** The loop over a fetched batch: it raises when the validator raises on
    an item, and gives the objects that the validator accepts otherwise. *)
Lemma validated_cases items :
  (exists e, BotConnector.validated_trades w items = Raise e /\
             existsb (breaks w) items = true) \/
  (BotConnector.validated_trades w items = Ret (valid_objects w items) /\
   existsb (breaks w) items = false).
Proof.
  induction items as [|item items IH]; cbn [BotConnector.validated_trades valid_objects existsb].
  - right. split; reflexivity.
  - destruct (BotConnector._validate_trade_data w item) as [ok|e] eqn:V; cbn [obind].
    + assert (breaks w item = false) as -> by (unfold breaks; now rewrite V).
      cbn [orb].
      destruct IH as [(e & -> & ->)|(-> & ->)]; cbn [obind].
      * left. eauto.
      * right. split; [|reflexivity].
        destruct item as [td| |]; try reflexivity.
        unfold is_valid. now rewrite V.
    + assert (breaks w item = true) as -> by (unfold breaks; now rewrite V).
      left. eauto.
Qed.

Lemma portfolio_add_trade_total s wallet td :
  exists b s',
    PortfolioManager.add_trade w wallet td s = (Ret b, s') /\
    wallet_managers s' = wallet_managers s /\
    registered_bots s' = registered_bots s /\
    (net s = [] -> net s' = []) /\
    (forall k, lookup k (sheets s) <> None -> lookup k (sheets s') <> None).
Proof.
  unfold PortfolioManager.add_trade, PortfolioManager.get_wallet_manager. cbv [bind ret].
  destruct (PortfolioManager.has_wallet wallet s).
  - destruct (add_trade_total w wallet s td) as (b & s' & E & W & B & N & K).
    rewrite E. exists b, s'. tauto.
  - exists false, s. tauto.
Qed.

Lemma add_trades_total wallet trades : forall n s,
  exists m s',
    BotConnector.add_trades w wallet trades n s = (Ret m, s') /\
    wallet_managers s' = wallet_managers s /\
    registered_bots s' = registered_bots s /\
    (net s = [] -> net s' = []) /\
    (forall k, lookup k (sheets s) <> None -> lookup k (sheets s') <> None).
Proof.
  induction trades as [|td trades IH]; intros n s; cbn [BotConnector.add_trades].
  - exists n, s. tauto.
  - cbv [bind].
    destruct (portfolio_add_trade_total s wallet td) as (b & s1 & E & W & B & N & K).
    rewrite E.
    destruct (IH (if b then S n else n) s1) as (m & s' & E' & W' & B' & N' & K').
    rewrite E'. exists m, s'. split; [reflexivity|].
    split; [congruence|]. split; [congruence|]. split; auto.
Qed.

Lemma fetch_total s bot :
  exists l, BotConnector.fetch_bot_trades w bot s = (Ret l, s) /\
    (forall cfg, lookup bot (registered_bots s) = Some cfg ->
       BotConnector.no_endpoint (api_endpoint cfg) = false ->
       match http_get w (get (api_endpoint cfg) "") with
       | HttpFail => l = []
       | JsonOther => l = []
       | JsonList items =>
           l = if existsb (breaks w) items then [] else valid_objects w items
       end) /\
    (forall cfg, lookup bot (registered_bots s) = Some cfg ->
       BotConnector.no_endpoint (api_endpoint cfg) = true ->
       exists td, l = [td] /\ BotConnector.simulate_bot_trade w bot s = (Ret (Some td), s)).
Proof.
  unfold BotConnector.fetch_bot_trades.
  destruct (lookup bot (registered_bots s)) as [cfg|] eqn:L.
  - destruct (BotConnector.no_endpoint (api_endpoint cfg)) eqn:NE.
    + unfold BotConnector.simulate_bot_trade. cbv [bind ret]. rewrite L.
      eexists. split; [reflexivity|]. split.
      * intros cfg' [= <-]. congruence.
      * intros cfg' [= <-] _. eauto.
    + cbv [try_except].
      destruct (http_get w (get (api_endpoint cfg) "")) as [|raws|] eqn:H; cbv [raise ret lift].
      * eexists. split; [reflexivity|]. split.
        -- intros cfg' [= <-] _. rewrite H. reflexivity.
        -- intros cfg' [= <-]. congruence.
      * destruct (validated_cases raws) as [(e & V & B)|(V & B)]; rewrite V.
        -- eexists. split; [reflexivity|]. split.
           ++ intros cfg' [= <-] _. rewrite H, B. reflexivity.
           ++ intros cfg' [= <-]. congruence.
        -- eexists. split; [reflexivity|]. split.
           ++ intros cfg' [= <-] _. rewrite H, B. reflexivity.
           ++ intros cfg' [= <-]. congruence.
      * eexists. split; [reflexivity|]. split.
        -- intros cfg' [= <-] _. rewrite H. reflexivity.
        -- intros cfg' [= <-]. congruence.
  - eexists. split; [reflexivity|]. split; intros cfg; discriminate.
Qed.


Lemma activate_twice bot d :
  map (fun kv => if bot =? fst kv
                 then (fst kv, BotConnector.set_status "active" (snd kv)) else kv)
    (map (fun kv => if bot =? fst kv
                    then (fst kv, BotConnector.set_last_update (now w) (snd kv)) else kv) d)
  = map (activate w bot) d.
Proof.
  rewrite map_map. apply map_ext. intros [k c]. unfold activate. cbn [fst snd].
  destruct (bot =? k) eqn:E; cbn [fst snd]; rewrite ?E; reflexivity.
Qed.

Lemma activate_absent bot (d : list (string * bot_config)) :
  lookup bot d = None -> map (activate w bot) d = d.
Proof.
  induction d as [|[k c] d IH]; cbn [lookup map]; auto.
  unfold activate at 1. cbn [fst snd].
  destruct (bot =? k); [discriminate|]. intros H. now rewrite IH.
Qed.

Lemma lookup_activate bot n (d : list (string * bot_config)) :
  lookup n (map (activate w bot) d) =
  option_map (fun c => snd (activate w bot (n, c))) (lookup n d).
Proof.
  induction d as [|[k c] d IH]; cbn [lookup map option_map]; auto.
  unfold activate at 1. cbn [fst snd].
  destruct (bot =? k) eqn:B; cbn [fst snd]; destruct (n =? k) eqn:E; auto.
  - apply String.eqb_eq in E. subst k. cbn [option_map]. unfold activate.
    cbn [fst snd]. now rewrite B.
  - apply String.eqb_eq in E. subst k. cbn [option_map]. unfold activate.
    cbn [fst snd]. now rewrite B.
Qed.

(** One ingest cycle. *)
Lemma process_cases s bot :
  exists b s',
    BotConnector.process_bot_trades w bot s = (Ret b, s') /\
    wallet_managers s' = wallet_managers s /\
    registered_bots s' = map (activate w bot) (registered_bots s) /\
    (net s = [] -> net s' = []) /\
    (forall k, lookup k (sheets s) <> None -> lookup k (sheets s') <> None) /\
    match lookup bot (registered_bots s) with
    | None => b = false /\ s' = s
    | Some cfg =>
        exists trades m s1,
          BotConnector.fetch_bot_trades w bot s = (Ret trades, s) /\
          BotConnector.add_trades w (wallet_name cfg) trades 0 s = (Ret m, s1) /\
          b = (0 <? m)%nat /\ sheets s' = sheets s1 /\ net s' = net s1
    end.
Proof.
  unfold BotConnector.process_bot_trades.
  destruct (lookup bot (registered_bots s)) as [cfg|] eqn:L.
  - destruct (fetch_total s bot) as (trades & F & _).
    destruct (add_trades_total (wallet_name cfg) trades 0 s) as (m & s1 & A & W1 & B1 & N1 & K1).
    cbv [try_except bind]. rewrite F, A.
    unfold BotConnector.update_bot. cbv [ret].
    cbn [registered_bots set_registered_bots wallet_managers sheets net].
    eexists _, _. split; [reflexivity|].
    cbn [registered_bots set_registered_bots wallet_managers sheets net].
    rewrite activate_twice, B1. split; [assumption|]. split; [reflexivity|].
    split; [assumption|]. split; [assumption|].
    exists trades, m, s1. repeat split; auto.
  - exists false, s. split; [reflexivity|]. split; [reflexivity|].
    rewrite (activate_absent _ _ L). tauto.
Qed.

Lemma cycle_eq s bot :
  BotConnector.process_bot_trades w bot s = (Ret (cycle_result w bot s), cycle_state w bot s).
Proof.
  destruct (process_cases s bot) as (b & s' & E & _).
  unfold cycle_result, cycle_state. rewrite E. reflexivity.
Qed.

Lemma update_loop_eq names : forall results s,
  BotConnector.update_loop w names results s =
  (Ret (loop_results w names results s), loop_state w names s).
Proof.
  induction names as [|n names IH]; intros results s;
    cbn [BotConnector.update_loop loop_results loop_state]; [reflexivity|].
  cbv [bind try_except ret]. rewrite cycle_eq. apply IH.
Qed.

Lemma cycle_frame s bot :
  wallet_managers (cycle_state w bot s) = wallet_managers s /\
  registered_bots (cycle_state w bot s) = map (activate w bot) (registered_bots s) /\
  (net s = [] -> net (cycle_state w bot s) = []) /\
  (forall k, lookup k (sheets s) <> None -> lookup k (sheets (cycle_state w bot s)) <> None).
Proof.
  destruct (process_cases s bot) as (b & s' & E & W & B & N & K & _).
  unfold cycle_state. rewrite E. cbn [snd]. tauto.
Qed.

Lemma cycle_down s bot cfg :
  lookup bot (registered_bots s) = Some cfg -> down w cfg ->
  cycle_result w bot s = false /\ sheets (cycle_state w bot s) = sheets s /\
  net (cycle_state w bot s) = net s.
Proof.
  intros L (NE & H).
  destruct (process_cases s bot) as (b & s' & E & _ & _ & _ & _ & C).
  unfold cycle_result, cycle_state. rewrite E. cbn [fst snd].
  rewrite L in C. destruct C as (trades & m & s1 & F & A & -> & -> & ->).
  destruct (fetch_total s bot) as (l & F' & D & _).
  rewrite F in F'. inversion F'; subst l; clear F'.
  specialize (D cfg L NE). rewrite H in D. subst trades.
  cbn [BotConnector.add_trades] in A. inversion A; subst. auto.
Qed.


Lemma cycle_simulated s bot cfg :
  ready s -> lookup bot (registered_bots s) = Some cfg ->
  BotConnector.no_endpoint (api_endpoint cfg) = true ->
  cycle_result w bot s = true.
Proof.
  intros (N & R) L NE.
  destruct (process_cases s bot) as (b & s' & E & _ & _ & _ & _ & C).
  unfold cycle_result. rewrite E. cbn [fst].
  rewrite L in C. destruct C as (trades & m & s1 & F & A & -> & _).
  destruct (fetch_total s bot) as (l & F' & _ & D).
  rewrite F in F'. inversion F'; subst l; clear F'.
  destruct (D cfg L NE) as (td & -> & Sim).
  unfold BotConnector.simulate_bot_trade in Sim. rewrite L in Sim.
  inversion Sim; subst td; clear Sim.
  destruct (R bot cfg L) as (HW & HS).
  destruct (lookup (wallet_name cfg) (sheets s)) as [ws|] eqn:Lw; [|congruence].
  revert A. cbn [BotConnector.add_trades].
  unfold PortfolioManager.add_trade, PortfolioManager.get_wallet_manager.
  cbv [bind ret]. rewrite HW.
  erewrite (add_trade_online w (wallet_name cfg) s ws);
    [ intros [= <- _]; reflexivity | eassumption | eassumption
    | reflexivity
    | reflexivity
    | reflexivity
    | intros T; discriminate T ].
Qed.

Lemma keys_activate bot (d : list (string * bot_config)) :
  map fst (map (activate w bot) d) = map fst d.
Proof.
  rewrite map_map. apply map_ext. intros [k c]. unfold activate. cbn [fst snd].
  destruct (bot =? k); reflexivity.
Qed.

Lemma loop_frame names : forall results s,
  wallet_managers (loop_state w names s) = wallet_managers s /\
  registered_bots (loop_state w names s) = activated w names (registered_bots s) /\
  (ready s -> ready (loop_state w names s)) /\
  (forall n, ~ In n names -> lookup n (loop_results w names results s) = lookup n results).
Proof.
  induction names as [|n0 names IH]; intros results s; cbn [loop_state loop_results activated fold_left].
  - tauto.
  - destruct (cycle_frame s n0) as (W & B & N & K).
    destruct (IH (assign n0 (cycle_result w n0 s) results) (cycle_state w n0 s))
      as (W' & B' & R' & F').
    split; [congruence|]. split; [rewrite B', B; reflexivity|]. split.
    + intros (N0 & R0). apply R'. split; [auto|].
      intros bot cfg. rewrite B, lookup_activate.
      destruct (lookup bot (registered_bots s)) as [c|] eqn:L; [|discriminate].
      cbn [option_map]. intros [= <-].
      destruct (R0 bot c L) as (HW & HS).
      assert (wallet_name (snd (activate w n0 (bot, c))) = wallet_name c) as ->.
      { unfold activate. cbn [fst snd]. destruct (n0 =? bot); reflexivity. }
      split; [|auto].
      unfold PortfolioManager.has_wallet in *. now rewrite W.
    + intros n Hn. cbn [In] in Hn. rewrite F' by tauto.
      apply lookup_assign_other. intros ->. tauto.
Qed.

Lemma loop_keys names : forall results s,
  NoDup (map fst results ++ names) ->
  map fst (loop_results w names results s) = map fst results ++ names.
Proof.
  induction names as [|n0 names IH]; intros results s D; cbn [loop_results].
  - now rewrite app_nil_r.
  - assert (~ In n0 (map fst results)) as Hn.
    { apply NoDup_remove_2 in D. intros H. apply D. apply in_or_app. tauto. }
    rewrite IH; rewrite (keys_assign_new _ _ _ Hn), <- app_assoc; [reflexivity|exact D].
Qed.

Lemma status_activate bot n c :
  status (snd (activate w bot (n, c))) = if bot =? n then "active" else status c.
Proof. unfold activate. cbn [fst snd]. destruct (bot =? n); reflexivity. Qed.

Lemma endpoint_activate bot n c :
  api_endpoint (snd (activate w bot (n, c))) = api_endpoint c.
Proof. unfold activate. cbn [fst snd]. destruct (bot =? n); reflexivity. Qed.

Lemma activated_active names : forall (d : list (string * bot_config)) n,
  lookup n d <> None ->
  (In n names \/ option_map status (lookup n d) = Some "active") ->
  option_map status (lookup n (activated w names d)) = Some "active".
Proof.
  induction names as [|n0 names IH]; intros d n L H; cbn [activated fold_left].
  - destruct H as [[]|H]; exact H.
  - apply IH.
    + rewrite lookup_activate. destruct (lookup n d); cbn [option_map]; congruence.
    + rewrite lookup_activate. destruct (lookup n d) as [c|]; [|congruence].
      cbn [option_map] in *. rewrite status_activate.
      destruct (n0 =? n) eqn:E; [tauto|].
      destruct H as [[->|H]|H]; [|tauto|tauto].
      now rewrite String.eqb_refl in E.
Qed.

Lemma loop_down names : forall results s n cfg,
  In n names -> lookup n (registered_bots s) = Some cfg -> down w cfg ->
  lookup n (loop_results w names results s) = Some false.
Proof.
  induction names as [|n0 names IH]; intros results s n cfg I L D; [destruct I|].
  cbn [loop_results].
  destruct (cycle_frame s n0) as (_ & B & _ & _).
  assert (exists cfg', lookup n (registered_bots (cycle_state w n0 s)) = Some cfg' /\ down w cfg')
    as (cfg' & L' & D').
  { rewrite B, lookup_activate, L. cbn [option_map]. eexists. split; [reflexivity|].
    unfold down in *. now rewrite endpoint_activate. }
  destruct (in_dec string_dec n names) as [I'|I'].
  - eapply IH; eauto.
  - destruct I as [->|I]; [|contradiction].
    destruct (loop_frame names (assign n (cycle_result w n s) results) (cycle_state w n s))
      as (_ & _ & _ & F).
    rewrite (F n I'), (proj1 (cycle_down s n cfg L D)). apply lookup_assign_same.
Qed.

Lemma loop_simulated names : forall results s n cfg,
  ready s -> In n names -> lookup n (registered_bots s) = Some cfg ->
  BotConnector.no_endpoint (api_endpoint cfg) = true ->
  lookup n (loop_results w names results s) = Some true.
Proof.
  induction names as [|n0 names IH]; intros results s n cfg R I L NE; [destruct I|].
  cbn [loop_results].
  destruct (cycle_frame s n0) as (_ & B & _ & _).
  assert (R' : ready (cycle_state w n0 s)).
  { destruct (loop_frame [n0] [] s) as (_ & _ & R' & _). exact (R' R). }
  assert (exists cfg', lookup n (registered_bots (cycle_state w n0 s)) = Some cfg' /\
                       BotConnector.no_endpoint (api_endpoint cfg') = true)
    as (cfg' & L' & NE').
  { rewrite B, lookup_activate, L. cbn [option_map]. eexists. split; [reflexivity|].
    now rewrite endpoint_activate. }
  destruct (in_dec string_dec n names) as [I'|I'].
  - eapply IH; eauto.
  - destruct I as [->|I]; [|contradiction].
    destruct (loop_frame names (assign n (cycle_result w n s) results) (cycle_state w n s))
      as (_ & _ & _ & F).
    rewrite (F n I'), (cycle_simulated s n cfg R L NE). apply lookup_assign_same.
Qed.
End Bots.

Lemma keys_activated w names : forall d : list (string * bot_config),
  map fst (activated w names d) = map fst d.
Proof.
  induction names as [|n names IH]; intros d; cbn [activated fold_left]; auto.
  fold (activated w names (map (activate w n) d)). now rewrite IH, keys_activate.
Qed.

(** ** The portfolio summary *)

Section Summary.
Variable w : world.

End Summary.


(** * The claims *)

(** The wallet W of the samples is a ledger, the purchase being its one
    stored trade ... *)
Lemma sample_ledger :
  ledger Sample.w0 "W" (Some (Sample.order "BUY" 1 1000))
    (WalletManager.summary_headers "W"
     ++ [row_written Sample.w0 (Sample.order "BUY" 1 1000) 1 1000 "BUY" 6]).
Proof.
  eapply (ledger_appended Sample.w0 "W" None (WalletManager.summary_headers "W") _
            Sample.one_wallet Sample.bought).
  - eapply (ledger_created Sample.w0 "W"
              {| sheets := [("W", [])]; net := []; wallet_managers := [];
                 registered_bots := [] |}).
    + reflexivity.
    + vm_compute. reflexivity.
    + reflexivity.
  - reflexivity.
  - vm_compute. reflexivity.
  - reflexivity.
Defined.

(** ... and after the sale that follows, the sale. *)
Lemma sample_ledger_sold :
  ledger Sample.w0 "W" (Some (Sample.order "SELL" 1 1200))
    (WalletManager.summary_headers "W"
     ++ [row_written Sample.w0 (Sample.order "SELL" 1 1200) 1 1200 "SELL" 6]).
Proof.
  eapply (ledger_appended Sample.w0 "W" _ _ _ Sample.bought Sample.bought_sold).
  - exact sample_ledger.
  - reflexivity.
  - vm_compute. reflexivity.
  - reflexivity.
Defined.

(** ** Running balance, cost basis and history of a ledger *)

(** C1, where the code departs from it.  Whatever a wallet ledger holds,
    a trade that [add_trade] stores (the API answers, the action converts,
    quantity and price convert to finite floats, the total value is
    finite) goes to row 6: afterwards
    the worksheet is the header block followed by the row of this trade
    alone, so a trade stored before is written over.  The cell of the
    running balance holds the string of the formula of a first row, which
    refers to row 6 only; no balance is carried over from an earlier trade,
    and read back through [get_trade_history] the ledger has no entry. *)
Theorem C1_trade_is_written_over_row_6 (w : world) (name : string)
    (last : option trade_data) (ws : worksheet) (s : state) (td : trade_data)
    (quantity price : Q) (action : string) :
  ledger w name last ws ->
  lookup name (sheets s) = Some ws ->
  net s = [] ->
  WalletManager.float w (get (td_quantity td) (PyInt 0)) = Ret (Finite quantity) ->
  WalletManager.float w (get (td_price td) (PyInt 0)) = Ret (Finite price) ->
  WalletManager.str_upper w (get (td_action td) (PyStr "")) = Ret action ->
  finite_total td quantity price ->
  exists s' ws',
    WalletManager.add_trade w name td s = (Ret true, s') /\
    lookup name (sheets s') = Some ws' /\
    ws' = WalletManager.summary_headers name ++ [row_written w td quantity price action 6] /\
    cell_at ws' colG 6 = Text (WalletManager._calculate_running_balance_formula 6) /\
    (forall r, (6 < r)%nat -> cell_at ws' colG r = Blank) /\
    fst (WalletManager.get_trade_history w name None s') = Ret [].
Proof.
  intros Hl L N Fq Fp Fa FT.
  pose proof (ledger_shaped w name last ws Hl) as Sh.
  rewrite (add_trade_online w name s ws td quantity price action L N Fq Fp Fa FT).
  rewrite (next_row_shaped w name _ _ Sh). cbn [Nat.sub].
  rewrite (set_row_shaped w name _ _ _ Sh) by reflexivity.
  eexists _, _. split; [reflexivity|]. cbn [sheets set_sheets].
  split; [apply lookup_assign_same|]. split; [reflexivity|].
  split; [reflexivity|]. split.
  - intros r Hr. do 7 (destruct r as [|r]; [lia|]).
    cbn [cell_at app WalletManager.summary_headers nth]. now destruct r.
  - rewrite history_eq. cbn [fst sheets set_sheets]. rewrite lookup_assign_same.
    rewrite (shaped_history w name (Some td)); [now destruct (answers _ 0)|].
    cbn [shaped]. eauto 10.
Qed.

Lemma C1_witness :
  exists s' ws',
    WalletManager.add_trade Sample.w0 "W" (Sample.order "SELL" 1 1200) Sample.bought
      = (Ret true, s') /\
    lookup "W" (sheets s') = Some ws' /\
    ws' = WalletManager.summary_headers "W"
          ++ [row_written Sample.w0 (Sample.order "SELL" 1 1200) 1 1200 "SELL" 6] /\
    cell_at ws' colG 6 = Text (WalletManager._calculate_running_balance_formula 6) /\
    (forall r, (6 < r)%nat -> cell_at ws' colG r = Blank) /\
    fst (WalletManager.get_trade_history Sample.w0 "W" None s') = Ret [].
Proof.
  apply (C1_trade_is_written_over_row_6 Sample.w0 "W" (Some (Sample.order "BUY" 1 1000))
           _ Sample.bought (Sample.order "SELL" 1 1200) 1 1200 "SELL" sample_ledger).
  - reflexivity.
  - reflexivity.
  - vm_compute. reflexivity.
  - vm_compute. reflexivity.
  - reflexivity.
  - intros _. vm_compute. reflexivity.
Defined.

(** C3, where the code departs from it.  In every wallet ledger that
    holds a trade, cell B2 holds the string of the formula that is meant to
    add up the purchases, and read through [_get_cell_value] it gives 0:
    whatever the fate of the API calls, [get_wallet_performance] reports
    the initial investment 0, also when row 6 holds a purchase with its
    total value in column F. *)
Theorem C3_cost_basis_reads_zero (w : world) (name : string) (td : trade_data)
    (ws : worksheet) (s : state) :
  ledger w name (Some td) ws ->
  lookup name (sheets s) = Some ws ->
  cell_at ws colB 2 = Text WalletManager.initial_investment_formula /\
  cell_at ws colB 6 = text (action_of w td) /\
  cell_at ws colF 6 = Number (total_of w td) /\
  cost_basis w ws = Finite 0 /\
  exists p s',
    WalletManager.get_wallet_performance w name s = (Ret p, s') /\
    p_initial_investment p = Finite 0.
Proof.
  intros Hl L. pose proof (ledger_shaped w name _ ws Hl) as Sh.
  rewrite (ledger_performance w name _ ws s Hl L).
  cbn [shaped] in Sh. destruct Sh as (quantity & price & action & Fq & Fp & Fa & _ & ->).
  unfold action_of, total_of, quantity_of, price_of. rewrite Fq, Fp, Fa.
  split; [reflexivity|]. split; [reflexivity|]. split; [reflexivity|].
  split; [reflexivity|]. eexists _, _. split; reflexivity.
Qed.

Lemma C3_witness :
  cell_at (WalletManager.summary_headers "W"
           ++ [row_written Sample.w0 (Sample.order "BUY" 1 1000) 1 1000 "BUY" 6]) colB 2
    = Text WalletManager.initial_investment_formula /\
  cell_at (WalletManager.summary_headers "W"
           ++ [row_written Sample.w0 (Sample.order "BUY" 1 1000) 1 1000 "BUY" 6]) colB 6
    = text (action_of Sample.w0 (Sample.order "BUY" 1 1000)) /\
  cell_at (WalletManager.summary_headers "W"
           ++ [row_written Sample.w0 (Sample.order "BUY" 1 1000) 1 1000 "BUY" 6]) colF 6
    = Number (total_of Sample.w0 (Sample.order "BUY" 1 1000)) /\
  cost_basis Sample.w0
    (WalletManager.summary_headers "W"
     ++ [row_written Sample.w0 (Sample.order "BUY" 1 1000) 1 1000 "BUY" 6]) = Finite 0 /\
  exists p s',
    WalletManager.get_wallet_performance Sample.w0 "W" Sample.bought = (Ret p, s') /\
    p_initial_investment p = Finite 0.
Proof.
  apply (C3_cost_basis_reads_zero Sample.w0 "W" (Sample.order "BUY" 1 1000) _ Sample.bought
           sample_ledger).
  reflexivity.
Defined.

(** C8, where the code departs from it.  For every wallet ledger, every
    limit and whatever the fate of the API call, [get_trade_history]
    returns the empty list: the worksheet has at most the one trade row 6,
    and that row is skipped because its running balance is the string of a
    formula, on which [float] raises [ValueError].  No trade that was
    appended comes back. *)
Theorem C8_history_of_a_ledger_is_empty (w : world) (name : string)
    (last : option trade_data) (ws : worksheet) (s : state) (limit : option Z) :
  ledger w name last ws ->
  lookup name (sheets s) = Some ws ->
  (length ws <= 6)%nat /\
  (forall td, last = Some td ->
     exists t, WalletManager.float_or_0 w (cell_value ws colG 6) = Raise ValueError /\
               cell_at ws colG 6 = Text (String "=" t)) /\
  exists s',
    WalletManager.get_trade_history w name limit s = (Ret [], s') /\ same_data s s'.
Proof.
  intros Hl L. pose proof (ledger_shaped w name _ ws Hl) as Sh.
  rewrite (ledger_history w name last ws s limit Hl L).
  split; [|split].
  - destruct last as [td|]; cbn [shaped] in Sh.
    + destruct Sh as (quantity & price & action & _ & _ & _ & _ & ->). cbn. lia.
    + subst ws. cbn. lia.
  - intros td ->. cbn [shaped] in Sh.
    destruct Sh as (quantity & price & action & _ & _ & _ & _ & ->).
    eexists. split; reflexivity.
  - eexists. split; [reflexivity|auto with ledger].
Qed.

Lemma C8_witness :
  (length (WalletManager.summary_headers "W"
           ++ [row_written Sample.w0 (Sample.order "SELL" 1 1200) 1 1200 "SELL" 6]) <= 6)%nat /\
  (forall td, Some (Sample.order "SELL" 1 1200) = Some td ->
     exists t,
       WalletManager.float_or_0 Sample.w0
         (cell_value (WalletManager.summary_headers "W"
                      ++ [row_written Sample.w0 (Sample.order "SELL" 1 1200) 1 1200 "SELL" 6])
            colG 6) = Raise ValueError /\
       cell_at (WalletManager.summary_headers "W"
                ++ [row_written Sample.w0 (Sample.order "SELL" 1 1200) 1 1200 "SELL" 6])
         colG 6 = Text (String "=" t)) /\
  exists s',
    WalletManager.get_trade_history Sample.w0 "W" None Sample.bought_sold = (Ret [], s') /\
    same_data Sample.bought_sold s'.
Proof.
  apply (C8_history_of_a_ledger_is_empty Sample.w0 "W" (Some (Sample.order "SELL" 1 1200))
           _ Sample.bought_sold None sample_ledger_sold).
  reflexivity.
Defined.

(** ** Current value and the empty ledger *)

(** C4, where the code departs from it.  For every wallet ledger, empty or
    not, and whatever the fate of the API calls, [get_wallet_performance]
    reports initial investment, current value, total return, return
    percentage and APY all 0: for the empty ledger this is what the claim
    says; for a ledger that holds a trade the current value is 0 as well,
    because cell D2 holds the string of its formula and cell G6 the string
    of the running-balance formula, neither of which is a number. *)
Theorem C4_current_value_reads_zero (w : world) (name : string)
    (last : option trade_data) (ws : worksheet) (s : state) :
  ledger w name last ws ->
  lookup name (sheets s) = Some ws ->
  cell_at ws colD 2 = Text WalletManager.current_value_formula /\
  current_value w ws = Finite 0 /\
  (exists s', WalletManager.get_wallet_performance w name s = (Ret (zero_performance name), s')) /\
  (forall td, last = Some td ->
     cell_at ws colF 6 = Number (total_of w td) /\
     cell_at ws colG 6 = Text (WalletManager._calculate_running_balance_formula 6) /\
     number_shown w (Finite 0) (cell_value ws colG 6) = Finite 0).
Proof.
  intros Hl L. pose proof (ledger_shaped w name _ ws Hl) as Sh.
  rewrite (ledger_performance w name _ ws s Hl L).
  destruct last as [td|]; cbn [shaped] in Sh.
  - destruct Sh as (quantity & price & action & Fq & Fp & Fa & _ & ->).
    split; [reflexivity|]. split; [reflexivity|]. split; [eauto|].
    intros td' [= <-]. unfold total_of, quantity_of, price_of. rewrite Fq, Fp.
    repeat split.
  - subst ws. split; [reflexivity|]. split; [reflexivity|]. split; [eauto|].
    intros td' [=].
Qed.

Lemma C4_witness :
  cell_at (WalletManager.summary_headers "W"
           ++ [row_written Sample.w0 (Sample.order "BUY" 1 1000) 1 1000 "BUY" 6]) colD 2
    = Text WalletManager.current_value_formula /\
  current_value Sample.w0
    (WalletManager.summary_headers "W"
     ++ [row_written Sample.w0 (Sample.order "BUY" 1 1000) 1 1000 "BUY" 6]) = Finite 0 /\
  (exists s', WalletManager.get_wallet_performance Sample.w0 "W" Sample.bought
              = (Ret (zero_performance "W"), s')) /\
  (forall td, Some (Sample.order "BUY" 1 1000) = Some td ->
     cell_at (WalletManager.summary_headers "W"
              ++ [row_written Sample.w0 (Sample.order "BUY" 1 1000) 1 1000 "BUY" 6]) colF 6
       = Number (total_of Sample.w0 td) /\
     cell_at (WalletManager.summary_headers "W"
              ++ [row_written Sample.w0 (Sample.order "BUY" 1 1000) 1 1000 "BUY" 6]) colG 6
       = Text (WalletManager._calculate_running_balance_formula 6) /\
     number_shown Sample.w0 (Finite 0)
       (cell_value (WalletManager.summary_headers "W"
                    ++ [row_written Sample.w0 (Sample.order "BUY" 1 1000) 1 1000 "BUY" 6])
          colG 6) = Finite 0).
Proof.
  apply (C4_current_value_reads_zero Sample.w0 "W" (Some (Sample.order "BUY" 1 1000))
           _ Sample.bought sample_ledger).
  reflexivity.
Defined.

(** ** The guard against a zero cost basis *)



(** ** The portfolio summary *)


(** ** Ingesting the trades of all bots *)

(** C2, as stated, fails.  Three bots are registered; the endpoint of the
    second one is down, the other two simulate a trade each.  The results
    are true, false, true, and the first and the third bot become active, as
    claimed; but the second bot does not get the status error: its failed
    fetch counts as an empty batch and it becomes active like the others. *)
Lemma C2_counterexample :
  fst (BotConnector.update_all_bots Sample.w0 Scenario.three_bots) =
    Ret [("bot1", true); ("bot2", false); ("bot3", true)] /\
  bot_status "bot1" Scenario.after_update = Some "active" /\
  bot_status "bot3" Scenario.after_update = Some "active" /\
  bot_status "bot2" Scenario.after_update = Some "active" /\
  bot_status "bot2" Scenario.after_update <> Some "error".
Proof.
  split; [vm_compute; reflexivity|].
  split; [vm_compute; reflexivity|].
  split; [vm_compute; reflexivity|].
  split; [vm_compute; reflexivity|].
  vm_compute. discriminate.
Qed.

(** C2, amended.  In a state whose bots have distinct names,
    [update_all_bots] returns (it does not raise) one boolean per registered
    bot, in registration order; every bot remains registered and has the
    status active afterwards, whether its fetch succeeded, brought nothing
    or failed; the boolean of a bot whose endpoint is down is false; and
    when the Sheets API answers and every bot's wallet exists, the boolean
    of a bot without endpoint, which simulates one trade, is true. *)
Theorem C2_update_all_bots (w : world) (s : state) :
  NoDup (map fst (registered_bots s)) ->
  exists results s',
    BotConnector.update_all_bots w s = (Ret results, s') /\
    map fst results = map fst (registered_bots s) /\
    map fst (registered_bots s') = map fst (registered_bots s) /\
    (forall bot, In bot (map fst (registered_bots s)) -> bot_status bot s' = Some "active") /\
    (forall bot cfg, lookup bot (registered_bots s) = Some cfg ->
       down w cfg -> lookup bot results = Some false) /\
    (ready s ->
     forall bot cfg, lookup bot (registered_bots s) = Some cfg ->
       BotConnector.no_endpoint (api_endpoint cfg) = true -> lookup bot results = Some true).
Proof.
  intros D. unfold BotConnector.update_all_bots. rewrite update_loop_eq.
  set (names := map fst (registered_bots s)) in *.
  destruct (loop_frame w names [] s) as (_ & B & _ & _).
  eexists _, _. split; [reflexivity|].
  split; [apply (loop_keys w names [] s D)|].
  split; [rewrite B; apply keys_activated|].
  split; [|split].
  - intros bot I. unfold bot_status. rewrite B.
    apply activated_active; [now apply in_lookup|now left].
  - intros bot cfg L Dn. eapply loop_down; eauto. eapply lookup_in; eauto.
  - intros R bot cfg L NE. eapply loop_simulated; eauto. eapply lookup_in; eauto.
Qed.

Lemma C2_witness :
  NoDup (map fst (registered_bots Scenario.three_bots)) /\
  exists results s',
    BotConnector.update_all_bots Sample.w0 Scenario.three_bots = (Ret results, s') /\
    map fst results = map fst (registered_bots Scenario.three_bots) /\
    map fst (registered_bots s') = map fst (registered_bots Scenario.three_bots) /\
    (forall bot, In bot (map fst (registered_bots Scenario.three_bots)) ->
       bot_status bot s' = Some "active") /\
    (forall bot cfg, lookup bot (registered_bots Scenario.three_bots) = Some cfg ->
       down Sample.w0 cfg -> lookup bot results = Some false) /\
    (ready Scenario.three_bots ->
     forall bot cfg, lookup bot (registered_bots Scenario.three_bots) = Some cfg ->
       BotConnector.no_endpoint (api_endpoint cfg) = true -> lookup bot results = Some true).
Proof.
  assert (D : NoDup (map fst (registered_bots Scenario.three_bots))).
  { vm_compute. repeat constructor; cbn [In]; intuition discriminate. }
  split; [exact D|].
  apply (C2_update_all_bots Sample.w0 Scenario.three_bots D).
Defined.

(** The three bots of the scenario have wallets with worksheets, and the
    Sheets API answers. *)
Lemma three_bots_ready : ready Scenario.three_bots.
Proof.
  split; [vm_compute; reflexivity|]. intros bot cfg.
  assert (registered_bots Scenario.three_bots =
    [("bot1", {| wallet_name := "W1"; api_endpoint := None; api_key := None;
                 last_update := None; status := "registered" |});
     ("bot2", {| wallet_name := "W2"; api_endpoint := Some "http://bot2/trades";
                 api_key := None; last_update := None; status := "registered" |});
     ("bot3", {| wallet_name := "W3"; api_endpoint := None; api_key := None;
                 last_update := None; status := "registered" |})]) as ->
    by (vm_compute; reflexivity).
  cbn [lookup].
  destruct (bot =? "bot1");
    [intros [= <-]; split; [vm_compute; reflexivity|vm_compute; discriminate]|].
  destruct (bot =? "bot2");
    [intros [= <-]; split; [vm_compute; reflexivity|vm_compute; discriminate]|].
  destruct (bot =? "bot3");
    [intros [= <-]; split; [vm_compute; reflexivity|vm_compute; discriminate]|].
  discriminate.
Qed.

(** ** Records that are no trades *)




(** ** Quantities that are not positive *)





(** ** Totality of the wallet operations *)

(** C10, as stated, fails.  The worksheet of wallet W shows numbers in its
    summary row: 1000, 1200, 200 and 20.  The read of the initial
    investment goes through, the read of the current value fails, the other
    two go through.  The record is not all zeros: the initial investment is
    1000, the current value 0, the total return 200, the APY 20 and the
    return percentage -100. *)
Lemma C10_counterexample :
  net Scenario.evaluated_flaky = [true; false] /\
  cell_at Scenario.evaluated_sheet colB 2 = Number 1000 /\
  cell_at Scenario.evaluated_sheet colD 2 = Number 1200 /\
  exists p,
    fst (WalletManager.get_wallet_performance Sample.w0 "W" Scenario.evaluated_flaky) = Ret p /\
    is_number (p_initial_investment p) 1000 /\
    is_number (p_current_value p) 0 /\
    is_number (p_total_return p) 200 /\
    is_number (p_apy p) 20 /\
    is_number (p_total_return_pct p) (- (100)) /\
    p <> zero_performance "W".
Proof.
  split; [reflexivity|]. split; [reflexivity|]. split; [reflexivity|].
  eexists. split; [vm_compute; reflexivity|].
  cbn [p_initial_investment p_current_value p_total_return p_apy p_total_return_pct].
  repeat (split; [eexists; split; reflexivity|]). discriminate.
Qed.

(** C10, amended.  None of the three operations raises, in any state and
    for any trade dictionary and limit.  [add_trade] returns a boolean,
    which is [False] after any internal failure.  [get_wallet_performance]
    returns a record with the wallet name and changes nothing.  Initial
    investment, current value, total return and APY are retrieved one by
    one, by the first, the second, the third and the fourth API call: each
    is 0 when its own call fails or the worksheet is gone, and otherwise
    the number its cell shows, which is 0 for an empty cell and for a
    string that is no number; the return percentage is computed from the
    first two.  When all four calls fail the record is all zeros.
    [get_trade_history] returns a list and changes nothing. *)
Theorem C10_wallet_operations_do_not_raise (w : world) (name : string)
    (td : trade_data) (limit : option Z) (s : state) :
  (exists b s',
     WalletManager.add_trade w name td s = (Ret b, s') /\
     (internal_failure w name td s -> b = false)) /\
  (exists p s',
     WalletManager.get_wallet_performance w name s = (Ret p, s') /\
     same_data s s' /\
     p_name p = name /\
     p_initial_investment p = retrieved w name s 0 colB 2 (Finite 0) /\
     p_current_value p = retrieved w name s 1 colD 2 (Finite 0) /\
     p_total_return p = retrieved w name s 2 colF 2 (Finite 0) /\
     p_apy p = retrieved w name s 3 colH 2 (Finite 0) /\
     p_total_return_pct p = pct_of (p_initial_investment p) (p_current_value p) /\
     (answers s 0 = false -> answers s 1 = false ->
      answers s 2 = false -> answers s 3 = false -> p = zero_performance name)) /\
  (exists l s',
     WalletManager.get_trade_history w name limit s = (Ret l, s') /\ same_data s s').
Proof.
  split; [|split].
  - destruct (add_trade_total w name s td) as (b & s' & E & _).
    exists b, s'. split; [exact E|]. intros F.
    destruct (add_trade_fails w name s td F) as (s2 & E2). congruence.
  - rewrite performance_eq. eexists _, _. split; [reflexivity|].
    split; [apply same_data_four_calls|].
    cbn [p_name p_initial_investment p_current_value p_total_return p_apy
         p_total_return_pct].
    repeat (split; [reflexivity|]).
    intros A0 A1 A2 A3. unfold retrieved. rewrite A0, A1, A2, A3. reflexivity.
  - apply history_total.
Qed.
(** * Further properties *)

(** ** What a method can touch *)

Section Confined.
Variable name : string.

Lemma confined_ret {A : Type} (a : A) : confined name (ret a).
Proof. intros s r s' [= <- <-]. tauto. Qed.

Lemma confined_raise {A : Type} (e : exn) : confined name (@raise A e).
Proof. intros s r s' [= <- <-]. tauto. Qed.

Lemma confined_lift {A : Type} (o : outcome A) : confined name (lift o).
Proof. intros s r s' [= <- <-]. tauto. Qed.

Lemma confined_bind {A B : Type} (m : M A) (k : A -> M B) :
  confined name m -> (forall a, confined name (k a)) -> confined name (bind m k).
Proof.
  intros Hm Hk s r s'. unfold bind. destruct (m s) as [[a|e] s1] eqn:E.
  - intros E2. destruct (Hm _ _ _ E) as (W1 & B1 & O1 & G1).
    destruct (Hk a _ _ _ E2) as (W2 & B2 & O2 & G2).
    split; [congruence|]. split; [congruence|]. split.
    + intros k0 N. rewrite O2, O1; auto.
    + auto.
  - intros [= <- <-]. exact (Hm _ _ _ E).
Qed.

Lemma confined_try {A : Type} (m : M A) (h : exn -> M A) :
  confined name m -> (forall e, confined name (h e)) -> confined name (try_except m h).
Proof.
  intros Hm Hh s r s'. unfold try_except. destruct (m s) as [[a|e] s1] eqn:E.
  - intros [= <- <-]. exact (Hm _ _ _ E).
  - intros E2. destruct (Hm _ _ _ E) as (W1 & B1 & O1 & G1).
    destruct (Hh e _ _ _ E2) as (W2 & B2 & O2 & G2).
    split; [congruence|]. split; [congruence|]. split.
    + intros k0 N. rewrite O2, O1; auto.
    + auto.
Qed.

Lemma confined_api_call : confined name Worksheet.api_call.
Proof.
  intros s r s'. unfold Worksheet.api_call.
  destruct (net s) as [|[|] n]; intros [= <- <-]; cbn; tauto.
Qed.

Lemma confined_the_sheet : confined name (Worksheet.the_sheet name).
Proof.
  intros s r s' H. unfold Worksheet.the_sheet in H.
  assert (s' = s) as -> by (destruct (lookup name (sheets s)); congruence).
  tauto.
Qed.

Lemma confined_put_sheet ws : confined name (Worksheet.put_sheet name ws).
Proof.
  intros s r s' [= <- <-]. cbn. split; [reflexivity|]. split; [reflexivity|]. split.
  - intros k N. apply lookup_assign_other. exact N.
  - intros _. rewrite lookup_assign_same. discriminate.
Qed.

Lemma confined_store r cells : confined name (Worksheet.store name r cells).
Proof.
  unfold Worksheet.store.
  apply confined_bind; [apply confined_api_call|]. intros _.
  apply confined_bind; [apply confined_the_sheet|]. intros ws.
  apply confined_put_sheet.
Qed.

Lemma confined_update r values : confined name (Worksheet.update name r values).
Proof.
  unfold Worksheet.update.
  destruct (serialise values); [apply confined_store|apply confined_raise].
Qed.

Lemma confined_clear : confined name (Worksheet.clear name).
Proof.
  unfold Worksheet.clear.
  apply confined_bind; [apply confined_api_call|]. intros _.
  apply confined_bind; [apply confined_the_sheet|]. intros ws.
  apply confined_put_sheet.
Qed.

Lemma confined_format : confined name (Worksheet.format name).
Proof.
  unfold Worksheet.format.
  apply confined_bind; [apply confined_api_call|]. intros _.
  apply confined_bind; [apply confined_the_sheet|]. intros ws.
  apply confined_ret.
Qed.

Lemma confined_acell c r : confined name (Worksheet.acell name c r).
Proof.
  unfold Worksheet.acell.
  apply confined_bind; [apply confined_api_call|]. intros _.
  apply confined_bind; [apply confined_the_sheet|]. intros ws.
  apply confined_ret.
Qed.

Lemma confined_get_all_values : confined name (Worksheet.get_all_values name).
Proof.
  unfold Worksheet.get_all_values.
  apply confined_bind; [apply confined_api_call|]. intros _.
  apply confined_bind; [apply confined_the_sheet|]. intros ws.
  apply confined_ret.
Qed.

Lemma confined_update_range r cells :
  confined name (SheetsConnector.update_range name r cells).
Proof.
  unfold SheetsConnector.update_range.
  apply confined_try.
  - apply confined_bind; [apply confined_update|]. intros _. apply confined_ret.
  - intros _. apply confined_ret.
Qed.

Lemma confined_get_or_create :
  confined name (SheetsConnector.get_or_create_worksheet name).
Proof.
  unfold SheetsConnector.get_or_create_worksheet.
  apply confined_bind; [apply confined_api_call|]. intros _.
  intros s r s'. destruct (lookup name (sheets s)) eqn:L.
  - intros [= <- <-]. intuition congruence.
  - intros H.
    assert (C : confined name (Worksheet.api_call ;; Worksheet.put_sheet name [] ;; ret name)).
    { apply confined_bind; [apply confined_api_call|]. intros _.
      apply confined_bind; [apply confined_put_sheet|]. intros _. apply confined_ret. }
    destruct (C _ _ _ H) as (C1 & C2 & C3 & _). intuition congruence.
Qed.
End Confined.

(** Confinement of a method that is built from the calls above. *)
Ltac confine :=
  repeat first
    [ apply confined_ret | apply confined_raise | apply confined_lift
    | apply confined_api_call | apply confined_the_sheet | apply confined_put_sheet
    | apply confined_update | apply confined_clear | apply confined_format
    | apply confined_acell | apply confined_get_all_values
    | apply confined_update_range | apply confined_get_or_create
    | apply confined_bind; [|intros ?]
    | apply confined_try; [|intros ?]
    | match goal with
      | |- confined _ (match ?x with _ => _ end) => destruct x
      | |- confined _ (if ?x then _ else _) => destruct x
      end ].

Section WalletConfined.
Variable w : world.
Variable name : string.

Lemma confined_write_headers rows : forall i,
  confined name (WalletManager.write_headers name i rows).
Proof.
  induction rows as [|row rows IH]; intros i; cbn [WalletManager.write_headers].
  - confine.
  - apply confined_bind; [confine|]. intros _. apply IH.
Qed.

Lemma confined_create : confined name (WalletManager._create_sheet_structure name).
Proof.
  unfold WalletManager._create_sheet_structure, WalletManager._format_wallet_sheet.
  apply confined_bind; [confine|]. intros _.
  apply confined_bind; [apply confined_write_headers|]. intros _. confine.
Qed.

Lemma confined_init : confined name (WalletManager.__init__ name).
Proof.
  unfold WalletManager.__init__, WalletManager._setup_wallet_sheet.
  apply confined_bind; [confine|]. intros _.
  apply confined_bind; [confine|]. intros [|]; [confine|apply confined_create].
Qed.

Lemma confined_add_trade td : confined name (WalletManager.add_trade w name td).
Proof. unfold WalletManager.add_trade. cbv zeta. confine. Qed.

Lemma confined_get_cell_value c r d :
  confined name (WalletManager._get_cell_value w name c r d).
Proof. unfold WalletManager._get_cell_value. confine. Qed.

Lemma confined_performance : confined name (WalletManager.get_wallet_performance w name).
Proof.
  unfold WalletManager.get_wallet_performance.
  apply confined_try; [|intros ?; confine].
  do 4 (apply confined_bind; [apply confined_get_cell_value|]; intros ?).
  confine.
Qed.

Lemma confined_history limit :
  confined name (WalletManager.get_trade_history w name limit).
Proof. unfold WalletManager.get_trade_history. cbv zeta. confine. Qed.

(** X1.  The methods of a wallet manager are confined to the worksheet of
    their wallet: whatever the state and whatever the fate of the API calls,
    the constructor, [add_trade], [get_wallet_performance] and
    [get_trade_history] leave every other worksheet, the dictionary of
    wallet managers and the registered bots as they are, and none of them
    deletes the worksheet of the wallet. *)
Theorem X1_wallet_methods_are_confined :
  confined name (WalletManager.__init__ name) /\
  (forall td, confined name (WalletManager.add_trade w name td)) /\
  confined name (WalletManager.get_wallet_performance w name) /\
  (forall limit, confined name (WalletManager.get_trade_history w name limit)).
Proof.
  split; [apply confined_init|]. split; [apply confined_add_trade|].
  split; [apply confined_performance|apply confined_history].
Qed.
End WalletConfined.

(** ** The wallets of a portfolio *)

Lemma bind_inv {A B : Type} (m : M A) (k : A -> M B) s b s' :
  bind m k s = (Ret b, s') -> exists a s1, m s = (Ret a, s1) /\ k a s1 = (Ret b, s').
Proof.
  unfold bind. destruct (m s) as [[a|e] s1]; [eauto|discriminate].
Qed.

Lemma get_or_create_exists name s t s' :
  SheetsConnector.get_or_create_worksheet name s = (Ret t, s') ->
  lookup name (sheets s') <> None.
Proof.
  unfold SheetsConnector.get_or_create_worksheet. run.
  destruct (net s) as [|[|] n] eqn:N; run; try discriminate;
    (destruct (lookup name (sheets s)) eqn:L;
     [intros [= <- <-]; cbn [sheets set_net]; congruence|]);
    run; rewrite ?N.
  - intros [= <- <-]. run. rewrite lookup_assign_same. discriminate.
  - destruct n as [|[|] n']; run; try discriminate;
      intros [= <- <-]; run; rewrite lookup_assign_same; discriminate.
Qed.

Lemma get_or_create_title title s t s' :
  SheetsConnector.get_or_create_worksheet title s = (Ret t, s') -> t = title.
Proof.
  unfold SheetsConnector.get_or_create_worksheet. run.
  destruct (net s) as [|[|] n] eqn:N; run; try discriminate;
    (destruct (lookup title (sheets s)); [congruence|]); run; rewrite ?N.
  - congruence.
  - destruct n as [|[|] n']; run; congruence.
Qed.

Lemma contains_summary (title : string) :
  contains "WALLET SUMMARY" (String.append title " - WALLET SUMMARY") = true.
Proof.
  unfold contains. induction title as [|c title IH]; [reflexivity|].
  cbn [String.append String.index].
  destruct (String.prefix "WALLET SUMMARY"
              (String c (String.append title " - WALLET SUMMARY")));
    [reflexivity|].
  destruct (String.index 0 "WALLET SUMMARY" (String.append title " - WALLET SUMMARY"));
    [reflexivity|discriminate].
Qed.

Section Portfolio.
Variable w : world.

Lemma init_exists name s s' :
  WalletManager.__init__ name s = (Ret tt, s') -> lookup name (sheets s') <> None.
Proof.
  unfold WalletManager.__init__, WalletManager._setup_wallet_sheet. intros H.
  apply bind_inv in H. destruct H as (t & s1 & G & H).
  apply get_or_create_exists in G.
  assert (C : confined name
            (configured <-
               try_except
                 (cell_value <- Worksheet.acell name colA 1 ;;
                  ret (match cell_value with
                       | VText s => contains "WALLET SUMMARY" s
                       | _ => false
                       end))
                 (fun _ => ret false) ;;
             if configured : bool then ret tt
             else WalletManager._create_sheet_structure name)).
  { apply confined_bind; [confine|]. intros [|]; [confine|apply confined_create]. }
  destruct (C _ _ _ H) as (_ & _ & _ & K). auto.
Qed.

Lemma has_wallet_app name l s :
  PortfolioManager.has_wallet name (set_wallet_managers s (l ++ [name])) = true.
Proof.
  unfold PortfolioManager.has_wallet. cbn [wallet_managers set_wallet_managers].
  rewrite existsb_app. cbn [existsb]. rewrite String.eqb_refl. apply orb_true_r.
Qed.

Lemma add_wallet_cases name s r s' :
  PortfolioManager.add_wallet name s = (r, s') ->
  registered_bots s' = registered_bots s /\
  (forall k, k <> name -> lookup k (sheets s') = lookup k (sheets s)) /\
  match r with
  | Ret _ =>
      wallet_managers s' =
        (if PortfolioManager.has_wallet name s then wallet_managers s
         else wallet_managers s ++ [name]) /\
      (PortfolioManager.has_wallet name s = false -> lookup name (sheets s') <> None) /\
      PortfolioManager.add_wallet name s' = (Ret tt, s')
  | Raise _ => wallet_managers s' = wallet_managers s
  end.
Proof.
  unfold PortfolioManager.add_wallet.
  destruct (PortfolioManager.has_wallet name s) eqn:H.
  - intros [= <- <-]. rewrite H. repeat split; auto. discriminate.
  - cbv [bind]. destruct (WalletManager.__init__ name s) as [[[]|e] s1] eqn:I.
    + intros [= <- <-]. destruct (confined_init name _ _ _ I) as (W & B & O & _).
      cbn [registered_bots sheets wallet_managers set_wallet_managers].
      split; [exact B|]. split; [exact O|].
      split; [now rewrite W|]. split; [intros _; eapply init_exists; eauto|].
      now rewrite has_wallet_app.
    + intros [= <- <-]. destruct (confined_init name _ _ _ I) as (W & B & O & _).
      auto.
Qed.

(** X2.  [add_wallet] is idempotent and keeps the order of the wallets.
    When it returns, the wallet is managed: its name has gone to the end of
    the dictionary of wallet managers unless it was there, no name is there
    twice if none was before, a wallet that was not managed has a
    worksheet, and a second call changes nothing and makes no API call.
    When the constructor of the wallet manager raises, no manager is added.
    Other worksheets and the registered bots are left as they are in both
    cases. *)
Theorem X2_add_wallet_is_idempotent name s r s' :
  PortfolioManager.add_wallet name s = (r, s') ->
  registered_bots s' = registered_bots s /\
  (forall k, k <> name -> lookup k (sheets s') = lookup k (sheets s)) /\
  match r with
  | Ret _ =>
      wallet_managers s' = managers_after [name] (wallet_managers s) /\
      PortfolioManager.has_wallet name s' = true /\
      (NoDup (wallet_managers s) -> NoDup (wallet_managers s')) /\
      (PortfolioManager.has_wallet name s = false -> lookup name (sheets s') <> None) /\
      PortfolioManager.add_wallet name s' = (Ret tt, s')
  | Raise _ => wallet_managers s' = wallet_managers s
  end.
Proof.
  intros E. destruct (add_wallet_cases name s r s' E) as (B & O & R).
  split; [exact B|]. split; [exact O|]. destruct r as [[]|e]; [|exact R].
  destruct R as (W & K & I). split; [exact W|].
  unfold PortfolioManager.has_wallet in *. rewrite W.
  destruct (existsb (String.eqb name) (wallet_managers s)) eqn:H.
  - repeat split; auto.
  - split; [|split; [|split; [exact K|exact I]]].
    + rewrite existsb_app. cbn [existsb]. rewrite String.eqb_refl. apply orb_true_r.
    + intros D. apply NoDup_app; [exact D|repeat constructor; intros []|].
      intros a Ia [<-|[]].
      assert (existsb (String.eqb name) (wallet_managers s) = true) as X; [|congruence].
      apply existsb_exists. exists name. split; [exact Ia|apply String.eqb_refl].
Qed.

Lemma create_run name s :
  net s = [] -> lookup name (sheets s) <> None ->
  WalletManager._create_sheet_structure name s =
  (Ret tt, set_sheets s (assign name (WalletManager.summary_headers name) (sheets s))).
Proof.
  intros N L.
  unfold WalletManager._create_sheet_structure, WalletManager._format_wallet_sheet.
  unfold WalletManager.summary_headers at 1.
  cbn [WalletManager.write_headers map].
  run. rewrite N.
  destruct (lookup name (sheets s)) eqn:L0; [|congruence].
  repeat (progress (run; cbn [serialise]; rewrite ?N, ?lookup_assign_same, ?assign_assign)).
  reflexivity.
Qed.

(** X3.  A worksheet that starts with the header block of
    [_create_sheet_structure] is recognised as configured, whatever the name
    in its title and whatever rows follow the block: while the API answers,
    the constructor of a wallet manager on such a worksheet returns and
    leaves the whole state, the trade rows included, as it is. *)
Theorem X3_constructor_keeps_a_configured_sheet name title rows s :
  net s = [] ->
  lookup name (sheets s) = Some (WalletManager.summary_headers title ++ rows) ->
  WalletManager.__init__ name s = (Ret tt, s).
Proof.
  intros N L.
  unfold WalletManager.__init__, WalletManager._setup_wallet_sheet,
    SheetsConnector.get_or_create_worksheet.
  run. rewrite N, L. run. rewrite N, L.
  change (cell_value (WalletManager.summary_headers title ++ rows) colA 1)
    with (VText (String.append title " - WALLET SUMMARY")).
  cbv iota. rewrite contains_summary. reflexivity.
Qed.

(** X4.  A failed read of cell A1 counts as "not configured".  If the
    worksheet of the wallet exists, the call that fetches it goes through
    and the read of A1 fails, the constructor of the wallet manager returns
    normally after it has cleared the worksheet and laid out a new header
    block: whatever the worksheet held, trades included, is gone. *)
Theorem X4_failed_read_resets_the_sheet name s ws :
  net s = [true; false] ->
  lookup name (sheets s) = Some ws ->
  WalletManager.__init__ name s =
  (Ret tt,
   set_net (set_sheets s (assign name (WalletManager.summary_headers name) (sheets s))) []).
Proof.
  intros N L.
  unfold WalletManager.__init__, WalletManager._setup_wallet_sheet,
    SheetsConnector.get_or_create_worksheet.
  run. rewrite N. run. rewrite L. run.
  change (WalletManager._create_sheet_structure name (set_net (set_net s [false]) []) =
          (Ret tt,
           set_net (set_sheets s (assign name (WalletManager.summary_headers name) (sheets s)))
             [])).
  rewrite create_run; [reflexivity|reflexivity|].
  cbn [sheets set_net]. congruence.
Qed.

(** X5.  [PortfolioManager.add_trade] never raises.  For a wallet that has
    no manager it answers [False] and changes nothing; in every case it
    leaves the wallet managers, the registered bots and the worksheets of
    the other wallets as they are. *)
Theorem X5_portfolio_add_trade_is_confined wallet td s r s' :
  PortfolioManager.add_trade w wallet td s = (r, s') ->
  (exists b, r = Ret b /\
             (PortfolioManager.has_wallet wallet s = false -> b = false /\ s' = s)) /\
  wallet_managers s' = wallet_managers s /\
  registered_bots s' = registered_bots s /\
  (forall k, k <> wallet -> lookup k (sheets s') = lookup k (sheets s)).
Proof.
  unfold PortfolioManager.add_trade, PortfolioManager.get_wallet_manager. cbv [bind ret].
  destruct (PortfolioManager.has_wallet wallet s).
  - destruct (add_trade_total w wallet s td) as (b & s1 & E & _). rewrite E.
    intros [= <- <-]. destruct (confined_add_trade w wallet td _ _ _ E) as (W & B & O & _).
    split; [exists b; split; [reflexivity|discriminate]|]. auto.
  - intros [= <- <-]. split; [exists false; auto|]. auto.
Qed.
End Portfolio.

Lemma X2_witness :
  registered_bots Sample.one_wallet = registered_bots Sample.start /\
  (forall k, k <> "W" -> lookup k (sheets Sample.one_wallet) = lookup k (sheets Sample.start)) /\
  wallet_managers Sample.one_wallet = managers_after ["W"] (wallet_managers Sample.start) /\
  PortfolioManager.has_wallet "W" Sample.one_wallet = true /\
  (NoDup (wallet_managers Sample.start) -> NoDup (wallet_managers Sample.one_wallet)) /\
  (PortfolioManager.has_wallet "W" Sample.start = false ->
   lookup "W" (sheets Sample.one_wallet) <> None) /\
  PortfolioManager.add_wallet "W" Sample.one_wallet = (Ret tt, Sample.one_wallet).
Proof.
  apply (X2_add_wallet_is_idempotent "W" Sample.start (Ret tt) Sample.one_wallet).
  vm_compute. reflexivity.
Defined.

Lemma X3_witness :
  WalletManager.__init__ "W" Sample.bought = (Ret tt, Sample.bought).
Proof.
  apply (X3_constructor_keeps_a_configured_sheet "W" "W"
           [row_written Sample.w0 (Sample.order "BUY" 1 1000) 1 1000 "BUY" 6] Sample.bought).
  - vm_compute. reflexivity.
  - vm_compute. reflexivity.
Defined.

Lemma X4_witness :
  WalletManager.__init__ "W" Scenario.flaky =
  (Ret tt,
   set_net (set_sheets Scenario.flaky
              (assign "W" (WalletManager.summary_headers "W") (sheets Scenario.flaky))) []).
Proof.
  apply (X4_failed_read_resets_the_sheet "W" Scenario.flaky
           (WalletManager.summary_headers "W"
            ++ [row_written Sample.w0 (Sample.order "BUY" 1 1000) 1 1000 "BUY" 6])).
  - reflexivity.
  - vm_compute. reflexivity.
Defined.

Lemma X5_witness :
  (exists b, Ret false = Ret b /\
             (PortfolioManager.has_wallet "W" Sample.start = false ->
              b = false /\ Sample.start = Sample.start)) /\
  wallet_managers Sample.start = wallet_managers Sample.start /\
  registered_bots Sample.start = registered_bots Sample.start /\
  (forall k, k <> "W" -> lookup k (sheets Sample.start) = lookup k (sheets Sample.start)).
Proof.
  apply (X5_portfolio_add_trade_is_confined Sample.w0 "W" (Sample.order "BUY" 1 1000)
           Sample.start (Ret false) Sample.start).
  reflexivity.
Defined.

(** ** Bots and their trades *)

Lemma keys_assign_old {A : Type} (k : string) (v : A) (d : list (string * A)) :
  In k (map fst d) -> map fst (assign k v d) = map fst d.
Proof.
  induction d as [|[k' v'] d IH]; cbn [assign map fst In]; [tauto|].
  destruct (k =? k') eqn:E.
  - apply String.eqb_eq in E. subst. reflexivity.
  - intros [->|H]; [now rewrite String.eqb_refl in E|]. cbn [map fst]. now rewrite IH.
Qed.

Section Feed.
Variable w : world.

(** X6.  [register_bot] stores the entry before it makes sure that the
    wallet exists.  Whether the call returns or raises, the bot is then
    registered with the given wallet, endpoint and key, no last update and
    the status "registered"; an entry of the same name is replaced in its
    place, a new name goes to the end, and the entries of the other bots are
    left as they are.  When the call returns, the wallet is managed. *)
Theorem X6_register_bot_overwrites bot wallet endpoint key s r s' :
  BotConnector.register_bot bot wallet endpoint key s = (r, s') ->
  lookup bot (registered_bots s') =
    Some {| wallet_name := wallet; api_endpoint := endpoint; api_key := key;
            last_update := None; status := "registered" |} /\
  map fst (registered_bots s') =
    match lookup bot (registered_bots s) with
    | Some _ => map fst (registered_bots s)
    | None => map fst (registered_bots s) ++ [bot]
    end /\
  (forall other, other <> bot ->
     lookup other (registered_bots s') = lookup other (registered_bots s)) /\
  (r = Ret tt -> PortfolioManager.has_wallet wallet s' = true).
Proof.
  unfold BotConnector.register_bot. cbv [bind].
  set (s0 := set_registered_bots s _).
  intros H. destruct (add_wallet_cases wallet s0 r s' H) as (B & _ & R).
  rewrite B. unfold s0. cbn [registered_bots set_registered_bots].
  split; [apply lookup_assign_same|]. split; [|split].
  - destruct (lookup bot (registered_bots s)) eqn:L.
    + apply keys_assign_old. eapply lookup_in; eauto.
    + apply keys_assign_new. intros I. apply in_lookup in I. contradiction.
  - intros other D. now apply lookup_assign_other.
  - intros ->. destruct R as (_ & _ & I).
    unfold PortfolioManager.add_wallet in I.
    destruct (PortfolioManager.has_wallet wallet s') eqn:E; [reflexivity|].
    exfalso. revert I. cbv [bind].
    destruct (WalletManager.__init__ wallet s') as [[[]|e] s1] eqn:I1; [|discriminate].
    intros [= I2]. apply (f_equal wallet_managers) in I2.
    cbn [wallet_managers set_wallet_managers] in I2.
    destruct (confined_init wallet _ _ _ I1) as (W & _).
    rewrite W in I2. apply (f_equal (@length string)) in I2.
    rewrite length_app in I2. cbn [length] in I2. lia.
Qed.

Lemma float_exn v e :
  WalletManager.float w v = Raise e -> e = ValueError \/ e = TypeError \/ e = OverflowError.
Proof.
  destruct v as [|t|n|x]; cbn [WalletManager.float].
  - intros [= <-]. auto.
  - destruct (no_float t); [intros [= <-]; auto|].
    destruct (float_of_str w t); [discriminate|]. intros [= <-]. auto.
  - destruct (overflows (inject_Z n)); [|discriminate]. intros [= <-]. auto.
  - discriminate.
Qed.

Lemma float_overflow v :
  WalletManager.float w v = Raise OverflowError <->
  exists n, v = PyInt n /\ overflows (inject_Z n) = true.
Proof.
  destruct v as [|t|n|x]; cbn [WalletManager.float].
  - split; [discriminate|intros (n & H & _); discriminate H].
  - split; [|intros (n & H & _); discriminate H].
    destruct (no_float t); [discriminate|]. destruct (float_of_str w t); discriminate.
  - destruct (overflows (inject_Z n)) eqn:O.
    + split; eauto.
    + split; [discriminate|]. intros (n' & [= <-] & H). congruence.
  - split; [discriminate|intros (n & H & _); discriminate H].
Qed.

(** X7.  What [_validate_trade_data] accepts and when it raises.  It
    answers [True] exactly for a dictionary that has the keys action, asset,
    quantity and price, whose quantity and price convert to floats, finite
    or not, and whose action is a string that reads BUY or SELL in upper
    case; nothing else is checked: a quantity that is negative, an infinity
    or nan passes.  On a dictionary it raises in two cases, with exceptions that
    its handler for [ValueError] and [TypeError] does not catch:
    [OverflowError] when the quantity, or the price after a quantity that
    converts, is an integer beyond the range of the floats, and
    [AttributeError] when quantity and price convert and the action is not a
    string.  [float] raises [OverflowError] on such integers only.  An item
    that is a string or an array is refused, and on an item that is a
    number, a boolean or null the validator raises [TypeError]. *)
Theorem X7_validator_accepts (td : trade_data) :
  (BotConnector._validate_trade_data w td = Ret true <->
   exists a qv pv q p,
     td_action td = Some (PyStr a) /\ td_asset td <> None /\
     td_quantity td = Some qv /\ td_price td = Some pv /\
     WalletManager.float w qv = Ret q /\ WalletManager.float w pv = Ret p /\
     (upper w a = "BUY" \/ upper w a = "SELL")) /\
  (forall e, BotConnector._validate_trade_data w td = Raise e <->
   exists x qv pv,
     td_action td = Some x /\ td_asset td <> None /\
     td_quantity td = Some qv /\ td_price td = Some pv /\
     ((e = OverflowError /\ WalletManager.float w qv = Raise OverflowError) \/
      (e = OverflowError /\ (exists q, WalletManager.float w qv = Ret q) /\
       WalletManager.float w pv = Raise OverflowError) \/
      (e = AttributeError /\ (exists q, WalletManager.float w qv = Ret q) /\
       (exists p, WalletManager.float w pv = Ret p) /\ forall a, x <> PyStr a))) /\
  (forall v, WalletManager.float w v = Raise OverflowError <->
             exists n, v = PyInt n /\ overflows (inject_Z n) = true) /\
  (forall x, WalletManager.float w (PyFloat x) = Ret x) /\
  BotConnector._validate_trade_data w JSequence = Ret false /\
  BotConnector._validate_trade_data w JAtom = Raise TypeError.
Proof.
  split; [|split; [|split; [exact float_overflow|split; [|split]; reflexivity]]].
  - unfold BotConnector._validate_trade_data. split.
    + destruct (td_action td) as [x|]; [|discriminate].
      destruct (td_asset td) as [y|]; [|discriminate].
      destruct (td_quantity td) as [qv|]; [|discriminate].
      destruct (td_price td) as [pv|]; [|discriminate].
      destruct (WalletManager.float w qv) as [q|[]] eqn:Fq; cbn [obind]; try discriminate.
      destruct (WalletManager.float w pv) as [p|[]] eqn:Fp; cbn [obind]; try discriminate.
      destruct x as [|a|n|f]; cbn [WalletManager.str_upper obind]; try discriminate.
      intros [= H]. exists a, qv, pv, q, p.
      do 6 (split; [first [reflexivity | discriminate | assumption]|]).
      apply orb_true_iff in H. destruct H as [H|H]; apply String.eqb_eq in H; auto.
    + intros (a & qv & pv & q & p & -> & Hs & -> & -> & Fq & Fp & H).
      destruct (td_asset td); [|congruence].
      rewrite Fq, Fp. cbn [obind WalletManager.str_upper].
      destruct H as [-> | ->]; reflexivity.
  - intros e. unfold BotConnector._validate_trade_data. split.
    + destruct (td_action td) as [x|]; [|discriminate].
      destruct (td_asset td) as [y|]; [|discriminate].
      destruct (td_quantity td) as [qv|]; [|discriminate].
      destruct (td_price td) as [pv|]; [|discriminate].
      intros H. exists x, qv, pv. repeat (split; [reflexivity || discriminate|]).
      revert H.
      destruct (WalletManager.float w qv) as [q|eq] eqn:Fq; cbn [obind].
      * destruct (WalletManager.float w pv) as [p|ep] eqn:Fp; cbn [obind].
        -- destruct x as [|a|n|f]; cbn [WalletManager.str_upper obind]; try discriminate;
             intros [= <-]; right; right; repeat split; eauto; discriminate.
        -- destruct (float_exn _ _ Fp) as [->|[->| ->]]; try discriminate.
           intros [= <-]. right. left. eauto.
      * destruct (float_exn _ _ Fq) as [->|[->| ->]]; try discriminate.
        intros [= <-]. left. auto.
    + intros (x & qv & pv & -> & Hs & -> & -> & H).
      destruct (td_asset td); [|congruence].
      destruct H as [(-> & Fq)|[(-> & (q & Fq) & Fp)|(-> & (q & Fq) & (p & Fp) & Hx)]];
        rewrite Fq; cbn [obind]; try reflexivity; rewrite Fp; cbn [obind]; try reflexivity.
      destruct x as [|a|n|f]; try reflexivity. exfalso. exact (Hx a eq_refl).
Qed.

Lemma simulated_valid bot s :
  exists o,
    BotConnector.simulate_bot_trade w bot s = (Ret o, s) /\
    forall td : trade_data, o = Some td -> BotConnector._validate_trade_data w td = Ret true.
Proof.
  unfold BotConnector.simulate_bot_trade.
  destruct (lookup bot (registered_bots s)) as [cfg|].
  - eexists. split; [reflexivity|]. intros td [= <-].
    unfold BotConnector._validate_trade_data.
    cbn [td_action td_asset td_quantity td_price WalletManager.float].
    cbn [obind WalletManager.str_upper].
    destruct (random_action w bot); reflexivity.
  - exists None. split; [reflexivity|discriminate].
Qed.

(** X8.  [simulate_bot_trade] changes nothing; it gives no trade exactly
    when the bot is not registered.  The trade it gives for a registered
    bot passes [_validate_trade_data], can be stored by [add_trade], is
    dated now, is a purchase or a sale, and carries a total value that is
    the product of its quantity and its price, a product within the range
    of the floats. *)
Theorem X8_simulated_trade_is_valid bot s :
  exists o,
    BotConnector.simulate_bot_trade w bot s = (Ret o, s) /\
    (o = None <-> lookup bot (registered_bots s) = None) /\
    forall td : trade_data, o = Some td ->
      BotConnector._validate_trade_data w td = Ret true /\
      storable w td /\
      td_date td = Some (now w) /\
      (action_of w td = "BUY" \/ action_of w td = "SELL") /\
      total_of w td = quantity_of w td * price_of w td /\
      overflows (quantity_of w td * price_of w td) = false.
Proof.
  unfold BotConnector.simulate_bot_trade.
  destruct (lookup bot (registered_bots s)) as [cfg|].
  - eexists. split; [reflexivity|]. split; [split; discriminate|].
    intros td [= <-].
    split; [|split; [|split; [|split; [|split]]]].
    + unfold BotConnector._validate_trade_data.
      cbn [td_action td_asset td_quantity td_price WalletManager.float].
      cbn [obind WalletManager.str_upper].
      destruct (random_action w bot); reflexivity.
    + unfold storable. cbn [td_action td_quantity td_price get WalletManager.float].
      split; [eexists; reflexivity|]. split; [eexists; reflexivity|].
      split; [eexists; reflexivity|]. intros T. discriminate T.
    + reflexivity.
    + unfold action_of. cbn [td_action get WalletManager.str_upper].
      destruct (random_action w bot); auto.
    + reflexivity.
    + apply simulated_total.
  - exists None. split; [reflexivity|]. split; [tauto|discriminate].
Qed.

Lemma valid_objects_valid items :
  Forall (fun td : trade_data => BotConnector._validate_trade_data w td = Ret true)
    (valid_objects w items).
Proof.
  induction items as [|[td| |] items IH]; cbn [valid_objects]; auto.
  unfold is_valid at 1.
  destruct (BotConnector._validate_trade_data w td) as [[|]|] eqn:V; auto.
Qed.

(** X9.  [fetch_bot_trades] never raises and changes nothing, and every
    trade it returns passes [_validate_trade_data].  For a bot whose
    endpoint answers with a JSON list, it returns the objects of the list
    that validate, in the order of the list; but if the validator raises on
    one item (an action that is not a string, an integer beyond the range
    of the floats, an item that is a number, a boolean or null), the whole
    batch is lost and the result is empty. *)
Theorem X9_fetch_keeps_the_valid_trades bot s :
  exists l,
    BotConnector.fetch_bot_trades w bot s = (Ret l, s) /\
    Forall (fun td : trade_data => BotConnector._validate_trade_data w td = Ret true) l /\
    forall cfg items,
      lookup bot (registered_bots s) = Some cfg ->
      BotConnector.no_endpoint (api_endpoint cfg) = false ->
      http_get w (get (api_endpoint cfg) "") = JsonList items ->
      l = if existsb (breaks w) items then [] else valid_objects w items.
Proof.
  unfold BotConnector.fetch_bot_trades.
  destruct (lookup bot (registered_bots s)) as [cfg|] eqn:L.
  - destruct (BotConnector.no_endpoint (api_endpoint cfg)) eqn:NE.
    + cbv [bind ret].
      destruct (simulated_valid bot s) as (o & E & V). rewrite E.
      eexists. split; [reflexivity|]. split.
      * destruct o as [td|]; [|constructor]. constructor; [|constructor].
        apply (V td eq_refl).
      * intros cfg' items [= <-]. congruence.
    + cbv [try_except].
      destruct (http_get w (get (api_endpoint cfg) "")) as [|items|] eqn:H;
        cbv [raise ret lift].
      * eexists. split; [reflexivity|]. split; [constructor|].
        intros cfg' items [= <-] _. rewrite H. discriminate.
      * destruct (validated_cases w items) as [(e & V & B)|(V & B)]; rewrite V.
        -- exists []. split; [reflexivity|]. split; [constructor|].
           intros cfg' items' [= <-] _. rewrite H. intros [= <-]. now rewrite B.
        -- eexists. split; [reflexivity|]. split; [apply valid_objects_valid|].
           intros cfg' items' [= <-] _. rewrite H. intros [= <-]. now rewrite B.
      * eexists. split; [reflexivity|]. split; [constructor|].
        intros cfg' items [= <-] _. rewrite H. discriminate.
  - exists []. split; [reflexivity|]. split; [constructor|]. discriminate.
Qed.
End Feed.

Lemma X6_witness :
  lookup "bot1" (registered_bots
                   (Sample.after (BotConnector.register_bot "bot1" "W1" None None)
                      Sample.start)) =
    Some {| wallet_name := "W1"; api_endpoint := None; api_key := None;
            last_update := None; status := "registered" |} /\
  map fst (registered_bots
             (Sample.after (BotConnector.register_bot "bot1" "W1" None None)
                Sample.start)) = ["bot1"] /\
  (forall other, other <> "bot1" ->
     lookup other (registered_bots
                     (Sample.after (BotConnector.register_bot "bot1" "W1" None None)
                        Sample.start)) =
     lookup other (registered_bots Sample.start)) /\
  (Ret tt = Ret tt ->
   PortfolioManager.has_wallet "W1"
     (Sample.after (BotConnector.register_bot "bot1" "W1" None None)
        Sample.start) = true).
Proof.
  apply (X6_register_bot_overwrites "bot1" "W1" None None Sample.start (Ret tt)).
  vm_compute. reflexivity.
Defined.

(** ** The limit of the trade history *)

Section Limit.
Variable w : world.
Variable name : string.

Lemma limited_skips (l : Z) (trades : list trade) :
  limited (Some l) trades =
  skipn (Z.to_nat (if (0 <? l)%Z then Z.of_nat (length trades) - l else - l)) trades.
Proof.
  unfold limited, WalletManager.last_from.
  destruct (Z.lt_trichotomy l 0) as [H|[H|H]].
  - assert ((l =? 0)%Z = false) as -> by (apply Z.eqb_neq; lia).
    assert ((l <? Z.of_nat (length trades))%Z = true) as -> by (apply Z.ltb_lt; lia).
    assert ((0 <? l)%Z = false) as -> by (apply Z.ltb_ge; lia).
    reflexivity.
  - subst l. reflexivity.
  - assert ((l =? 0)%Z = false) as -> by (apply Z.eqb_neq; lia).
    assert ((0 <? l)%Z = true) as -> by (apply Z.ltb_lt; lia).
    cbn [negb andb].
    destruct (l <? Z.of_nat (length trades))%Z eqn:E.
    + apply Z.ltb_lt in E. f_equal. lia.
    + apply Z.ltb_ge in E.
      replace (Z.to_nat (Z.of_nat (length trades) - l)) with 0%nat by lia. reflexivity.
Qed.

(** X10.  The limit of [get_trade_history], for every integer.  Read while
    the API answers, the history with limit [l] is the unlimited history
    without its first [d] trades, where [d] is the number of trades less
    [l] for a positive [l] (none is dropped when [l] is not smaller than
    that number) and [-l] otherwise: a positive limit keeps the most recent
    [l] trades, the limit 0 keeps everything, and a negative limit is not
    refused but drops the oldest [-l] trades. *)
Theorem X10_history_limit s ws (l : Z) all :
  net s = [] -> lookup name (sheets s) = Some ws ->
  WalletManager.get_trade_history w name None s = (Ret all, s) ->
  WalletManager.get_trade_history w name (Some l) s =
  (Ret (skipn (Z.to_nat (if (0 <? l)%Z then Z.of_nat (length all) - l else - l)) all), s).
Proof.
  intros N L. rewrite !(history_online w name s ws) by assumption.
  intros [= <-]. f_equal. f_equal. unfold history_of.
  destruct (length ws <? 6)%nat.
  - now rewrite skipn_nil.
  - cbn [limited]. apply limited_skips.
Qed.
End Limit.

(** ** Trade logs below a header block without an empty row *)

Lemma filter_all {A : Type} (f : A -> bool) (l : list A) :
  (forall x, In x l -> f x = true) -> filter f l = l.
Proof.
  induction l as [|x l IH]; cbn [filter]; [reflexivity|]. intros F.
  rewrite (F x (or_introl eq_refl)). f_equal. apply IH. intros y I. apply F. now right.
Qed.

Lemma set_row_end (ws : worksheet) cells :
  Worksheet.set_row ws (length ws) cells = ws ++ [cells].
Proof. induction ws as [|old ws IH]; cbn [Worksheet.set_row length app]; congruence. Qed.

Section LogFacts.
Variable w : world.

Lemma length_log_rows tds : forall r, length (log_rows w r tds) = length tds.
Proof. induction tds as [|td tds IH]; intros r; cbn [log_rows length]; auto. Qed.

Lemma log_rows_app tds td : forall r,
  log_rows w r (tds ++ [td]) =
  log_rows w r tds ++ [row_written w td (quantity_of w td) (price_of w td) (action_of w td)
                         (r + length tds)].
Proof.
  induction tds as [|t tds IH]; intros r; cbn [log_rows app length].
  - now rewrite Nat.add_0_r.
  - rewrite IH. now rewrite Nat.add_succ_r.
Qed.

Lemma nth_log_rows tds : forall r k td,
  nth_error tds k = Some td ->
  nth k (log_rows w r tds) [] =
  row_written w td (quantity_of w td) (price_of w td) (action_of w td) (r + k).
Proof.
  induction tds as [|t tds IH]; intros r [|k] td; cbn [nth_error log_rows nth];
    try discriminate.
  - intros [= ->]. now rewrite Nat.add_0_r.
  - intros H. rewrite (IH (S r) k td H). now rewrite Nat.add_succ_r.
Qed.

Lemma width_log_rows tds : forall r,
  tds <> [] -> list_max (map (@length cell) (log_rows w r tds)) = 8%nat.
Proof.
  induction tds as [|td tds IH]; intros r N; [contradiction|].
  assert (list_max (map (@length cell) (log_rows w (S r) tds)) <= 8)%nat as X.
  { destruct tds; [cbn; lia|]. rewrite IH by discriminate. lia. }
  cbn [log_rows map]. unfold list_max in *. cbn [fold_right].
  unfold row_written at 1. cbn [length]. lia.
Qed.

Lemma storable_converts td :
  storable w td ->
  WalletManager.float w (get (td_quantity td) (PyInt 0)) = Ret (Finite (quantity_of w td)) /\
  WalletManager.float w (get (td_price td) (PyInt 0)) = Ret (Finite (price_of w td)) /\
  WalletManager.str_upper w (get (td_action td) (PyStr "")) = Ret (action_of w td) /\
  finite_total td (quantity_of w td) (price_of w td).
Proof.
  intros ((q & Fq) & (p & Fp) & (a & Fa) & FT). unfold quantity_of, price_of, action_of in *.
  rewrite Fq, Fp, Fa in *. auto.
Qed.

(** *** The cells of a log *)
Section OnSheet.
Variables (hdr : list (list cell)) (tds : list trade_data).
Hypothesis H : headed hdr.
Let ws : worksheet := hdr ++ log_rows w 6 tds.

Lemma log_length : length ws = (5 + length tds)%nat.
Proof.
  unfold ws. rewrite length_app, length_log_rows. destruct H as (-> & _). reflexivity.
Qed.

Lemma cell_log c k td :
  nth_error tds k = Some td ->
  cell_at ws c (6 + k) =
  nth c (row_written w td (quantity_of w td) (price_of w td) (action_of w td) (6 + k)) Blank.
Proof.
  intros E. unfold ws. change (6 + k)%nat with (S (5 + k)). cbn [cell_at].
  destruct H as (L & _).
  rewrite app_nth2 by lia. rewrite L.
  replace (5 + k - 5)%nat with k by lia.
  now rewrite (nth_log_rows tds 6 k td E).
Qed.

Lemma cell_header c r : (1 <= r <= 5)%nat -> cell_at ws c r = cell_at hdr c r.
Proof.
  intros R. destruct r as [|i]; [lia|]. cbn [cell_at]. unfold ws.
  destruct H as (L & _). rewrite app_nth1 by lia. reflexivity.
Qed.

Lemma width_log : tds <> [] -> width ws = 8%nat.
Proof.
  intros N. unfold width, ws. rewrite map_app, list_max_app.
  rewrite (width_log_rows tds 6 N).
  apply Nat.max_r. apply list_max_le. apply Forall_map.
  destruct H as (_ & F). eapply Forall_impl; [|exact F]. cbv beta. tauto.
Qed.

(** What [get_all_values] shows of the row of a trade: column G is the
    string of the formula. *)
Lemma row_log k td :
  nth_error tds k = Some td ->
  row_values ws (6 + k) =
  [ shown (text (get (td_date td) (now w))); shown (text (action_of w td));
    shown (text (get (td_asset td) "")); VNum (quantity_of w td); VNum (price_of w td);
    VNum (total_of w td);
    VText (WalletManager._calculate_running_balance_formula (6 + k));
    shown (text (get (td_notes td) "")) ].
Proof.
  intros E. unfold row_values. rewrite width_log by (intros ->; destruct k; discriminate).
  cbn [seq map]. unfold cell_value. rewrite !(cell_log _ k td E). reflexivity.
Qed.

Lemma width_positive : (0 < width ws)%nat.
Proof.
  destruct H as (L & F). destruct hdr as [|row0 rest]; [discriminate|].
  apply Forall_inv in F. destruct F as (_ & s & N & _).
  unfold width, ws. cbn [app map]. unfold list_max. cbn [fold_right].
  destruct row0; [discriminate|]. cbn [length]. lia.
Qed.

Lemma any_header r : (1 <= r <= 5)%nat -> any (row_values ws r) = true.
Proof.
  intros R. destruct H as (L & F).
  assert (In (nth (r - 1) hdr []) hdr) as I by (apply nth_In; lia).
  rewrite Forall_forall in F. destruct (F _ I) as (_ & s & N & D).
  apply (any_row_true ws r 0 width_positive).
  unfold cell_value. rewrite (cell_header 0 r R).
  destruct r as [|i]; [lia|]. cbn [cell_at].
  replace (S i - 1)%nat with i in N by lia. rewrite N.
  cbn [shown truthy]. apply String.eqb_neq in D. now rewrite D.
Qed.

Lemma any_log k td : nth_error tds k = Some td -> any (row_values ws (6 + k)) = true.
Proof.
  intros E. rewrite (row_log k td E). cbn [any existsb truthy]. now rewrite !orb_true_r.
Qed.

(** No row is empty, so the rows [add_trade] counts are all the rows. *)
Lemma count_log : length (filter any (all_values ws)) = (5 + length tds)%nat.
Proof.
  rewrite <- log_length. rewrite <- (all_values_length ws). f_equal.
  apply filter_all. unfold all_values. intros row I.
  apply in_map_iff in I. destruct I as (r & <- & I). apply in_seq in I.
  rewrite log_length in I.
  destruct (Nat.le_gt_cases r 5) as [R|R]; [apply any_header; lia|].
  destruct (nth_error tds (r - 6)) as [td|] eqn:E.
  - replace r with (6 + (r - 6))%nat by lia. now apply (any_log _ td).
  - apply nth_error_None in E. lia.
Qed.

Lemma next_row_log :
  Nat.max 6 (length (filter any (all_values ws)) + 1) = (6 + length tds)%nat.
Proof. rewrite count_log. lia. Qed.

Lemma skip_headers : skipn 5 (all_values ws) = map (row_values ws) (seq 6 (length tds)).
Proof.
  unfold all_values. rewrite skipn_map, skipn_seq, log_length.
  replace (5 + length tds - 5)%nat with (length tds) by lia. reflexivity.
Qed.

(** Every row of the log is skipped by the loop of [get_trade_history]. *)
Lemma collect_skips rows :
  Forall (fun row => WalletManager.trade_of_row w row = Raise ValueError) rows ->
  WalletManager.collect_trades w rows = Ret [].
Proof.
  induction 1 as [|row rows R _ IH]; cbn [WalletManager.collect_trades]; [reflexivity|].
  rewrite R, IH. now destruct (negb (any (firstn 6 row))).
Qed.

Lemma collected_log : WalletManager.collect_trades w (skipn 5 (all_values ws)) = Ret [].
Proof.
  rewrite skip_headers. apply collect_skips. apply Forall_map, Forall_forall.
  intros r I. apply in_seq in I.
  destruct (nth_error tds (r - 6)) as [td|] eqn:E; [|apply nth_error_None in E; lia].
  replace r with (6 + (r - 6))%nat by lia. rewrite (row_log _ td E).
  destruct (formula_starts (6 + (r - 6))) as (t & ->). apply trade_of_row_formula.
Qed.
End OnSheet.

Lemma history_log hdr tds limit :
  headed hdr -> history_of w (hdr ++ log_rows w 6 tds) limit = [].
Proof.
  intros H. unfold history_of. destruct (length _ <? 6)%nat; [reflexivity|].
  unfold collected. rewrite (collected_log hdr tds H). apply limited_nil.
Qed.
End LogFacts.

Section LogTheorems.
Variable w : world.
Variable name : string.

(** X11.  Where [add_trade] appends.  On a worksheet whose five header
    rows are all non-empty and whose rows from row 6 on are the rows of the
    trades stored so far, [add_trade] with a dictionary whose action
    converts, whose quantity and price convert to finite floats and whose
    total value is finite, called while the API answers, returns [True]
    and writes the row of the new trade
    below the last one, with the string of the running-balance formula of
    that row; the header block and the rows of the earlier trades are left
    as they are. *)
Theorem X11_add_trade_appends hdr tds td s :
  headed hdr -> storable w td -> net s = [] ->
  lookup name (sheets s) = Some (hdr ++ log_rows w 6 tds) ->
  WalletManager.add_trade w name td s =
  (Ret true, set_sheets s (assign name (hdr ++ log_rows w 6 (tds ++ [td])) (sheets s))).
Proof.
  intros H St N L. destruct (storable_converts w td St) as (Fq & Fp & Fa & FT).
  rewrite (add_trade_online w name s _ td _ _ _ L N Fq Fp Fa FT).
  rewrite (next_row_log w hdr tds H).
  replace (6 + length tds - 1)%nat with (length (hdr ++ log_rows w 6 tds))
    by (rewrite (log_length w hdr tds H); lia).
  rewrite set_row_end, log_rows_app, app_assoc. reflexivity.
Qed.

(** X12.  The history of a log is empty.  On such a worksheet every trade
    row has the string of its running-balance formula in column G;
    [get_trade_history] skips each of them, because [float] raises
    [ValueError] on the string, and returns the empty list, for every limit
    and whatever the fate of its API call.  It changes nothing. *)
Theorem X12_history_of_a_log_is_empty hdr tds limit s :
  headed hdr ->
  lookup name (sheets s) = Some (hdr ++ log_rows w 6 tds) ->
  (forall k td, nth_error tds k = Some td ->
     cell_at (hdr ++ log_rows w 6 tds) colG (6 + k) =
       Text (WalletManager._calculate_running_balance_formula (6 + k)) /\
     WalletManager.float_or_0 w (cell_value (hdr ++ log_rows w 6 tds) colG (6 + k)) =
       Raise ValueError) /\
  exists s',
    WalletManager.get_trade_history w name limit s = (Ret [], s') /\ same_data s s'.
Proof.
  intros H L. split.
  - intros k td E. unfold cell_value. rewrite (cell_log w hdr tds H colG k td E).
    split; [reflexivity|]. cbn [row_written nth colG shown].
    destruct (formula_starts (6 + k)) as (t & ->). reflexivity.
  - rewrite history_eq, L, (history_log w hdr tds limit H).
    eexists. split; [now destruct (answers s 0)|auto with ledger].
Qed.


(** X14.  The summary row reads zero.  On every worksheet whose row 2 is
    the summary row that [_create_sheet_structure] writes, whatever the
    other rows hold and whatever the fate of the API calls,
    [get_wallet_performance] reports initial investment, current value,
    total return, return percentage and APY all 0: the four cells it reads
    hold the strings of the formulas, which [float] refuses.  It changes
    nothing. *)
Theorem X14_summary_row_reads_zero title ws s :
  lookup name (sheets s) = Some ws ->
  nth_error ws 1 = nth_error (WalletManager.summary_headers title) 1 ->
  (forall c, c = colB \/ c = colD \/ c = colF \/ c = colH ->
     exists t, cell_at ws c 2 = Text (String "=" t) /\
               WalletManager.float w (PyStr (WalletManager.cleaned (String "=" t))) =
                 Raise ValueError) /\
  exists s',
    WalletManager.get_wallet_performance w name s = (Ret (zero_performance name), s') /\
    same_data s s'.
Proof.
  intros L R. split.
  - intros c C. unfold cell_at.
    destruct ws as [|row1 [|row2 rest]]; try discriminate R.
    cbn [nth_error WalletManager.summary_headers] in R. inversion R; subst row2.
    destruct C as [-> | [-> | [-> | ->]]]; eexists; split; reflexivity.
  - rewrite (performance_summary_row w name title s ws L R).
    eexists. split; [reflexivity|apply same_data_four_calls].
Qed.

End LogTheorems.

Lemma headed_noted : headed Noted.headers.
Proof.
  split; [reflexivity|].
  repeat constructor; cbn; try lia; eexists; (split; [reflexivity|discriminate]).
Qed.

Lemma storable_order action :
  storable Sample.w0 (Sample.order action 1 1200).
Proof.
  split; [eexists; vm_compute; reflexivity|]. split; [eexists; vm_compute; reflexivity|].
  split; [eexists; reflexivity|]. intros _. vm_compute. reflexivity.
Qed.

Lemma X10_witness :
  WalletManager.get_trade_history Sample.w0 "W" (Some 1%Z) Noted.showing =
  (Ret (skipn 1 (history_of Sample.w0 Noted.shown_log None)), Noted.showing).
Proof.
  apply (X10_history_limit Sample.w0 "W" Noted.showing Noted.shown_log 1%Z
           (history_of Sample.w0 Noted.shown_log None)).
  - reflexivity.
  - reflexivity.
  - vm_compute. reflexivity.
Defined.

Lemma X11_witness :
  WalletManager.add_trade Sample.w0 "W" Noted.sale (Noted.holding [Noted.purchase]) =
  (Ret true,
   set_sheets (Noted.holding [Noted.purchase])
     (assign "W" (Noted.headers ++ log_rows Sample.w0 6 ([Noted.purchase] ++ [Noted.sale]))
        (sheets (Noted.holding [Noted.purchase])))).
Proof.
  apply (X11_add_trade_appends Sample.w0 "W" Noted.headers [Noted.purchase] Noted.sale
           (Noted.holding [Noted.purchase]) headed_noted (storable_order _)).
  - reflexivity.
  - reflexivity.
Defined.

Lemma X12_witness :
  (forall k td, nth_error [Noted.purchase; Noted.sale] k = Some td ->
     cell_at (Noted.headers ++ log_rows Sample.w0 6 [Noted.purchase; Noted.sale]) colG (6 + k) =
       Text (WalletManager._calculate_running_balance_formula (6 + k)) /\
     WalletManager.float_or_0 Sample.w0
       (cell_value (Noted.headers ++ log_rows Sample.w0 6 [Noted.purchase; Noted.sale])
          colG (6 + k)) = Raise ValueError) /\
  exists s',
    WalletManager.get_trade_history Sample.w0 "W" None
      (Noted.holding [Noted.purchase; Noted.sale]) = (Ret [], s') /\
    same_data (Noted.holding [Noted.purchase; Noted.sale]) s'.
Proof.
  apply (X12_history_of_a_log_is_empty Sample.w0 "W" Noted.headers
           [Noted.purchase; Noted.sale] None (Noted.holding [Noted.purchase; Noted.sale])
           headed_noted).
  reflexivity.
Defined.


Lemma X14_witness :
  (forall c, c = colB \/ c = colD \/ c = colF \/ c = colH ->
     exists t,
       cell_at (Noted.headers ++ log_rows Sample.w0 6 [Noted.purchase; Noted.sale]) c 2 =
         Text (String "=" t) /\
       WalletManager.float Sample.w0 (PyStr (WalletManager.cleaned (String "=" t))) =
         Raise ValueError) /\
  exists s',
    WalletManager.get_wallet_performance Sample.w0 "W"
      (Noted.holding [Noted.purchase; Noted.sale]) = (Ret (zero_performance "W"), s') /\
    same_data (Noted.holding [Noted.purchase; Noted.sale]) s'.
Proof.
  apply (X14_summary_row_reads_zero Sample.w0 "W" "W"
           (Noted.headers ++ log_rows Sample.w0 6 [Noted.purchase; Noted.sale])
           (Noted.holding [Noted.purchase; Noted.sale])).
  - reflexivity.
  - reflexivity.
Defined.


(** ** The dashboard *)

Section DashboardFacts.
Variable w : world.

Lemma confined_update_range_at title r c cells :
  confined title (PortfolioDashboard.update_range_at (Some title) r c cells).
Proof. unfold PortfolioDashboard.update_range_at. confine. Qed.

Lemma confined_update_range_none name r c cells :
  confined name (PortfolioDashboard.update_range_at None r c cells).
Proof. unfold PortfolioDashboard.update_range_at. confine. Qed.

Lemma confined_dashboard_headers title rows : forall i,
  confined title (PortfolioDashboard.write_headers title i rows).
Proof.
  induction rows as [|row rows IH]; intros i; cbn [PortfolioDashboard.write_headers].
  - confine.
  - apply confined_bind; [apply confined_update_range_at|]. intros _. apply IH.
Qed.

Lemma update_range_at_total worksheet r c cells s :
  exists b s', PortfolioDashboard.update_range_at worksheet r c cells s = (Ret b, s').
Proof.
  unfold PortfolioDashboard.update_range_at. destruct worksheet as [title|]; run.
  - destruct (serialise cells); [|eauto].
    destruct (net s) as [|[|] n]; run; destruct (lookup title (sheets s)); eauto.
  - eauto.
Qed.

Lemma write_wallets_total worksheet data : forall r s,
  exists s', PortfolioDashboard.write_wallets worksheet r data s = (Ret tt, s').
Proof.
  induction data as [|p data IH]; intros r s; cbn [PortfolioDashboard.write_wallets].
  - eexists. reflexivity.
  - cbv [bind]. destruct (update_range_at_total worksheet r 4
      [Some (text (p_name p)); number (p_current_value p);
       number (p_total_return_pct p); number (p_apy p)] s) as (b & s1 & ->).
    apply IH.
Qed.

Lemma update_wallet_summary_true worksheet data s :
  exists s', PortfolioDashboard.update_wallet_summary w worksheet data s = (Ret true, s').
Proof.
  unfold PortfolioDashboard.update_wallet_summary. cbv [try_except bind ret].
  destruct (write_wallets_total worksheet data 8 s) as (s1 & ->).
  destruct (update_range_at_total worksheet 2 1 [Some (text (now w))] s1) as (b & s2 & ->).
  eauto.
Qed.

Lemma collect_performance_total managers : forall acc s,
  exists l s',
    PortfolioUpdates.collect_performance w managers acc s = (Ret l, s') /\ same_data s s'.
Proof.
  induction managers as [|m managers IH]; intros acc s;
    cbn [PortfolioUpdates.collect_performance].
  - exists acc, s. split; [reflexivity|apply same_data_refl].
  - cbv [bind]. rewrite performance_eq.
    edestruct IH as (l & s' & -> & D').
    exists l, s'. split; [reflexivity|].
    eapply same_data_trans; [apply same_data_four_calls|exact D'].
Qed.

Lemma confined_write_wallets title worksheet data : forall r,
  (worksheet = None \/ worksheet = Some title) ->
  confined title (PortfolioDashboard.write_wallets worksheet r data).
Proof.
  induction data as [|p data IH]; intros r W; cbn [PortfolioDashboard.write_wallets].
  - confine.
  - apply confined_bind; [|intros _; now apply IH].
    destruct W as [-> | ->];
      [apply confined_update_range_none|apply confined_update_range_at].
Qed.

Lemma confined_update_wallet_summary title worksheet data :
  (worksheet = None \/ worksheet = Some title) ->
  confined title (PortfolioDashboard.update_wallet_summary w worksheet data).
Proof.
  intros W. unfold PortfolioDashboard.update_wallet_summary.
  apply confined_try; [|intros _; confine].
  apply confined_bind; [now apply confined_write_wallets|]. intros _.
  apply confined_bind; [|intros _; confine].
  destruct W as [-> | ->];
    [apply confined_update_range_none|apply confined_update_range_at].
Qed.

Lemma update_dashboard_cases dashboard s :
  exists s',
    PortfolioUpdates.update_dashboard w dashboard s = (Ret true, s') /\
    wallet_managers s' = wallet_managers s /\
    registered_bots s' = registered_bots s /\
    (forall k, dashboard <> Some k -> lookup k (sheets s') = lookup k (sheets s)) /\
    (forall k, lookup k (sheets s) <> None -> lookup k (sheets s') <> None).
Proof.
  unfold PortfolioUpdates.update_dashboard. cbv [try_except bind].
  destruct (collect_performance_total (wallet_managers s) [] s)
    as (l & s1 & -> & S1 & W1 & B1).
  destruct (update_wallet_summary_true dashboard l s1) as (s' & E). rewrite E. cbv [ret].
  exists s'. split; [reflexivity|].
  destruct dashboard as [title|].
  - destruct (confined_update_wallet_summary title (Some title) l (or_intror eq_refl) _ _ _ E)
      as (W & B & O & K).
    split; [congruence|]. split; [congruence|]. split.
    + intros k D. rewrite O, S1; congruence.
    + intros k. destruct (string_dec k title) as [->|D].
      * rewrite <- S1. exact K.
      * rewrite O, S1 by exact D. auto.
  - assert (forall k, lookup k (sheets s') = lookup k (sheets s)) as X.
    { intros k.
      destruct (confined_update_wallet_summary (String "x" k) None l (or_introl eq_refl)
                  _ _ _ E) as (_ & _ & O & _).
      rewrite O, S1; [reflexivity|].
      intros D. apply (f_equal String.length) in D. cbn in D. lia. }
    destruct (confined_update_wallet_summary "" None l (or_introl eq_refl) _ _ _ E)
      as (W & B & _ & _).
    split; [congruence|]. split; [congruence|]. split.
    + intros k _. apply X.
    + intros k. now rewrite X.
Qed.

(** X16.  The update cycle cannot report a failure.  In every state, and
    whatever the fate of the API calls, [update_dashboard] and
    [run_update_cycle] return [True]: also when every write to the dashboard
    fails, and when the dashboard has never been created.  They leave the
    wallet managers, the registered bots and every worksheet other than the
    dashboard as they are. *)
Theorem X16_update_cycle_reports_success dashboard s :
  exists s',
    PortfolioUpdates.run_update_cycle w dashboard s = (Ret true, s') /\
    PortfolioUpdates.update_dashboard w dashboard s = (Ret true, s') /\
    wallet_managers s' = wallet_managers s /\
    registered_bots s' = registered_bots s /\
    forall k, dashboard <> Some k -> lookup k (sheets s') = lookup k (sheets s).
Proof.
  destruct (update_dashboard_cases dashboard s) as (s' & E & W & B & O & _).
  exists s'. unfold PortfolioUpdates.run_update_cycle. cbv [try_except bind ret].
  rewrite E. auto.
Qed.

(** *** The cells of the wallet table *)

Lemma nth_put_cells old c cells c' :
  nth c' (PortfolioDashboard.put_cells old c cells) Blank =
  if (c <=? c')%nat && (c' <? c + length cells)%nat
  then nth (c' - c) cells Blank
  else nth c' old Blank.
Proof.
  unfold PortfolioDashboard.put_cells.
  assert (length (firstn c (old ++ repeat Blank c)) = c) as Lf.
  { rewrite length_firstn, length_app, repeat_length. lia. }
  destruct (c <=? c')%nat eqn:A; cbn [andb].
  - apply Nat.leb_le in A. rewrite app_nth2 by lia. rewrite Lf.
    destruct (c' <? c + length cells)%nat eqn:B.
    + apply Nat.ltb_lt in B. rewrite app_nth1 by lia. reflexivity.
    + apply Nat.ltb_ge in B. rewrite app_nth2 by lia. rewrite nth_skipn. f_equal. lia.
  - apply Nat.leb_gt in A. rewrite app_nth1 by lia. rewrite nth_firstn.
    replace (c' <? c)%nat with true by (symmetry; apply Nat.ltb_lt; lia).
    destruct (Nat.lt_ge_cases c' (length old)) as [L|L].
    + now rewrite app_nth1.
    + rewrite app_nth2 by lia. rewrite (nth_overflow old) by lia.
      apply nth_repeat.
Qed.

Lemma cell_at_set_cells c cells c' : forall i ws r',
  cell_at (PortfolioDashboard.set_cells ws i c cells) c' r' =
  if (r' =? S i)%nat && ((c <=? c')%nat && (c' <? c + length cells)%nat)
  then nth (c' - c) cells Blank
  else cell_at ws c' r'.
Proof.
  induction i as [|i IH]; intros [|old ws] [|[|r']];
    cbn [PortfolioDashboard.set_cells cell_at nth Nat.eqb andb]; try reflexivity.
  all: try (destruct r'; reflexivity).
  all: try (destruct i; reflexivity).
  - rewrite nth_put_cells. destruct c'; reflexivity.
  - apply nth_put_cells.
  - specialize (IH [] (S r')). cbn [cell_at] in IH. rewrite IH.
    change (S r' =? S i)%nat with (r' =? i)%nat.
    destruct r'; destruct c'; reflexivity.
  - specialize (IH ws (S r')). cbn [cell_at] in IH. exact IH.
Qed.

Lemma update_range_at_online title r c values cells s ws :
  serialise values = Some cells ->
  net s = [] -> lookup title (sheets s) = Some ws ->
  PortfolioDashboard.update_range_at (Some title) r c values s =
  (Ret true,
   set_sheets s (assign title (PortfolioDashboard.set_cells ws (r - 1) c cells) (sheets s))).
Proof.
  intros V N L. unfold PortfolioDashboard.update_range_at. rewrite V. run. rewrite N. run.
  now rewrite L.
Qed.

(** A row with a number that is not finite is not sent: the answer is
    [False] and nothing changes. *)
Lemma update_range_at_unsendable worksheet r c values s :
  serialise values = None ->
  PortfolioDashboard.update_range_at worksheet r c values s = (Ret false, s).
Proof.
  intros V. unfold PortfolioDashboard.update_range_at. rewrite V.
  destruct worksheet; reflexivity.
Qed.

Lemma write_wallets_online title data : forall r s ws,
  net s = [] -> lookup title (sheets s) = Some ws ->
  exists s',
    PortfolioDashboard.write_wallets (Some title) r data s = (Ret tt, s') /\
    net s' = [] /\ lookup title (sheets s') = Some (wallets_written ws r data).
Proof.
  induction data as [|p data IH]; intros r s ws N L;
    cbn [PortfolioDashboard.write_wallets wallets_written].
  - exists s. auto.
  - cbv [bind]. destruct (wallet_cells p) as [cells|] eqn:C.
    + rewrite (update_range_at_online title r 4 _ cells s ws); try assumption.
      apply IH; [exact N|]. cbn [sheets set_sheets]. apply lookup_assign_same.
    + rewrite update_range_at_unsendable by exact C. now apply IH.
Qed.

Lemma wallet_cells_length p cells : wallet_cells p = Some cells -> length cells = 4%nat.
Proof.
  unfold wallet_cells.
  destruct (p_current_value p), (p_total_return_pct p), (p_apy p);
    cbn [number serialise]; try discriminate.
  now intros [= <-].
Qed.

Lemma cell_wallets_written data : forall r ws c' r',
  (1 <= r)%nat ->
  cell_at (wallets_written ws r data) c' r' =
  match (if (r <=? r')%nat && ((4 <=? c')%nat && (c' <? 8)%nat)
         then nth_error data (r' - r) else None) with
  | Some p =>
      match wallet_cells p with
      | Some cells => nth (c' - 4) cells Blank
      | None => cell_at ws c' r'
      end
  | None => cell_at ws c' r'
  end.
Proof.
  induction data as [|p data IH]; intros r ws c' r' R; cbn [wallets_written].
  - destruct ((r <=? r')%nat && ((4 <=? c')%nat && (c' <? 8)%nat)); [|reflexivity].
    now destruct (r' - r)%nat.
  - rewrite IH by lia.
    assert (X : cell_at match wallet_cells p with
                        | Some cells => PortfolioDashboard.set_cells ws (r - 1) 4 cells
                        | None => ws
                        end c' r' =
                if (r' =? r)%nat && ((4 <=? c')%nat && (c' <? 8)%nat)
                then match wallet_cells p with
                     | Some cells => nth (c' - 4) cells Blank
                     | None => cell_at ws c' r'
                     end
                else cell_at ws c' r').
    { destruct (wallet_cells p) as [cells|] eqn:C.
      - rewrite cell_at_set_cells, (wallet_cells_length p cells C).
        replace (S (r - 1)) with r by lia. reflexivity.
      - now destruct ((r' =? r)%nat && ((4 <=? c')%nat && (c' <? 8)%nat)). }
    rewrite X. clear X.
    destruct ((4 <=? c')%nat && (c' <? 8)%nat) eqn:C; rewrite ?andb_false_r; [|reflexivity].
    rewrite !andb_true_r.
    destruct (Nat.lt_trichotomy r' r) as [A|[A|A]].
    + replace (S r <=? r')%nat with false by (symmetry; apply Nat.leb_gt; lia).
      replace (r <=? r')%nat with false by (symmetry; apply Nat.leb_gt; lia).
      replace (r' =? r)%nat with false by (symmetry; apply Nat.eqb_neq; lia).
      reflexivity.
    + subst r'. rewrite Nat.leb_refl, Nat.eqb_refl, Nat.sub_diag.
      replace (S r <=? r)%nat with false by (symmetry; apply Nat.leb_gt; lia).
      reflexivity.
    + replace (S r <=? r')%nat with true by (symmetry; apply Nat.leb_le; lia).
      replace (r <=? r')%nat with true by (symmetry; apply Nat.leb_le; lia).
      replace (r' =? r)%nat with false by (symmetry; apply Nat.eqb_neq; lia).
      replace (r' - r)%nat with (S (r' - S r)) by lia. cbn [nth_error].
      reflexivity.
Qed.

(** X17.  The layout of the wallet table.  On an existing dashboard, while
    the API answers, [update_wallet_summary] returns [True] and writes the
    wallet at position [i] to row [8 + i]: its name to column E, its current
    value to column F, its return percentage to column G and its APY to
    column H, when these three numbers are finite; the row of a wallet with
    a number that is not finite cannot be sent and stays as it was.  The
    time is written to cell B2.  Every other cell is left as
    it is: the columns A to D, where the summary formulas are, the columns
    from I on, the rows above row 8, and the rows below the last wallet. *)
Theorem X17_wallet_table_layout title data s ws :
  net s = [] -> lookup title (sheets s) = Some ws ->
  exists s' ws',
    PortfolioDashboard.update_wallet_summary w (Some title) data s = (Ret true, s') /\
    lookup title (sheets s') = Some ws' /\
    (forall i p value pct apy, nth_error data i = Some p ->
       p_current_value p = Finite value -> p_total_return_pct p = Finite pct ->
       p_apy p = Finite apy ->
       cell_at ws' 4 (8 + i) = text (p_name p) /\
       cell_at ws' 5 (8 + i) = Number value /\
       cell_at ws' 6 (8 + i) = Number pct /\
       cell_at ws' 7 (8 + i) = Number apy) /\
    (forall i p, nth_error data i = Some p -> wallet_cells p = None ->
       forall c, cell_at ws' c (8 + i) = cell_at ws c (8 + i)) /\
    cell_at ws' 1 2 = text (now w) /\
    (forall c r, (c, r) <> (1, 2)%nat ->
       (c < 4 \/ 8 <= c \/ r < 8 \/ 8 + length data <= r)%nat ->
       cell_at ws' c r = cell_at ws c r).
Proof.
  intros N L. unfold PortfolioDashboard.update_wallet_summary. cbv [try_except bind ret].
  destruct (write_wallets_online title data 8 s ws N L) as (s1 & -> & N1 & L1).
  rewrite (update_range_at_online title 2 1 [Some (text (now w))] [text (now w)] s1 _
             eq_refl N1 L1).
  eexists _, _. split; [reflexivity|]. cbn [sheets set_sheets].
  split; [apply lookup_assign_same|].
  split; [|split; [|split]].
  - intros i p value pct apy E Hv Hp Ha.
    rewrite !cell_at_set_cells. cbn [Nat.sub Nat.add Nat.eqb andb].
    rewrite !cell_wallets_written by lia.
    cbn -[wallet_cells]. rewrite Nat.sub_0_r, E.
    unfold wallet_cells. rewrite Hv, Hp, Ha. cbn. auto.
  - intros i p E C c.
    rewrite cell_at_set_cells. cbn [Nat.sub Nat.add Nat.eqb andb].
    rewrite cell_wallets_written by lia.
    cbn -[wallet_cells Nat.leb Nat.ltb]. rewrite Nat.sub_0_r, E.
    replace (8 <=? S (S (S (S (S (S (S (S i))))))))%nat with true by reflexivity.
    cbn [andb]. destruct ((4 <=? c)%nat && (c <? 8)%nat); [rewrite C|]; reflexivity.
  - rewrite cell_at_set_cells. reflexivity.
  - intros c r D C. rewrite cell_at_set_cells. cbn [Nat.sub length Nat.add].
    destruct ((r =? 2)%nat && ((1 <=? c)%nat && (c <? 2)%nat)) eqn:X.
    + exfalso. apply D. apply andb_true_iff in X. destruct X as (X1 & X2).
      apply andb_true_iff in X2. destruct X2 as (X2 & X3).
      apply Nat.eqb_eq in X1. apply Nat.leb_le in X2. apply Nat.ltb_lt in X3.
      f_equal; lia.
    + rewrite cell_wallets_written by lia.
      destruct ((8 <=? r)%nat && ((4 <=? c)%nat && (c <? 8)%nat)) eqn:Y; [|reflexivity].
      apply andb_true_iff in Y. destruct Y as (Y1 & Y2).
      apply andb_true_iff in Y2. destruct Y2 as (Y2 & Y3).
      apply Nat.leb_le in Y1, Y2. apply Nat.ltb_lt in Y3.
      destruct (nth_error data (r - 8)) eqn:E; [|reflexivity].
      assert (nth_error data (r - 8) <> None) as Z by congruence.
      apply nth_error_Some in Z. lia.
Qed.

(** X18.  The dashboard is rebuilt.  While the API answers,
    [create_dashboard_sheet] returns the worksheet "Portfolio Dashboard",
    which then holds the eight header rows and nothing else, whether it
    existed before or not: what it held before, the wallet table included,
    is gone.  The other worksheets, the wallet managers and the registered
    bots are as before. *)
Theorem X18_dashboard_is_rebuilt s :
  net s = [] ->
  PortfolioDashboard.create_dashboard_sheet w s =
  (Ret "Portfolio Dashboard",
   set_sheets s (assign "Portfolio Dashboard" (PortfolioDashboard.headers w) (sheets s))).
Proof.
  intros N.
  unfold PortfolioDashboard.create_dashboard_sheet, PortfolioDashboard._format_dashboard,
    SheetsConnector.get_or_create_worksheet.
  unfold PortfolioDashboard.headers at 1.
  cbn [PortfolioDashboard.write_headers map].
  unfold PortfolioDashboard.update_range_at.
  run. rewrite N.
  destruct (lookup "Portfolio Dashboard" (sheets s)) eqn:L;
    repeat (progress (run; cbn [serialise];
                      rewrite ?N, ?L, ?lookup_assign_same, ?assign_assign));
    reflexivity.
Qed.

(** *** Setting up a portfolio *)

Lemma add_wallet_grows name s s' :
  PortfolioManager.add_wallet name s = (Ret tt, s') ->
  registered_bots s' = registered_bots s /\
  wallet_managers s' = managers_after [name] (wallet_managers s) /\
  (forall k, lookup k (sheets s) <> None -> lookup k (sheets s') <> None) /\
  (PortfolioManager.has_wallet name s = false -> lookup name (sheets s') <> None).
Proof.
  intros E. destruct (add_wallet_cases name s _ s' E) as (B & O & W & K & _).
  split; [exact B|]. split; [exact W|]. split; [|exact K].
  intros k. destruct (string_dec k name) as [->|D].
  - unfold PortfolioManager.add_wallet in E.
    destruct (PortfolioManager.has_wallet name s); [congruence|]. intros _. now apply K.
  - now rewrite O.
Qed.

Lemma has_wallet_after names : forall managers n,
  (In n names \/ existsb (String.eqb n) managers = true) ->
  existsb (String.eqb n) (managers_after names managers) = true.
Proof.
  unfold managers_after.
  induction names as [|m names IH]; intros managers n; cbn [fold_left In].
  - intros [[]|X]; exact X.
  - intros X. apply IH.
    destruct (existsb (String.eqb m) managers) eqn:M.
    + destruct X as [[->|X]|X]; auto.
    + rewrite existsb_app. cbn [existsb]. destruct X as [[->|X]|X]; auto.
      * right. rewrite String.eqb_refl. apply orb_true_r.
      * right. rewrite X. reflexivity.
Qed.

Lemma add_wallets_grow names : forall s s',
  PortfolioUpdates.add_wallets names s = (Ret tt, s') ->
  registered_bots s' = registered_bots s /\
  wallet_managers s' = managers_after names (wallet_managers s) /\
  (forall k, lookup k (sheets s) <> None -> lookup k (sheets s') <> None) /\
  (forall n, In n names -> PortfolioManager.has_wallet n s = false ->
     lookup n (sheets s') <> None).
Proof.
  induction names as [|n names IH]; intros s s'; cbn [PortfolioUpdates.add_wallets].
  - intros [= <-]. cbn. tauto.
  - intros E. apply bind_inv in E. destruct E as ([] & s1 & A & E).
    apply add_wallet_grows in A. destruct A as (B1 & W1 & K1 & N1).
    apply IH in E. destruct E as (B2 & W2 & K2 & N2).
    split; [congruence|]. split; [rewrite W2, W1; reflexivity|]. split; [auto|].
    intros m [<-|I] Hm; [auto|].
    destruct (PortfolioManager.has_wallet m s1) eqn:H1; [|auto].
    unfold PortfolioManager.has_wallet in Hm, H1. rewrite W1 in H1.
    unfold managers_after in H1. cbn [fold_left] in H1.
    destruct (existsb (String.eqb n) (wallet_managers s)); [congruence|].
    rewrite existsb_app, Hm in H1. cbn [existsb orb] in H1. rewrite orb_false_r in H1.
    apply String.eqb_eq in H1. subst m. auto.
Qed.

(** X19.  What [setup_portfolio] has done when it returns.  Every wallet
    of the configuration is managed; the new managers stand behind the
    earlier ones, in the order of the configuration and without
    repetition; every configured wallet that was not managed before has a
    worksheet; the dashboard worksheet exists; the registered bots are as
    before. *)
Theorem X19_setup_portfolio_adds_every_wallet config_wallets s s' :
  PortfolioUpdates.setup_portfolio w config_wallets s = (Ret tt, s') ->
  wallet_managers s' = managers_after config_wallets (wallet_managers s) /\
  (forall n, In n config_wallets -> PortfolioManager.has_wallet n s' = true) /\
  (forall n, In n config_wallets -> PortfolioManager.has_wallet n s = false ->
     lookup n (sheets s') <> None) /\
  lookup "Portfolio Dashboard" (sheets s') <> None /\
  registered_bots s' = registered_bots s.
Proof.
  unfold PortfolioUpdates.setup_portfolio. intros E.
  apply bind_inv in E. destruct E as (t & s1 & C & E).
  apply bind_inv in E. destruct E as ([] & s2 & A & E).
  apply bind_inv in E. destruct E as (b & s3 & U & E). injection E as <-.
  unfold PortfolioDashboard.create_dashboard_sheet in C.
  apply bind_inv in C. destruct C as (t0 & s0 & G & C).
  pose proof (get_or_create_title _ _ _ _ G) as ->.
  pose proof (get_or_create_exists _ _ _ _ G) as X0.
  destruct (confined_get_or_create _ _ _ _ G) as (W0 & B0 & _ & _).
  assert (confined "Portfolio Dashboard"
            (Worksheet.clear "Portfolio Dashboard" ;;
             PortfolioDashboard.write_headers "Portfolio Dashboard" 0
               (PortfolioDashboard.headers w) ;;
             PortfolioDashboard._format_dashboard "Portfolio Dashboard" ;;
             ret "Portfolio Dashboard")) as Cf.
  { apply confined_bind; [confine|]. intros _.
    apply confined_bind; [apply confined_dashboard_headers|]. intros _.
    unfold PortfolioDashboard._format_dashboard. confine. }
  destruct (Cf _ _ _ C) as (W1 & B1 & _ & X1).
  apply add_wallets_grow in A. destruct A as (B2 & W2 & K2 & N2).
  destruct (update_dashboard_cases (Some t) s2) as (s3' & U' & W3 & B3 & O3 & K3).
  rewrite U in U'. injection U' as _ <-.
  split; [rewrite W3, W2, W1, W0; reflexivity|]. split; [|split; [|split]].
  - intros n I. unfold PortfolioManager.has_wallet. rewrite W3, W2.
    apply has_wallet_after. auto.
  - intros n I Hn. apply K3, N2; [exact I|].
    unfold PortfolioManager.has_wallet in *. now rewrite W1, W0.
  - auto.
  - congruence.
Qed.
End DashboardFacts.

Lemma X17_witness :
  exists s' ws',
    PortfolioDashboard.update_wallet_summary Sample.w0 (Some "Portfolio Dashboard")
      [zero_performance "W"] Noted.with_dashboard = (Ret true, s') /\
    lookup "Portfolio Dashboard" (sheets s') = Some ws' /\
    (forall i p value pct apy, nth_error [zero_performance "W"] i = Some p ->
       p_current_value p = Finite value -> p_total_return_pct p = Finite pct ->
       p_apy p = Finite apy ->
       cell_at ws' 4 (8 + i) = text (p_name p) /\
       cell_at ws' 5 (8 + i) = Number value /\
       cell_at ws' 6 (8 + i) = Number pct /\
       cell_at ws' 7 (8 + i) = Number apy) /\
    (forall i p, nth_error [zero_performance "W"] i = Some p -> wallet_cells p = None ->
       forall c, cell_at ws' c (8 + i) = cell_at (PortfolioDashboard.headers Sample.w0) c (8 + i)) /\
    cell_at ws' 1 2 = text (now Sample.w0) /\
    (forall c r, (c, r) <> (1, 2)%nat ->
       (c < 4 \/ 8 <= c \/ r < 8 \/ 8 + length [zero_performance "W"] <= r)%nat ->
       cell_at ws' c r = cell_at (PortfolioDashboard.headers Sample.w0) c r).
Proof.
  apply (X17_wallet_table_layout Sample.w0 "Portfolio Dashboard" [zero_performance "W"]
           Noted.with_dashboard (PortfolioDashboard.headers Sample.w0)).
  - reflexivity.
  - vm_compute. reflexivity.
Defined.

Lemma X18_witness :
  PortfolioDashboard.create_dashboard_sheet Sample.w0 Noted.with_dashboard =
  (Ret "Portfolio Dashboard",
   set_sheets Noted.with_dashboard
     (assign "Portfolio Dashboard" (PortfolioDashboard.headers Sample.w0)
        (sheets Noted.with_dashboard))).
Proof.
  apply (X18_dashboard_is_rebuilt Sample.w0 Noted.with_dashboard).
  reflexivity.
Defined.

Lemma X19_witness :
  wallet_managers (Sample.after (PortfolioUpdates.setup_portfolio Sample.w0 ["W1"; "W2"])
                     Sample.start) =
    managers_after ["W1"; "W2"] (wallet_managers Sample.start) /\
  (forall n, In n ["W1"; "W2"] ->
     PortfolioManager.has_wallet n
       (Sample.after (PortfolioUpdates.setup_portfolio Sample.w0 ["W1"; "W2"])
          Sample.start) = true) /\
  (forall n, In n ["W1"; "W2"] -> PortfolioManager.has_wallet n Sample.start = false ->
     lookup n (sheets (Sample.after (PortfolioUpdates.setup_portfolio Sample.w0 ["W1"; "W2"])
                         Sample.start)) <> None) /\
  lookup "Portfolio Dashboard"
    (sheets (Sample.after (PortfolioUpdates.setup_portfolio Sample.w0 ["W1"; "W2"])
               Sample.start)) <> None /\
  registered_bots (Sample.after (PortfolioUpdates.setup_portfolio Sample.w0 ["W1"; "W2"])
                     Sample.start) = registered_bots Sample.start.
Proof.
  apply (X19_setup_portfolio_adds_every_wallet Sample.w0 ["W1"; "W2"] Sample.start).
  vm_compute. reflexivity.
Defined.
